(** * georinex: RINEX 3 observation reader ([src/georinex/obs3.py])

    A shallow embedding of [obsheader3], [_timeobs], [obstime3],
    [_indicators], [_epoch] and [rinexobs3], the properties of the
    specification that concern them, and further properties that the
    code shows.

    Conventions.
    - Text is ASCII ([string]); a file is the list of its lines.
    - A Python exception is a value of [exn]; a computation that may
      raise returns a [result].
    - [datetime] values are counted in microseconds since
      0001-01-01T00:00:00, [timedelta] values in microseconds.
    - Floating point, [numpy.genfromtxt], [xarray] and the helpers of
      [rio.py] are collaborators: they are the fields of [Externals]. *)

From Stdlib Require Import String Ascii List ZArith Bool Lia Arith.
Import ListNotations.

Set Implicit Arguments.

Local Open Scope string_scope.
Local Open Scope Z_scope.

(** ** Exceptions and results *)

Inductive exn : Type :=
| ValueError
| KeyError
| AssertionError
| IndexError
| TypeError
| AttributeError
| OverflowError
| ExternalError.

Definition exn_eqb (a b : exn) : bool :=
  match a, b with
  | ValueError, ValueError | KeyError, KeyError
  | AssertionError, AssertionError | IndexError, IndexError
  | TypeError, TypeError | AttributeError, AttributeError
  | OverflowError, OverflowError | ExternalError, ExternalError => true
  | _, _ => false
  end.

Inductive result (A : Type) : Type :=
| Ok (a : A)
| Raise (e : exn).

Arguments Ok {A} a.
Arguments Raise {A} e.

Definition bind {A B : Type} (r : result A) (k : A -> result B) : result B :=
  match r with
  | Ok a => k a
  | Raise e => Raise e
  end.

Declare Scope py_scope.
Delimit Scope py_scope with py.
Notation "x <- r ;; k" := (bind r (fun x => k))
  (at level 61, r at next level, right associativity) : py_scope.
Notation "' p <- r ;; k" := (bind r (fun v => let p := v in k))
  (at level 61, p pattern, r at next level, right associativity) : py_scope.
Local Open Scope py_scope.

(** [assert b] *)
Definition py_assert (b : bool) : result unit :=
  if b then Ok tt else Raise AssertionError.

(** [try: r  except (e1, e2, ...): h] *)
Definition try_except {A : Type} (r : result A) (caught : list exn)
    (h : result A) : result A :=
  match r with
  | Ok a => Ok a
  | Raise e => if existsb (exn_eqb e) caught then h else Raise e
  end.

Definition result_map {A B : Type} (f : A -> B) (r : result A) : result B :=
  a <- r ;; Ok (f a).

(** [for x in l: s = step(s, x)] *)
Fixpoint foldM {A S : Type} (step : S -> A -> result S) (l : list A) (s : S)
    : result S :=
  match l with
  | [] => Ok s
  | x :: l' => s' <- step s x ;; foldM step l' s'
  end.

Fixpoint mapM {A B : Type} (f : A -> result B) (l : list A)
    : result (list B) :=
  match l with
  | [] => Ok []
  | a :: l' => b <- f a ;; bs <- mapM f l' ;; Ok (b :: bs)
  end.

(** ** Python strings *)

Module Py.

(** [s[n:]] *)
Fixpoint drop (n : nat) (s : string) : string :=
match n, s with
| O, _ => s
| S n', String _ s' => drop n' s'
| S _, EmptyString => EmptyString
end.

(** [s[:n]] *)
Fixpoint take (n : nat) (s : string) : string :=
match n, s with
| S n', String c s' => String c (take n' s')
| _, _ => EmptyString
end.

(** [s[a:b]] for non-negative [a] and [b] *)
Definition slice (a b : nat) (s : string) : string :=
take (b - a) (drop a s).

(** [s.startswith(p)] *)
Fixpoint startswith (s p : string) {struct p} : bool :=
match p, s with
| EmptyString, _ => true
| String c p', String d s' => Ascii.eqb c d && startswith s' p'
| String _ _, EmptyString => false
end.

(** [p in s] *)
Fixpoint contains (p s : string) : bool :=
startswith s p ||
match s with
| EmptyString => false
| String _ s' => contains p s'
end.

(** [c.isspace()] on ASCII: tab, LF, VT, FF, CR, FS, GS, RS, US, space *)
Definition isspace (c : ascii) : bool :=
let n := nat_of_ascii c in
((9 <=? n) && (n <=? 13) || (28 <=? n) && (n <=? 32))%nat.

(** The blanks that [int] and [float] pass over around a number in
  ASCII text: tab, LF, VT, FF, CR and space.  FS, GS, RS and US, which
  [strip] removes, are not among them. *)
Definition isblank (c : ascii) : bool :=
let n := nat_of_ascii c in
((9 <=? n) && (n <=? 13) || (n =? 32))%nat.

(** The characters that satisfy [sp] removed at the left, at the right *)
Fixpoint lstrip_of (sp : ascii -> bool) (s : string) : string :=
match s with
| String c s' => if sp c then lstrip_of sp s' else s
| EmptyString => EmptyString
end.

Fixpoint rstrip_of (sp : ascii -> bool) (s : string) : string :=
match s with
| String c s' =>
    match rstrip_of sp s' with
    | EmptyString => if sp c then EmptyString else String c EmptyString
    | t => String c t
    end
| EmptyString => EmptyString
end.

Definition lstrip (s : string) : string := lstrip_of isspace s.
Definition rstrip (s : string) : string := rstrip_of isspace s.

(** [s.strip()] *)
Definition strip (s : string) : string := rstrip (lstrip s).

(** The text of a number, the blanks around it passed over *)
Definition number_text (s : string) : string :=
rstrip_of isblank (lstrip_of isblank s).

(** [s.split()]: the maximal runs of non-blank characters.
  [w] is the word being read, in reverse. *)
Fixpoint split_aux (s : string) (w : list ascii) : list string :=
let flush := match w with
             | [] => []
             | _ => [string_of_list_ascii (rev w)]
             end in
match s with
| EmptyString => flush
| String c s' =>
    if isspace c then flush ++ split_aux s' [] else split_aux s' (c :: w)
end.

Definition split (s : string) : list string := split_aux s [].

(** [s.replace(old, new)] for one-character [old] and [new] *)
Fixpoint replace (old new : ascii) (s : string) : string :=
match s with
| EmptyString => EmptyString
| String c s' =>
    String (if Ascii.eqb c old then new else c) (replace old new s')
end.

(** [s[0]] *)
Definition head (s : string) : result string :=
match s with
| String c _ => Ok (String c EmptyString)
| EmptyString => Raise IndexError
end.

Definition isdigit (c : ascii) : bool :=
let n := nat_of_ascii c in ((48 <=? n) && (n <=? 57))%nat.

Definition isupper (c : ascii) : bool :=
let n := nat_of_ascii c in ((65 <=? n) && (n <=? 90))%nat.

Definition digit_value (c : ascii) : Z := Z.of_nat (nat_of_ascii c) - 48.

(** The digit part of an integer literal: digits, with single
  underscores allowed between two digits.  [prev] tells whether the
  previous character was a digit. *)
Fixpoint digits (s : string) (acc : Z) (prev : bool) : option Z :=
match s with
| EmptyString => if prev then Some acc else None
| String c s' =>
    if isdigit c then digits s' (10 * acc + digit_value c) true
    else if Ascii.eqb c "_" && prev then digits s' acc false
    else None
end.

(** [int(s)] on a string: blanks around, an optional sign, digits *)
Definition int (s : string) : result Z :=
let t := number_text s in
let '(neg, body) :=
  match t with
  | String "+" r => (false, r)
  | String "-" r => (true, r)
  | _ => (false, t)
  end in
match digits body 0 false with
| Some n => Ok (if neg then - n else n)
| None => Raise ValueError
end.

End Py.

Arguments Py.take : simpl never.
Arguments Py.drop : simpl never.
Arguments Py.slice : simpl never.
Arguments Py.startswith : simpl never.
Arguments Py.contains : simpl never.
Arguments Py.strip : simpl never.
Arguments Py.number_text : simpl never.
Arguments Py.split : simpl never.
Arguments Py.int : simpl never.
Arguments Py.head : simpl never.

(** ** [datetime] and [timedelta] *)

Definition is_leap (y : Z) : bool :=
  (y mod 4 =? 0) && (negb (y mod 100 =? 0) || (y mod 400 =? 0)).

Definition days_in_month (y m : Z) : Z :=
  if (m =? 2) then (if is_leap y then 29 else 28)
  else if (m =? 4) || (m =? 6) || (m =? 9) || (m =? 11) then 30
  else 31.

Definition days_before_year (y : Z) : Z :=
  let p := y - 1 in p * 365 + p / 4 - p / 100 + p / 400.

Fixpoint days_before_month_aux (y : Z) (k : nat) : Z :=
  match k with
  | O => 0
  | S k' => days_before_month_aux y k' + days_in_month y (Z.of_nat k)
  end.

Definition days_before_month (y m : Z) : Z :=
  days_before_month_aux y (Z.to_nat (m - 1)).

Definition us_per_second : Z := 1000000.
Definition us_per_day : Z := 86400 * us_per_second.

(** One past the largest [datetime], 9999-12-31T23:59:59.999999 *)
Definition datetime_end : Z := 3652059 * us_per_day.

(** [datetime(y, mo, d, hour=h, minute=mi, second=s, microsecond=us)] *)
Definition datetime (y mo d h mi s us : Z) : result Z :=
  if (1 <=? y) && (y <=? 9999) && (1 <=? mo) && (mo <=? 12)
     && (1 <=? d) && (d <=? days_in_month y mo)
     && (0 <=? h) && (h <=? 23) && (0 <=? mi) && (mi <=? 59)
     && (0 <=? s) && (s <=? 59) && (0 <=? us) && (us <=? 999999)
  then Ok ((days_before_year y + days_before_month y mo + d - 1) * us_per_day
           + ((h * 60 + mi) * 60 + s) * us_per_second + us)
  else Raise ValueError.

(** [t + dt] on a [datetime] *)
Definition datetime_add (t dt : Z) : result Z :=
  let r := t + dt in
  if (0 <=? r) && (r <? datetime_end) then Ok r else Raise OverflowError.

(** ** Dictionaries

    A Python [dict] keeps its keys in insertion order; assigning to a key
    that is present keeps the key where it is. *)

Section Dict.
Variable V : Type.

Definition dict : Type := list (string * V).

Fixpoint dict_get (d : dict) (k : string) : result V :=
  match d with
  | [] => Raise KeyError
  | (k', v) :: d' => if String.eqb k k' then Ok v else dict_get d' k
  end.

(** [k in d] *)
Fixpoint dict_mem (d : dict) (k : string) : bool :=
  match d with
  | [] => false
  | (k', _) :: d' => String.eqb k k' || dict_mem d' k
  end.

(** [d[k] = v] *)
Fixpoint dict_set (d : dict) (k : string) (v : V) : dict :=
  match d with
  | [] => [(k, v)]
  | (k', v') :: d' =>
      if String.eqb k k' then (k', v) :: d' else (k', v') :: dict_set d' k v
  end.

Definition dict_keys (d : dict) : list string := map fst d.
End Dict.

Arguments dict_get {V} d k.
Arguments dict_mem {V} d k.
Arguments dict_set {V} d k v.
Arguments dict_keys {V} d.

(** ** Arrays ([numpy]) *)

(** [enumerate(l)] *)
Definition enumerate {A : Type} (l : list A) : list (nat * A) :=
  combine (seq 0 (length l)) l.

(** [a[i] = v]; every use below has [i] in range *)
Fixpoint list_set {A : Type} (l : list A) (i : nat) (v : A) : list A :=
  match l, i with
  | [], _ => []
  | _ :: l', O => v :: l'
  | x :: l', S i' => x :: list_set l' i' v
  end.

(** [a[lo:hi] = v]: a slice is clipped to the array *)
Fixpoint slice_assign {A : Type} (l : list A) (lo hi : nat) (v : A)
    : list A :=
  match l with
  | [] => []
  | x :: l' =>
      (if (lo =? 0)%nat && negb (hi =? 0)%nat then v else x)
        :: slice_assign l' (pred lo) (pred hi) v
  end.

(** [a[mask]] for a boolean [mask] as long as [a] *)
Fixpoint mask_select {A : Type} (mask : list bool) (l : list A) : list A :=
  match mask, l with
  | b :: mask', x :: l' =>
      if b then x :: mask_select mask' l' else mask_select mask' l'
  | _, _ => []
  end.

(** [a[i]], an [IndexError] out of range *)
Definition index {A : Type} (l : list A) (i : nat) : result A :=
  match nth_error l i with
  | Some x => Ok x
  | None => Raise IndexError
  end.

(** A column selection: [np.s_[:]] or a boolean mask *)
Inductive colsel : Type :=
| SelAll
| SelMask (mask : list bool).

(** [row[di]] *)
Definition select_columns {A : Type} (di : colsel) (row : list A)
    : result (list A) :=
  match di with
  | SelAll => Ok row
  | SelMask mask =>
      if (length mask =? length row)%nat then Ok (mask_select mask row)
      else Raise IndexError
  end.

(** ** Arguments of the entry points *)

(** [use]: [None], a string, a list or tuple of system codes in the
    order in which the caller wrote them, or a set of system codes.  A
    set has no order of the caller's: [UseSet l] is the set whose
    elements Python iterates over in the order [l], which the hashing
    of the strings decides (see [set_order] and [py_set] below). *)
Inductive use_arg : Type :=
| UseNone
| UseStr (s : string)
| UseSeq (l : list string)
| UseSet (l : list string).

(** [meas]: [None], a string, or a list of code prefixes *)
Inductive meas_arg : Type :=
| MeasNone
| MeasStr (s : string)
| MeasSeq (l : list string).

(** The characters of a string, as Python iterates over it *)
Fixpoint chars (s : string) : list string :=
  match s with
  | EmptyString => []
  | String c s' => String c EmptyString :: chars s'
  end.

(** [for k in use] *)
Definition use_iter (use : use_arg) : list string :=
  match use with
  | UseNone => []
  | UseStr s => chars s
  | UseSeq l => l
  | UseSet l => l
  end.

(** [if use:] *)
Definition use_truthy (use : use_arg) : bool :=
  match use_iter use with
  | [] => false
  | _ => true
  end.

(** ** Collaborators

    What the module imports and does not define: floating point,
    [pymap3d.ecef2geodetic], [rio.rinexinfo], [common.check_time_interval],
    [numpy.genfromtxt], uninitialised [numpy.empty] storage and the
    [xarray.Dataset] operations; and the order of the elements of a
    set, which is the interpreter's. *)

Class Externals : Type := {
  (** [list(set(l))]: the elements of the set made of [l], in the order
      in which Python iterates over it *)
  set_order : list string -> list string;
  (** binary floating point: [float(s)], [int(x)] and
      [int(x % 1 * 1000000)] *)
  float : Type;
  py_float : string -> result float;
  float_to_int : float -> result Z;
  frac_micro : float -> result Z;
  (** [ecef2geodetic], [None] when [pymap3d] is not installed *)
  geodetic : Type;
  ecef2geodetic : option (float -> float -> float -> result geodetic);
  (** [rinexinfo(f)]: the first entries of the header dictionary and the
      lines left in the stream *)
  info : Type;
  rinexinfo : list string -> result (list (string * info) * list string);
  (** [check_time_interval(interval)]: a [timedelta] or [None] *)
  interval_arg : Type;
  check_time_interval : interval_arg -> result (option Z);
  (** [uninitialized sk i]: what cell [i] of the array that [np.empty]
      returns for system [sk] holds before it is written *)
  uninitialized : string -> nat -> bool;
  (** [np.atleast_2d(np.genfromtxt(raw, delimiter=(14, 1, 1) * Fmax))] *)
  cell : Type;
  genfromtxt : string -> Z -> result (list (list cell));
  (** [xarray]: the empty dataset with coordinates [time] and [sv];
      [Dataset(dsf, coords={"time": [time], "sv": gsv})]; [len(data)];
      [concat((a, b), dim="time")]; [merge((a, b))];
      [data.time], [data.sv] and [data.assign_coords(sv=l)] *)
  Dataset : Type;
  ds_empty : Dataset;
  ds_make : list (string * list cell) -> Z -> list string -> result Dataset;
  ds_len : Dataset -> nat;
  ds_concat : Dataset -> Dataset -> result Dataset;
  ds_merge : Dataset -> Dataset -> result Dataset;
  ds_time : Dataset -> list Z;
  ds_sv : Dataset -> list string;
  ds_assign_sv : Dataset -> list string -> result Dataset
}.

(** The set that a caller writes with the elements [l], [set(l)] *)
Definition py_set {E : Externals} (l : list string) : use_arg :=
  UseSet (set_order l).

(** ** The header: [obsheader3] *)

Section Header.
Context {E : Externals}.

(** A value of the header dictionary: the text under a label, an entry
    of [rinexinfo], or one of the derived entries *)
Inductive hval : Type :=
| HStr (s : string)
| HInfo (v : info)
| HPosition (p : list float)
| HGeodetic (g : geodetic)
| HTime (t : Z)
| HFloat (x : float).

(** The dictionary [obsheader3] returns.  Its entries ["fields"],
    ["fields_ind"] and ["Fmax"], which are assigned last, are the three
    named fields. *)
Record header : Type := mkHeader {
  hdr_dict : dict hval;
  hdr_fields : dict (list string);
  hdr_fields_ind : dict colsel;
  hdr_Fmax : Z
}.

Definition OBS_TYPES : string := "SYS / # / OBS TYPES".

(** The text under a label; a value that is no string has no
    [split] and cannot be sliced like one *)
Definition hdr_text (hdr : dict hval) (k : string) : result string :=
  v <- dict_get hdr k ;;
  match v with
  | HStr s => Ok s
  | _ => Raise AttributeError
  end.

(** Lines 298-303: the continuation lines of a "SYS / # / OBS TYPES"
    record.  At the end of the file [f.readline()] returns the empty
    string, which does not hold the label. *)
Fixpoint obs_types_continuation (n : Z) (codes : list string)
    (f : list string) {struct f} : result (list string * list string) :=
  if n >? 0 then
    match f with
    | [] => Raise AssertionError
    | ln :: f' =>
        _ <- py_assert (Py.contains OBS_TYPES (Py.drop 60 ln)) ;;
        obs_types_continuation (n - 13)
          (codes ++ Py.split (Py.slice 6 60 ln)) f'
    end
  else Ok (codes, f).

(** Lines 292-305: a "SYS / # / OBS TYPES" record whose first line has
    content [c]; returns the system, its codes, the declared count and
    the lines left *)
Definition obs_types_record (c : string) (f : list string)
    : result (string * list string * Z * list string) :=
  k <- Py.head c ;;
  let first := Py.split (Py.slice 6 60 c) in
  N <- Py.int (Py.slice 3 6 c) ;;
  '(codes, f') <- obs_types_continuation (N - 13) first f ;;
  _ <- py_assert (Z.of_nat (length codes) =? N) ;;
  Ok (k, codes, N, f').

(** What the loop over the header lines has built so far *)
Record header_state : Type := mkHeaderState {
  hs_hdr : dict hval;
  hs_fields : dict (list string);
  hs_Fmax : Z
}.

(** Lines 309-313: any other labelled line *)
Definition add_label (hdr : dict hval) (hd c : string)
    : result (dict hval) :=
  let label := Py.strip hd in
  if negb (dict_mem hdr label) then Ok (dict_set hdr label (HStr c))
  else
    v <- dict_get hdr label ;;
    match v with
    | HStr s => Ok (dict_set hdr label (HStr (s ++ " " ++ c)))
    | _ => Raise TypeError
    end.

(** Lines 285-313: the loop over the header lines.  An iteration reads
    at least one line, so [length f] iterations are enough. *)
Fixpoint header_loop (fuel : nat) (f : list string) (st : header_state)
    : result (header_state * list string) :=
  match fuel, f with
  | S fuel', ln :: f' =>
      if Py.contains "END OF HEADER" ln then Ok (st, f')
      else
        let hd := Py.slice 60 80 ln in
        let c := Py.take 60 ln in
        if Py.contains OBS_TYPES hd then
          '(k, codes, N, f'') <- obs_types_record c f' ;;
          header_loop fuel' f''
            (mkHeaderState (hs_hdr st) (dict_set (hs_fields st) k codes)
               (Z.max N (hs_Fmax st)))
        else
          hdr <- add_label (hs_hdr st) hd c ;;
          header_loop fuel' f' (mkHeaderState hdr (hs_fields st) (hs_Fmax st))
  | _, _ => Ok (st, [])
  end.

(** Lines 317-324: the receiver position, on a best-effort basis *)
Definition header_position (hdr : dict hval) : result (dict hval) :=
  try_except
    (s <- hdr_text hdr "APPROX POSITION XYZ" ;;
     xs <- mapM py_float (Py.split s) ;;
     let pos := firstn 3 xs in
     let hdr1 := dict_set hdr "position" (HPosition pos) in
     match ecef2geodetic, pos with
     | Some conv, [x; y; z] =>
         try_except
           (g <- conv x y z ;;
            Ok (dict_set hdr1 "position_geodetic" (HGeodetic g)))
           [KeyError; ValueError] (Ok hdr1)
     | _, _ => Ok hdr1
     end)
    [KeyError; ValueError] (Ok hdr).

(** Lines 326-339: the time of the first observation *)
Definition header_t0 (hdr : dict hval) : result (dict hval) :=
  try_except
    (t0s <- hdr_text hdr "TIME OF FIRST OBS" ;;
     year <- Py.int (Py.take 6 t0s) ;;
     month <- Py.int (Py.slice 6 12 t0s) ;;
     day <- Py.int (Py.slice 12 18 t0s) ;;
     hour <- Py.int (Py.slice 18 24 t0s) ;;
     minute <- Py.int (Py.slice 24 30 t0s) ;;
     sec <- py_float (Py.slice 30 36 t0s) ;;
     second <- float_to_int sec ;;
     frac <- py_float (Py.slice 30 43 t0s) ;;
     microsecond <- frac_micro frac ;;
     t0 <- datetime year month day hour minute second microsecond ;;
     Ok (dict_set hdr "t0" (HTime t0)))
    [KeyError; ValueError] (Ok hdr).

(** Lines 341-344: the nominal interval *)
Definition header_interval (hdr : dict hval) : result (dict hval) :=
  try_except
    (s <- hdr_text hdr "INTERVAL" ;;
     x <- py_float (Py.take 10 s) ;;
     Ok (dict_set hdr "interval" (HFloat x)))
    [KeyError; ValueError] (Ok hdr).

(** Line 347: [set(fields.keys()).intersection(use)] is not empty *)
Definition intersects (fields : dict (list string)) (use : use_arg)
    : bool :=
  existsb (dict_mem fields) (use_iter use).

(** Line 350: [{k: fields[k] for k in use if k in fields}] *)
Definition restrict_step (fields d : dict (list string)) (k : string)
    : result (dict (list string)) :=
  if dict_mem fields k
  then v <- dict_get fields k ;; Ok (dict_set d k v)
  else Ok d.

Definition restrict_fields (fields : dict (list string))
    (ks : list string) : result (dict (list string)) :=
  foldM (restrict_step fields) ks [].

(** Lines 346-350: the system filter *)
Definition select_systems (fields : dict (list string)) (use : use_arg)
    : result (dict (list string)) :=
  if use_truthy use then
    if negb (intersects fields use) then Raise KeyError
    else restrict_fields fields (use_iter use)
  else Ok fields.

(** Lines 361-362 *)
Definition mark_step (m : string) (ind : list bool)
    (ifield : nat * string) : list bool :=
  let '(i, field) := ifield in
  if Py.startswith field m then list_set ind i true else ind.

(** Lines 360-362: the codes that start with [m] are marked *)
Definition mark_prefix (m : string) (codes : list string)
    (ind : list bool) : list bool :=
  fold_left (mark_step m) (enumerate codes) ind.

(** Lines 358-362 *)
Definition meas_ind (meas codes : list string) : list bool :=
  fold_left (fun ind m => mark_prefix m codes ind) meas
    (repeat false (length codes)).

(** Line 365: [np.empty(Fmax * 3, dtype=bool)] *)
Definition np_empty (sk : string) (n : Z) : list bool :=
  map (uninitialized sk) (seq 0 (Z.to_nat n)).

(** Line 367 *)
Definition mask_step (mask : list bool) (ji : nat * bool) : list bool :=
  let '(j, i) := ji in slice_assign mask (j * 3) (j * 3 + 3) i.

(** Lines 365-367 *)
Definition meas_mask (sk : string) (Fmax : Z) (ind : list bool)
    : list bool :=
  fold_left mask_step (enumerate ind) (np_empty sk (Fmax * 3)).

(** Lines 357-367: the filter for one system *)
Definition select_meas_system (meas : list string) (Fmax : Z)
    (acc : dict (list string) * dict colsel) (sk : string)
    : result (dict (list string) * dict colsel) :=
  let '(fields, sysind) := acc in
  codes <- dict_get fields sk ;;
  let ind := meas_ind meas codes in
  Ok (dict_set fields sk (mask_select ind codes),
      dict_set sysind sk (SelMask (meas_mask sk Fmax ind))).

(** Lines 356-367: the loop over the systems *)
Definition select_meas_loop (meas : list string) (Fmax : Z)
    (keys : list string) (fields : dict (list string))
    : result (dict (list string) * dict colsel) :=
  foldM (select_meas_system meas Fmax) keys (fields, []).

(** Lines 354-369: the measurement filter *)
Definition select_meas (meas : meas_arg) (Fmax : Z)
    (fields : dict (list string))
    : result (dict (list string) * dict colsel) :=
  match meas with
  | MeasSeq l => select_meas_loop l Fmax (dict_keys fields) fields
  | _ => Ok (fields, map (fun kv => (fst kv, SelAll)) fields)
  end.

(** Lines 279-344: the header as the file has it, before the filters,
    with the lines the stream has left *)
Definition read_header (f : list string)
    : result (header_state * list string) :=
  '(info0, f0) <- rinexinfo f ;;
  let hdr0 := map (fun kv => (fst kv, HInfo (snd kv))) info0 in
  '(st, f1) <- header_loop (length f0) f0 (mkHeaderState hdr0 [] 0) ;;
  hdr1 <- header_position (hs_hdr st) ;;
  hdr2 <- header_t0 hdr1 ;;
  hdr3 <- header_interval hdr2 ;;
  Ok (mkHeaderState hdr3 (hs_fields st) (hs_Fmax st), f1).

(** [obsheader3(f, use, meas)] on an open stream, with the lines the
    stream has left *)
Definition obsheader3 (f : list string) (use : use_arg) (meas : meas_arg)
    : result (header * list string) :=
  '(st, f1) <- read_header f ;;
  fields <- select_systems (hs_fields st) use ;;
  '(fields', sysind) <- select_meas meas (hs_Fmax st) fields ;;
  Ok (mkHeader (hs_hdr st) fields' sysind (hs_Fmax st), f1).

End Header.

(** ** One epoch: [_timeobs], [_indicators], [_epoch] *)

Section Epoch.
Context {E : Externals}.

(** [_timeobs(ln)] *)
Definition _timeobs (ln : string) : result Z :=
  if negb (Py.startswith ln "> ") then Raise ValueError
  else
    year <- Py.int (Py.slice 2 6 ln) ;;
    month <- Py.int (Py.slice 7 9 ln) ;;
    day <- Py.int (Py.slice 10 12 ln) ;;
    hour <- Py.int (Py.slice 13 15 ln) ;;
    minute <- Py.int (Py.slice 16 18 ln) ;;
    second <- Py.int (Py.slice 19 21 ln) ;;
    x <- py_float (Py.slice 19 29 ln) ;;
    microsecond <- frac_micro x ;;
    datetime year month day hour minute second microsecond.

(** A column of a grid, [arr[:, j]] *)
Definition column (arr : list (list cell)) (j : nat)
    : result (list cell) :=
  mapM (fun row => index row j) arr.

(** [arr[:, lo:hi]] *)
Definition columns (arr : list (list cell)) (lo hi : nat)
    : list (list cell) :=
  map (fun row => firstn (hi - lo) (skipn lo row)) arr.

(** The variables of one system at one epoch, [dsf] *)
Definition variables : Type := dict (list cell).

(** [k.startswith(("L1", "L2"))] *)
Definition is_phase (k : string) : bool :=
  Py.startswith k "L1" || Py.startswith k "L2".

(** [_indicators(d, k, arr)] *)
Definition _indicators (d : variables) (k : string)
    (arr : list (list cell)) : result variables :=
  d1 <- (if is_phase k
         then lli <- column arr 0 ;; Ok (dict_set d (k ++ "lli") lli)
         else Ok d) ;;
  ssi <- column arr 1 ;;
  Ok (dict_set d1 (k ++ "ssi") ssi).

(** Line 225: the rows of the satellites of system [sk] *)
Fixpoint system_rows (sk : string) (svs : list (nat * string))
    : result (list nat) :=
  match svs with
  | [] => Ok []
  | (i, s) :: svs' =>
      c <- Py.head s ;;
      si <- system_rows sk svs' ;;
      Ok (if Py.contains c sk then i :: si else si)
  end.

(** Lines 238-241: the variables of one code *)
Definition epoch_variable (useindicators : bool)
    (garr : list (list cell)) (dsf : variables) (ik : nat * string)
    : result variables :=
  let '(i, k) := ik in
  value <- column garr (i * 3) ;;
  let dsf1 := dict_set dsf k value in
  if useindicators
  then _indicators dsf1 k (columns garr (i * 3 + 1) (i * 3 + 3))
  else Ok dsf1.

(** Lines 236-241: the loop over the codes of a system *)
Definition epoch_variables (useindicators : bool)
    (garr : list (list cell)) (codes : list string) : result variables :=
  foldM (epoch_variable useindicators garr) (enumerate codes) [].

(** Lines 225-252: the body of the loop over the systems *)
Definition epoch_system (hdr : header) (darr : list (list cell))
    (time : Z) (sv : list string) (useindicators : bool)
    (data : Dataset) (sk : string) : result Dataset :=
  si <- system_rows sk (enumerate sv) ;;
  if (length si =? 0)%nat then Ok data
  else
    di <- dict_get (hdr_fields_ind hdr) sk ;;
    garr0 <- mapM (index darr) si ;;
    garr <- mapM (select_columns di) garr0 ;;
    gsv <- mapM (index sv) si ;;
    codes <- dict_get (hdr_fields hdr) sk ;;
    dsf <- epoch_variables useindicators garr codes ;;
    epoch_data <- ds_make dsf time gsv ;;
    if (ds_len data =? 0)%nat then Ok epoch_data
    else if (length (hdr_fields hdr) =? 1)%nat
         then ds_concat data epoch_data
         else ds_merge data epoch_data.

(** [_epoch(data, raw, hdr, time, sv, useindicators, verbose)];
    what [verbose] prints is not part of the model *)
Definition _epoch (data : Dataset) (raw : string) (hdr : header)
    (time : Z) (sv : list string) (useindicators : bool)
    : result Dataset :=
  darr <- genfromtxt raw (hdr_Fmax hdr) ;;
  foldM (epoch_system hdr darr time sv useindicators)
    (dict_keys (hdr_fields hdr)) data.

End Epoch.

(** ** The scan: [rinexobs3] *)

(** Where control goes after a statement of a loop body *)
Inductive flow : Type :=
| Next
| Continue
| Break.

Section Scan.
Context {E : Externals}.

(** Lines 99-102: the lines of the satellites of an epoch.
    [f.readline()] returns the empty string at the end of the file. *)
Fixpoint read_satellites (n : nat) (f : list string) (sv : list string)
    (raw : string) : list string * string * list string :=
  match n with
  | O => (sv, raw, f)
  | S n' =>
      match f with
      | [] => read_satellites n' [] (sv ++ [Py.take 3 ""]) (raw ++ Py.drop 3 "")
      | ln :: f' =>
          read_satellites n' f' (sv ++ [Py.take 3 ln]) (raw ++ Py.drop 3 ln)
      end
  end.

(** Lines 104-108: the time window *)
Definition time_window (tlim : option (Z * Z)) (time : Z) : flow :=
  match tlim with
  | None => Next
  | Some (t0, t1) =>
      if time <? t0 then Continue
      else if time >? t1 then Break
      else Next
  end.

(** Lines 110-117: the decimation, with the new [last_epoch] *)
Definition decimate (interval : option Z) (last_epoch : option Z)
    (time : Z) : result (flow * option Z) :=
  match interval with
  | None => Ok (Next, last_epoch)
  | Some i =>
      match last_epoch with
      | None => Ok (Next, Some time)
      | Some t =>
          if time - t <? i then Ok (Continue, last_epoch)
          else t' <- datetime_add t i ;; Ok (Next, Some t')
      end
  end.

Section Loop.
(** The loop is written once for any handler of a complete epoch;
    in [rinexobs3] the handler is [_epoch], line 123. *)
Variable D : Type.
Variable handle : D -> string -> Z -> list string -> result D.
Variable tlim : option (Z * Z).
Variable interval : option Z.

Record loop_state : Type := mkLoopState {
  ls_data : D;
  ls_last_epoch : option Z;
  ls_time_offset : list float
}.

(** Lines 91-94 *)
Definition read_time_offset (ln : string) (offs : list float)
    : result (list float) :=
  try_except (x <- py_float (Py.slice 41 56 ln) ;; Ok (offs ++ [x])%list)
    [ValueError] (Ok offs).

(** Lines 81-123.  An iteration reads at least one line, so
    [length f] iterations are enough. *)
Fixpoint epoch_loop (fuel : nat) (f : list string) (st : loop_state)
    : result loop_state :=
  match fuel, f with
  | S fuel', ln :: f1 =>
      if negb (Py.startswith ln ">") then Ok st
      else
        match _timeobs ln with
        | Raise ValueError => epoch_loop fuel' f1 st
        | Raise e => Raise e
        | Ok time =>
            offs <- read_time_offset ln (ls_time_offset st) ;;
            n <- Py.int (Py.slice 33 35 ln) ;;
            let '(sv, raw, f2) :=
              read_satellites (Z.to_nat n) f1 [] "" in
            let st1 := mkLoopState (ls_data st) (ls_last_epoch st) offs in
            match time_window tlim time with
            | Continue => epoch_loop fuel' f2 st1
            | Break => Ok st1
            | Next =>
                '(fl, last) <- decimate interval (ls_last_epoch st) time ;;
                match fl with
                | Continue => epoch_loop fuel' f2 st1
                | Break => Ok st1
                | Next =>
                    data <- handle (ls_data st) raw time sv ;;
                    epoch_loop fuel' f2 (mkLoopState data last offs)
                end
            end
        end
  | _, _ => Ok st
  end.
End Loop.

(** Lines 60-61: a string becomes the set of one element *)
Definition normalize_use (use : use_arg) : use_arg :=
  match use with
  | UseStr s => UseSet [s]
  | _ => use
  end.

(** Lines 63-67 *)
Definition normalize_meas (meas : meas_arg) : meas_arg :=
  let meas1 := match meas with
               | MeasStr s => MeasSeq [s]
               | _ => meas
               end in
  match meas1 with
  | MeasSeq (m :: _) =>
      match Py.strip m with
      | EmptyString => MeasNone
      | _ => meas1
      end
  | _ => MeasNone
  end.

(** Line 126 *)
Definition patch_sv (s : string) : string := Py.replace " " "0" s.

(** [rinexobs3(fn, use, tlim, useindicators, meas, interval=interval)]
    on the lines [f] of the opened file, up to line 126: the
    coordinates and variables of the dataset.  [tlim] is a pair of
    [datetime] values or [None]; the attributes set after line 126 are
    those of [attributes] below, and what [verbose] prints is not part
    of the model. *)
Definition rinexobs3 (f : list string) (use : use_arg)
    (tlim : option (Z * Z)) (useindicators : bool) (meas : meas_arg)
    (interval : interval_arg) : result Dataset :=
  interval' <- check_time_interval interval ;;
  let use' := normalize_use use in
  let meas' := normalize_meas meas in
  '(hdr, f1) <- obsheader3 f use' meas' ;;
  st <- epoch_loop
          (fun data raw time sv => _epoch data raw hdr time sv useindicators)
          tlim interval' (length f1) f1 (mkLoopState ds_empty None []) ;;
  ds_assign_sv (ls_data st) (map patch_sv (ds_sv (ls_data st))).

(** The epochs that reach line 123, in file order, with the final
    [last_epoch]: the loop run with a handler that records the time *)
Definition accepted_epochs (tlim : option (Z * Z)) (interval : option Z)
    (f : list string) : result (list Z * option Z) :=
  st <- epoch_loop (fun log _ time _ => Ok (log ++ [time])%list)
          tlim interval (length f) f (mkLoopState [] None []) ;;
  Ok (ls_data st, ls_last_epoch st).

End Scan.

(** ** The times of a file: [obstime3] *)

Section Times.
Context {E : Externals}.

(** [common.check_unique_times(times)], which the module imports *)
Variable check_unique_times : list Z -> result unit.

(** Lines 192-198: the loop over all the lines of the file, those of
    the header included *)
Fixpoint obstime3_loop (f : list string) (times : list Z)
    : result (list Z) :=
  match f with
  | [] => Ok times
  | ln :: f' =>
      if Py.startswith ln "> " then
        match _timeobs ln with
        | Ok t => obstime3_loop f' (times ++ [t])%list
        | Raise ValueError | Raise IndexError => obstime3_loop f' times
        | Raise e => Raise e
        end
      else obstime3_loop f' times
  end.

(** [obstime3(fn)] on the lines [f] of the opened file *)
Definition obstime3 (f : list string) : result (list Z) :=
  times <- obstime3_loop f [] ;;
  _ <- check_unique_times times ;;
  Ok times.

End Times.

(** ** The attributes of the dataset: lines 128-160 of [rinexobs3] *)

Section Attributes.
Context {E : Externals}.

(** What these lines take from [common.py], [numpy] and [xarray]:
    [determine_time_system(hdr)], ["time" in data.coords.keys()],
    [np.median(np.diff(data.time) / np.timedelta64(1, "s"))], and [int]
    of an entry of [rinexinfo] *)
Variable time_system : Type.
Variable determine_time_system : header -> result time_system.
Variable has_time : Dataset -> bool.
Variable median_step : Dataset -> result float.
Variable int_of_info : info -> result Z.

(** A value of [data.attrs] *)
Inductive attr : Type :=
| AHeader (v : hval)
| ANumber (x : float)
| ANan
| AStr (s : string)
| AInt (n : Z)
| ATimeSystem (s : time_system)
| AOffsets (l : list float).

(** [int(v)] on a value of the header dictionary *)
Definition int_of_hval (v : hval) : result Z :=
  match v with
  | HStr s => Py.int s
  | HInfo i => int_of_info i
  | HFloat x => float_to_int x
  | HPosition _ | HGeodetic _ | HTime _ => Raise TypeError
  end.

(** Lines 131-140 *)
Definition attr_interval (attrs : dict attr) (hdr : header)
    (data : Dataset) : result (dict attr) :=
  if dict_mem (hdr_dict hdr) "interval" then
    v <- dict_get (hdr_dict hdr) "interval" ;;
    Ok (dict_set attrs "interval" (AHeader v))
  else if has_time data then
    try_except
      (x <- median_step data ;; Ok (dict_set attrs "interval" (ANumber x)))
      [TypeError] (Ok attrs)
  else Ok (dict_set attrs "interval" ANan).

(** Lines 148-151 *)
Definition attr_position (attrs : dict attr) (hdr : header)
    : result (dict attr) :=
  if dict_mem (hdr_dict hdr) "position" then
    p <- dict_get (hdr_dict hdr) "position" ;;
    let attrs1 := dict_set attrs "position" (AHeader p) in
    match ecef2geodetic with
    | Some _ =>
        g <- dict_get (hdr_dict hdr) "position_geodetic" ;;
        Ok (dict_set attrs1 "position_geodetic" (AHeader g))
    | None => Ok attrs1
    end
  else Ok attrs.

(** Lines 156-160 *)
Definition attr_clock_offset (attrs : dict attr) (hdr : header)
    : result (dict attr) :=
  if dict_mem (hdr_dict hdr) "RCV CLOCK OFFS APPL" then
    try_except
      (v <- dict_get (hdr_dict hdr) "RCV CLOCK OFFS APPL" ;;
       n <- int_of_hval v ;;
       Ok (dict_set attrs "receiver_clock_offset_applied" (AInt n)))
      [ValueError] (Ok attrs)
  else Ok attrs.

(** Lines 128-160: the attributes [rinexobs3] gives the dataset [data],
    which holds the attributes [attrs] after line 126; [filename] is
    the name of the file when [fn] is a [Path] *)
Definition attributes (attrs : dict attr) (hdr : header) (data : Dataset)
    (time_offset : list float) (filename : option string)
    : result (dict attr) :=
  version <- dict_get (hdr_dict hdr) "version" ;;
  let a1 := dict_set attrs "version" (AHeader version) in
  a2 <- attr_interval a1 hdr data ;;
  let a3 := dict_set a2 "rinextype" (AStr "obs") in
  let a4 := dict_set a3 "fast_processing" (AInt 0) in
  ts <- determine_time_system hdr ;;
  let a5 := dict_set a4 "time_system" (ATimeSystem ts) in
  let a6 := match filename with
            | Some name => dict_set a5 "filename" (AStr name)
            | None => a5
            end in
  a7 <- attr_position a6 hdr ;;
  let a8 := match time_offset with
            | [] => a7
            | _ => dict_set a7 "time_offset" (AOffsets time_offset)
            end in
  attr_clock_offset a8 hdr.

End Attributes.

(** ** What the properties assume of [xarray]

    The coordinates of a dataset come from the datasets it is built
    from, and [assign_coords(sv=l)] replaces the [sv] coordinate only. *)

Record XArrayLaws (E : Externals) : Prop := {
  time_empty : ds_time ds_empty = [];
  sv_empty : ds_sv ds_empty = [];
  time_make : forall dsf t svs d,
      ds_make dsf t svs = Ok d -> ds_time d = [t];
  sv_make : forall dsf t svs d,
      ds_make dsf t svs = Ok d -> ds_sv d = svs;
  time_concat : forall a b c,
      ds_concat a b = Ok c -> incl (ds_time c) (ds_time a ++ ds_time b);
  sv_concat : forall a b c,
      ds_concat a b = Ok c -> incl (ds_sv c) (ds_sv a ++ ds_sv b);
  time_merge : forall a b c,
      ds_merge a b = Ok c -> incl (ds_time c) (ds_time a ++ ds_time b);
  sv_merge : forall a b c,
      ds_merge a b = Ok c -> incl (ds_sv c) (ds_sv a ++ ds_sv b);
  time_assign : forall d l d',
      ds_assign_sv d l = Ok d' -> ds_time d' = ds_time d;
  sv_assign : forall d l d',
      ds_assign_sv d l = Ok d' -> ds_sv d' = l
}.

(** ** Predicates of the properties *)

(** Consecutive elements are at least [i] apart *)
Definition spaced (i : Z) (l : list Z) : Prop :=
  forall k a b,
    nth_error l k = Some a -> nth_error l (S k) = Some b -> i <= b - a.

(** The reference of the decimation [last] after the epochs [log] were
    accepted: the first of them, advanced by one interval for each of
    the others; and each of the others came at least one interval after
    the reference of its time *)
Definition reference_on_grid (i : Z) (log : list Z) (last : option Z)
    : Prop :=
  match log with
  | [] => last = None
  | t0 :: rest =>
      last = Some (t0 + i * Z.of_nat (length rest))
      /\ forall k t, nth_error rest k = Some t ->
                     i <= t - (t0 + i * Z.of_nat k)
  end.

(** An identifier read from a line that satisfies [P], or from the end
    of the file *)
Definition from_line (P : string -> Prop) (s : string) : Prop :=
  s = Py.take 3 "" \/ exists ln, P ln /\ s = Py.take 3 ln.

(** A satellite identifier in its final form: an upper-case letter and
    two digits *)
Definition sv_pattern (s : string) : bool :=
  match s with
  | String c (String d1 (String d2 EmptyString)) =>
      Py.isupper c && Py.isdigit d1 && Py.isdigit d2
  | _ => false
  end.

(** A satellite identifier as a file has it: a digit position may be
    blank *)
Definition sv_in_file (s : string) : bool :=
  match s with
  | String c (String d1 (String d2 EmptyString)) =>
      Py.isupper c
      && (Py.isdigit d1 || Ascii.eqb d1 " ")
      && (Py.isdigit d2 || Ascii.eqb d2 " ")
  | _ => false
  end.

Fixpoint has_blank (s : string) : bool :=
  match s with
  | EmptyString => false
  | String c s' => Ascii.eqb c " " || has_blank s'
  end.

(** A system code: one upper-case letter *)
Definition system_code (k : string) : bool :=
  match k with
  | String c EmptyString => Py.isupper c
  | _ => false
  end.

(** An epoch line, or the line of an observation: it begins with the
    identifier of a satellite.  The lines of an event record, which
    follow an epoch line whose flag is 2 to 5, are not of this form. *)
Definition epoch_or_observation (ln : string) : bool :=
  Py.startswith ln ">" || sv_in_file (Py.take 3 ln).

(** An identifier as lines 101 and 225 take it from the file: the three
    first characters of a line after the header, the first of them in
    the code of one of the systems [keys] *)
Definition read_as_satellite (f1 keys : list string) (s0 : string)
    : Prop :=
  exists ln sk c,
    In ln f1 /\ s0 = Py.take 3 ln
    /\ In sk keys /\ Py.head s0 = Ok c /\ Py.contains c sk = true.

(** What line 126 puts in the place of a character *)
Definition zero_for_blank (c : ascii) : ascii :=
  if Ascii.eqb c " " then "0"%char else c.

(** A mapping of codes as [obsheader3] builds it: a system stands once,
    and has no more codes than [Fmax] *)
Definition fields_wf (fields : dict (list string)) (Fmax : Z) : Prop :=
  NoDup (dict_keys fields)
  /\ forall k codes, dict_get fields k = Ok codes ->
                     Z.of_nat (length codes) <= Fmax.

(** A line carries the label of the observation types *)
Definition has_label (ln : string) : bool :=
  Py.contains OBS_TYPES (Py.drop 60 ln).

(** The codes on a line of a record of observation types *)
Definition codes_of (ln : string) : list string :=
  Py.split (Py.slice 6 60 ln).

(** The number of continuation lines of a record of [N] codes, 13 to
    a line *)
Definition continuation_lines (N : Z) : nat := Z.to_nat ((N - 1) / 13).

(** The variables a code [k] may stand behind: its values, its SSI,
    and its LLI when it is a phase *)
Definition names_of (name k : string) : Prop :=
  name = k \/ name = k ++ "ssi" \/ (is_phase k = true /\ name = k ++ "lli").

(** [[f(x, y) for x, y in zip(l, l')]] *)
Fixpoint zip_with {A B C : Type} (f : A -> B -> C) (l : list A)
    (l' : list B) : list C :=
  match l, l' with
  | x :: l1, y :: l1' => f x y :: zip_with f l1 l1'
  | _, _ => []
  end.

(** Each flag of a list three times *)
Definition thrice (ind : list bool) : list bool :=
  flat_map (fun b => [b; b; b]) ind.

(** The number of [True] in a mask *)
Definition true_count (mask : list bool) : nat := count_occ bool_dec mask true.

(** The codes that start with one of the prefixes, in their order *)
Definition with_prefix (meas codes : list string) : list string :=
  filter (fun c => existsb (Py.startswith c) meas) codes.

(** [meas] is [None], empty, or its first element is blank; a string
    is its own first element *)
Definition filter_disabled (meas : meas_arg) : bool :=
  match meas with
  | MeasNone => true
  | MeasStr s => String.eqb (Py.strip s) EmptyString
  | MeasSeq [] => true
  | MeasSeq (m :: _) => String.eqb (Py.strip m) EmptyString
  end.

(** The first occurrences of the elements of a list, in order *)
Fixpoint first_occurrences (seen l : list string) : list string :=
  match l with
  | [] => []
  | k :: l' =>
      if existsb (String.eqb k) seen then first_occurrences seen l'
      else k :: first_occurrences (k :: seen) l'
  end.

(** The codes of a system, none when the file does not declare it *)
Definition codes_in (fields : dict (list string)) (k : string)
    : list string :=
  match dict_get fields k with
  | Ok v => v
  | Raise _ => []
  end.

(** The requested systems that the file declares, each once and
    in the order of the request *)
Definition requested_present (fields : dict (list string))
    (use : use_arg) : list string :=
  first_occurrences [] (filter (dict_mem fields) (use_iter use)).

(** A list with some of its elements left out, the others in their
    order *)
Inductive subsequence {A : Type} : list A -> list A -> Prop :=
| sub_nil (l : list A) : subsequence [] l
| sub_skip (x : A) (l l' : list A) :
    subsequence l l' -> subsequence l (x :: l')
| sub_take (x : A) (l l' : list A) :
    subsequence l l' -> subsequence (x :: l) (x :: l').

(** The label of a header line, and its content *)
Definition label_of (ln : string) : string := Py.strip (Py.slice 60 80 ln).
Definition content_of (ln : string) : string := Py.take 60 ln.

(** A header line that neither ends the header nor begins a record of
    observation types *)
Definition label_line (ln : string) : bool :=
  negb (Py.contains "END OF HEADER" ln)
  && negb (Py.contains OBS_TYPES (Py.slice 60 80 ln)).

(** Texts joined by single blanks *)
Fixpoint joined (cs : list string) : string :=
  match cs with
  | [] => ""
  | c :: cs' =>
      match cs' with
      | [] => c
      | _ => c ++ " " ++ joined cs'
      end
  end.

(** The contents of the lines that carry the label [l], in file order *)
Definition contents_under (l : string) (ls : list string) : list string :=
  map content_of (filter (fun ln => String.eqb (label_of ln) l) ls).

(** What stands under a label after lines with the contents [cs] were
    read, when [old] stood there before *)
Definition text_under {E : Externals} (old : result hval)
    (cs : list string) : result hval :=
  match cs with
  | [] => old
  | _ =>
      match old with
      | Ok (HStr s0) => Ok (HStr (joined (s0 :: cs)))
      | _ => Ok (HStr (joined cs))
      end
  end.

(** The satellite [s] belongs to none of the systems [keys]: it has a
    first character, which is in none of them *)
Definition foreign (keys : list string) (s : string) : bool :=
  match s with
  | EmptyString => false
  | String c _ =>
      forallb (fun sk => negb (Py.contains (String c EmptyString) sk)) keys
  end.

(** The three columns (value, LLI, SSI) of the codes that [ind] marks,
    in the order of the codes, out of a row that holds three columns
    for each code *)
Fixpoint keep_triples {A : Type} (ind : list bool) (row : list A)
    : list A :=
  match ind, row with
  | b :: ind', x :: y :: z :: row' =>
      if b then x :: y :: z :: keep_triples ind' row'
      else keep_triples ind' row'
  | _, _ => []
  end.

(** No line holds the marker of the end of the header *)
Definition no_end_marker (f : list string) : Prop :=
  Forall (fun ln => Py.contains "END OF HEADER" ln = false) f.

(** A collaborator raises nothing but [ValueError] *)
Definition only_ValueError {A B : Type} (g : A -> result B) : Prop :=
  forall a e, g a = Raise e -> e = ValueError.

(** ** Collaborators to run the code on sample files

    Decimal numbers stand for floating point (exact on the numbers of
    the samples, whose fractions are zero), the cells of a grid keep
    the text of their field, and a dataset is a list of labelled
    values. *)

Module Sample.

(** [n / 10 ^ k] *)
Definition dec : Type := (Z * nat)%type.

Fixpoint all_digits (s : string) : bool :=
  match s with
  | EmptyString => true
  | String c s' => Py.isdigit c && all_digits s'
  end.

Fixpoint digits_value (s : string) (acc : Z) : Z :=
  match s with
  | EmptyString => acc
  | String c s' => digits_value s' (10 * acc + Py.digit_value c)
  end.

Fixpoint before_dot (s : string) : string :=
  match s with
  | EmptyString => EmptyString
  | String c s' => if Ascii.eqb c "." then EmptyString
                   else String c (before_dot s')
  end.

Fixpoint after_dot (s : string) : string :=
  match s with
  | EmptyString => EmptyString
  | String c s' => if Ascii.eqb c "." then s' else after_dot s'
  end.

(** [float(s)] for [s] of the form digits, or digits "." digits *)
Definition dec_float (s : string) : result dec :=
  let t := Py.number_text s in
  let a := before_dot t in
  let b := after_dot t in
  if all_digits a && all_digits b
     && negb (String.eqb (a ++ b) EmptyString)
  then Ok (digits_value (a ++ b) 0, String.length b)
  else Raise ValueError.

Definition dec_to_int (x : dec) : result Z :=
  Ok (fst x / 10 ^ Z.of_nat (snd x)).

Definition dec_frac_micro (x : dec) : result Z :=
  let p := 10 ^ Z.of_nat (snd x) in
  Ok ((fst x mod p) * 1000000 / p).

(** The version is the first word of the first line *)
Definition first_line_info (f : list string)
    : result (list (string * string) * list string) :=
  match f with
  | [] => Raise ValueError
  | ln :: f' =>
      match Py.split (Py.take 20 ln) with
      | v :: _ => Ok ([("version", v)], f')
      | [] => Raise ValueError
      end
  end.

(** An interval is a number of seconds, or [None] *)
Definition seconds_interval (i : option Z) : result (option Z) :=
  match i with
  | None => Ok None
  | Some s => if s <? 0 then Raise ValueError
              else Ok (Some (s * us_per_second))
  end.

(** The lines of a text *)
Fixpoint lines_aux (s : string) (w : list ascii) : list string :=
  match s with
  | EmptyString =>
      match w with
      | [] => []
      | _ => [string_of_list_ascii (rev w)]
      end
  | String c s' =>
      if Ascii.eqb c "010" then string_of_list_ascii (rev w) :: lines_aux s' []
      else lines_aux s' (c :: w)
  end.

(** The [n] triples of fields of widths 14, 1 and 1 of a line *)
Fixpoint fields_of (n : nat) (ln : string) : list string :=
  match n with
  | O => []
  | S n' =>
      Py.strip (Py.take 14 ln) :: Py.strip (Py.slice 14 15 ln)
        :: Py.strip (Py.slice 15 16 ln) :: fields_of n' (Py.drop 16 ln)
  end.

Definition text_grid (raw : string) (Fmax : Z)
    : result (list (list string)) :=
  let rows := filter (fun ln => negb (String.eqb (Py.strip ln) EmptyString))
                (lines_aux raw []) in
  match rows with
  | [] => Ok [[]]
  | _ => Ok (map (fields_of (Z.to_nat Fmax)) rows)
  end.

(** A dataset: the two coordinates, and for each variable its values
    at a time and a satellite *)
Record dataset : Type := mkDataset {
  d_time : list Z;
  d_sv : list string;
  d_vars : list (string * list (Z * string * string))
}.

Fixpoint union (a b : list string) : list string :=
  match b with
  | [] => a
  | x :: b' =>
      if existsb (String.eqb x) a then union a b' else union (a ++ [x]) b'
  end.

Fixpoint unionZ (a b : list Z) : list Z :=
  match b with
  | [] => a
  | x :: b' =>
      if existsb (Z.eqb x) a then unionZ a b' else unionZ (a ++ [x]) b'
  end.

Fixpoint join_vars (a b : list (string * list (Z * string * string)))
    : list (string * list (Z * string * string)) :=
  match b with
  | [] => a
  | (k, v) :: b' =>
      join_vars
        (if dict_mem a k
         then map (fun kv => if String.eqb (fst kv) k
                             then (fst kv, (snd kv ++ v)%list) else kv) a
         else (a ++ [(k, v)])%list)
        b'
  end.

Definition make (dsf : list (string * list string)) (t : Z)
    (svs : list string) : result dataset :=
  Ok (mkDataset [t] svs
        (map (fun kv => (fst kv,
                         map (fun sc => (t, fst sc, snd sc))
                           (combine svs (snd kv)))) dsf)).

Definition concat (a b : dataset) : result dataset :=
  Ok (mkDataset (d_time a ++ d_time b) (union (d_sv a) (d_sv b))
        (join_vars (d_vars a) (d_vars b))).

Definition merge (a b : dataset) : result dataset :=
  Ok (mkDataset (unionZ (d_time a) (d_time b)) (union (d_sv a) (d_sv b))
        (join_vars (d_vars a) (d_vars b))).

Fixpoint rename (old new : list string) (s : string) : string :=
  match old, new with
  | o :: old', n :: new' => if String.eqb s o then n else rename old' new' s
  | _, _ => s
  end.

Definition assign_sv (d : dataset) (l : list string) : result dataset :=
  if (length l =? length (d_sv d))%nat
  then Ok (mkDataset (d_time d) l
             (map (fun kv =>
                     (fst kv,
                      map (fun e => (fst (fst e),
                                     rename (d_sv d) l (snd (fst e)),
                                     snd e)) (snd kv)))
                (d_vars d)))
  else Raise ValueError.

(** An order of the elements of a set: here by character code, each
    element once *)
Fixpoint place (x : string) (l : list string) : list string :=
  match l with
  | [] => [x]
  | y :: l' =>
      match String.compare x y with
      | Eq => l
      | Lt => x :: l
      | Gt => y :: place x l'
      end
  end.

Definition hash_order (l : list string) : list string :=
  fold_right place [] l.

(** The collaborators, for a given content of uninitialised memory *)
Definition externals (garbage : string -> nat -> bool) : Externals := {|
  set_order := hash_order;
  float := dec;
  py_float := dec_float;
  float_to_int := dec_to_int;
  frac_micro := dec_frac_micro;
  geodetic := unit;
  ecef2geodetic := None;
  info := string;
  rinexinfo := first_line_info;
  interval_arg := option Z;
  check_time_interval := seconds_interval;
  uninitialized := garbage;
  cell := string;
  genfromtxt := text_grid;
  Dataset := dataset;
  ds_empty := mkDataset [] [] [];
  ds_make := make;
  ds_len := fun d => length (d_vars d);
  ds_concat := concat;
  ds_merge := merge;
  ds_time := d_time;
  ds_sv := d_sv;
  ds_assign_sv := assign_sv
|}.

(** Memory that happens to be zero, and memory that is not *)
Definition zeroed : Externals := externals (fun _ _ => false).
Definition dirty : Externals := externals (fun _ _ => true).

(** The collaborators when [pymap3d] is installed *)
Definition with_pymap3d : Externals := {|
  set_order := hash_order;
  float := dec;
  py_float := dec_float;
  float_to_int := dec_to_int;
  frac_micro := dec_frac_micro;
  geodetic := unit;
  ecef2geodetic := Some (fun _ _ _ => Ok tt);
  info := string;
  rinexinfo := first_line_info;
  interval_arg := option Z;
  check_time_interval := seconds_interval;
  uninitialized := fun _ _ => false;
  cell := string;
  genfromtxt := text_grid;
  Dataset := dataset;
  ds_empty := mkDataset [] [] [];
  ds_make := make;
  ds_len := fun d => length (d_vars d);
  ds_concat := concat;
  ds_merge := merge;
  ds_time := d_time;
  ds_sv := d_sv;
  ds_assign_sv := assign_sv
|}.

(** [s.ljust(n)] *)
Definition ljust (n : nat) (s : string) : string :=
  s ++ string_of_list_ascii (repeat " "%char (n - String.length s)).

(** The lines as Python reads them, each ending with a line feed *)
Definition text (ls : list string) : list string :=
  map (fun l => l ++ String "010" EmptyString) ls.

(** A header line: the content in columns 0-59, then the label *)
Definition hline (content label : string) : string :=
  ljust 60 content ++ label.

Definition version_line : string :=
  hline "     3.03           OBSERVATION DATA    M" "RINEX VERSION / TYPE".
Definition end_of_header : string := hline "" "END OF HEADER".

(** A header declaring two codes for G and one for R *)
Definition header_GR : list string :=
  text [ version_line;
         hline "G    2 C1C L1C" "SYS / # / OBS TYPES";
         hline "R    1 C1C" "SYS / # / OBS TYPES";
         end_of_header ].

Definition line_13 : string :=
  hline "G   15 C1C L1C D1C S1C C2W L2W D2W S2W C2L L2L D2L S2L C5Q"
    "SYS / # / OBS TYPES".

(** A header declaring one code for R, then two for G *)
Definition header_RG : list string :=
  text [ version_line;
         hline "R    1 C1C" "SYS / # / OBS TYPES";
         hline "G    2 C1C L1C" "SYS / # / OBS TYPES";
         end_of_header ].

(** A header whose system G declares 15 codes, on two lines *)
Definition header_15 : list string :=
  text [ version_line; line_13;
         hline "       L5Q D5Q" "SYS / # / OBS TYPES";
         end_of_header ].

(** The same, the label of the continuation line missing *)
Definition header_15_broken : list string :=
  text [ version_line; line_13;
         hline "       L5Q D5Q" "COMMENT";
         end_of_header ].

(** The same, 14 codes where 15 are declared *)
Definition header_15_short : list string :=
  text [ version_line; line_13;
         hline "       L5Q" "SYS / # / OBS TYPES";
         end_of_header ].

(** An epoch line of 2018-07-29 at 01:17 and [ss] seconds, announcing
    [n] satellites *)
Definition epoch_line (ss n : string) : string :=
  "> 2018 07 29 01 17 " ++ ss ++ ".0000000  0 " ++ n.

(** 2018-07-29T01:17:00, and a number of seconds later *)
Definition t_0117 : Z := ((736904 - 1) * 86400 + 4620) * us_per_second.
Definition at_second (s : Z) : Z := t_0117 + s * us_per_second.

(** One epoch, two GPS satellites and a GLONASS one *)
Definition body_one : list string :=
  text [ epoch_line "45" " 3";
         "G 7  20000000.000 7 105000000.00057";
         "G12  21000000.000 6 110000000.00006";
         "R03  19000000.000 5" ].

(** Epochs at 0, 25 and 26 seconds, one satellite each *)
Definition body_irregular : list string :=
  text [ epoch_line "00" " 1"; "G07  20000000.000 7 105000000.00057";
         epoch_line "25" " 1"; "G07  20000025.000 7 105000025.00057";
         epoch_line "26" " 1"; "G07  20000026.000 7 105000026.00057" ].

(** Epochs at 10, 20 and 30 seconds, one satellite each *)
Definition body_three : list string :=
  text [ epoch_line "10" " 1"; "G07  20000000.000 7 105000000.00057";
         epoch_line "20" " 1"; "G07  20000010.000 7 105000010.00057";
         epoch_line "30" " 1"; "G07  20000020.000 7 105000020.00057" ].

(** A stray line before the first epoch *)
Definition stray_line : string := "stray text" ++ String "010" EmptyString.
Definition body_stray : list string := stray_line :: body_three.

(** A line that begins like an epoch line and holds no time *)
Definition damaged_line : string := "> damaged" ++ String "010" EmptyString.
Definition body_damaged : list string := damaged_line :: body_three.

(** Epochs at 10 and 20 seconds, then an epoch line whose number of
    satellites cannot be read *)
Definition body_fault : list string :=
  text [ epoch_line "10" " 1"; "G07  20000000.000 7 105000000.00057";
         epoch_line "20" " 1"; "G07  20000010.000 7 105000010.00057";
         epoch_line "30" "xx" ].

(** Header lines with two comments and the position on two lines *)
Definition label_lines : list string :=
  text [ hline "first" "COMMENT";
         hline "  1.0 2.0 3.0" "APPROX POSITION XYZ";
         hline "second" "COMMENT";
         hline "  4.0 5.0 6.0" "APPROX POSITION XYZ" ].

(** What ends the header of the samples *)
Definition header_tail : list string :=
  text [ hline "G    2 C1C L1C" "SYS / # / OBS TYPES"; end_of_header ].

(** A header with these lines *)
Definition header_two_positions : list string :=
  (text [ version_line ] ++ label_lines ++ header_tail)%list.

(** A header whose position holds two numbers *)
Definition header_short_position : list string :=
  (text [ version_line;
          hline "  4027881.8478   306998.2610" "APPROX POSITION XYZ" ]
   ++ header_tail)%list.

(** A header that the marker of its end does not close *)
Definition header_unfinished : list string :=
  text [ version_line;
         hline "G    2 C1C L1C" "SYS / # / OBS TYPES" ].

(** An epoch that announces two satellites, in a file that ends after
    the first *)
Definition body_cut : list string :=
  text [ epoch_line "10" " 2"; "G07  20000000.000 7 105000000.00057" ].

(** An epoch line whose flag is 3, a new site occupation: the [n]
    lines that follow it are header lines *)
Definition event_line (ss n : string) : string :=
  "> 2018 07 29 01 17 " ++ ss ++ ".0000000  3 " ++ n.

(** An event record that names the marker, then an epoch of one
    satellite *)
Definition body_event : list string :=
  text [ event_line "10" " 1"; hline "GRAZ" "MARKER NAME";
         epoch_line "20" " 1"; "G07  20000010.000 7 105000010.00057" ].

(** An epoch line that also holds a receiver clock offset, in columns
    41 to 55 *)
Definition epoch_line_offset (ss n : string) : string :=
  epoch_line ss n ++ "       0.000000000123".

(** Epochs at 10, 20 and 30 seconds, each with a clock offset *)
Definition body_offsets : list string :=
  text [ epoch_line_offset "10" " 1"; "G07  20000000.000 7 105000000.00057";
         epoch_line_offset "20" " 1"; "G07  20000010.000 7 105000010.00057";
         epoch_line_offset "30" " 1"; "G07  20000020.000 7 105000020.00057" ].

End Sample.

(** * Properties *)

(** ** Results *)

Lemma bind_ok {A B : Type} (r : result A) (k : A -> result B) (b : B) :
  bind r k = Ok b -> exists a, r = Ok a /\ k a = Ok b.
Proof.
  destruct r as [a | e]; simpl; intros H.
  - exists a. split; [reflexivity | exact H].
  - discriminate H.
Qed.

(** Splits a hypothesis [bind r k = Ok b] into its two steps *)
Ltac bind_inv H :=
  let a := fresh "a" in
  let Ha := fresh "Ha" in
  apply bind_ok in H; destruct H as [a [Ha H]].

Tactic Notation "bind_split" hyp(H) "as" ident(a) ident(Ha) :=
  apply bind_ok in H; destruct H as [a [Ha H]].

(** ** Strings, dictionaries and enumerations *)

Lemma length_append (a b : string) :
  String.length (a ++ b) = (String.length a + String.length b)%nat.
Proof. induction a as [| c a IH]; simpl; [reflexivity | now rewrite IH]. Qed.

Lemma append_inj (a a' b b' : string) :
  String.length a = String.length a' -> a ++ b = a' ++ b' ->
  a = a' /\ b = b'.
Proof.
  revert a'. induction a as [| c a IH]; intros [| c' a'] Hlen Heq;
    simpl in *; try discriminate Hlen.
  - split; [reflexivity | exact Heq].
  - injection Heq as -> Heq. injection Hlen as Hlen.
    destruct (IH a' Hlen Heq) as [-> ->]. split; reflexivity.
Qed.

Lemma dict_mem_set {V : Type} (d : dict V) (k : string) (v : V)
    (k' : string) :
  dict_mem (dict_set d k v) k' = (String.eqb k' k || dict_mem d k').
Proof.
  induction d as [| [k0 v0] d IH]; simpl.
  - reflexivity.
  - destruct (String.eqb_spec k k0) as [-> | Hne]; simpl.
    + destruct (String.eqb k' k0); reflexivity.
    + rewrite IH.
      destruct (String.eqb k' k0), (String.eqb k' k); reflexivity.
Qed.

Lemma dict_mem_keys {V : Type} (d : dict V) (k : string) :
  dict_mem d k = true <-> In k (dict_keys d).
Proof.
  induction d as [| [k0 v0] d IH]; simpl.
  - split; [discriminate | contradiction].
  - rewrite orb_true_iff, IH, String.eqb_eq.
    split; intros [H | H]; auto.
Qed.

Lemma dict_get_mem {V : Type} (d : dict V) (k : string) :
  dict_mem d k = true -> exists v, dict_get d k = Ok v.
Proof.
  induction d as [| [k0 v0] d IH]; simpl; [discriminate |].
  destruct (String.eqb k k0); simpl.
  - intros _. exists v0. reflexivity.
  - exact IH.
Qed.

Lemma dict_get_ok_mem {V : Type} (d : dict V) (k : string) (v : V) :
  dict_get d k = Ok v -> dict_mem d k = true.
Proof.
  induction d as [| [k0 v0] d IH]; simpl; [discriminate |].
  destruct (String.eqb k k0); simpl; [reflexivity | exact IH].
Qed.

Lemma dict_get_set {V : Type} (d : dict V) (k : string) (v : V)
    (k' : string) :
  dict_get (dict_set d k v) k'
  = if String.eqb k' k then Ok v else dict_get d k'.
Proof.
  induction d as [| [k0 v0] d IH]; simpl.
  - destruct (String.eqb k' k); reflexivity.
  - destruct (String.eqb_spec k k0) as [-> | Hne]; simpl.
    + destruct (String.eqb k' k0); reflexivity.
    + rewrite IH. destruct (String.eqb_spec k' k0) as [-> | Hne'];
        [| reflexivity].
      destruct (String.eqb_spec k0 k) as [-> | _]; [contradiction | reflexivity].
Qed.

Lemma dict_set_same {V : Type} (d : dict V) (k : string) (v : V) :
  dict_get d k = Ok v -> dict_set d k v = d.
Proof.
  induction d as [| [k0 v0] d IH]; simpl; [discriminate |].
  destruct (String.eqb k k0).
  - intros H. injection H as ->. reflexivity.
  - intros H. rewrite IH by exact H. reflexivity.
Qed.

Lemma dict_set_new {V : Type} (d : dict V) (k : string) (v : V) :
  dict_mem d k = false -> dict_set d k v = (d ++ [(k, v)])%list.
Proof.
  induction d as [| [k0 v0] d IH]; simpl; [reflexivity |].
  destruct (String.eqb k k0); simpl; [discriminate |].
  intros H. rewrite IH by exact H. reflexivity.
Qed.

Lemma dict_keys_set {V : Type} (d : dict V) (k : string) (v : V) :
  dict_mem d k = true -> dict_keys (dict_set d k v) = dict_keys d.
Proof.
  induction d as [| [k0 v0] d IH]; simpl; [discriminate |].
  destruct (String.eqb k k0); simpl; [reflexivity |].
  intros H. rewrite IH by exact H. reflexivity.
Qed.

Lemma dict_keys_set_NoDup {V : Type} (d : dict V) (k : string) (v : V) :
  NoDup (dict_keys d) -> NoDup (dict_keys (dict_set d k v)).
Proof.
  intros Hnd. destruct (dict_mem d k) eqn:Hk.
  - rewrite dict_keys_set by exact Hk. exact Hnd.
  - rewrite dict_set_new by exact Hk.
    unfold dict_keys. rewrite map_app. simpl.
    apply NoDup_app; [exact Hnd | repeat constructor; intros [] |].
    intros a Ha [<- | []].
    apply dict_mem_keys in Ha. congruence.
Qed.

Lemma dict_mem_app {V : Type} (d d' : dict V) (k : string) :
  dict_mem (d ++ d')%list k = (dict_mem d k || dict_mem d' k).
Proof.
  induction d as [| [k0 v0] d IH]; simpl; [reflexivity |].
  rewrite IH. apply orb_assoc.
Qed.

Lemma dict_get_map_pair {V : Type} (g : string -> V) (ks : list string)
    (k : string) :
  In k ks -> dict_get (map (fun k => (k, g k)) ks) k = Ok (g k).
Proof.
  induction ks as [| k0 ks IH]; simpl; [contradiction |].
  destruct (String.eqb_spec k k0) as [-> | Hne]; [reflexivity |].
  intros [Heq | Hin]; [congruence | exact (IH Hin)].
Qed.

Lemma existsb_eqb_in (k : string) (l : list string) :
  existsb (String.eqb k) l = true <-> In k l.
Proof.
  rewrite existsb_exists. split.
  - intros (x & Hx & Heq). apply String.eqb_eq in Heq. congruence.
  - intros Hin. exists k. split; [exact Hin | apply String.eqb_refl].
Qed.

Lemma first_occurrences_in (seen l : list string) (k : string) :
  In k (first_occurrences seen l) <-> In k l /\ ~ In k seen.
Proof.
  revert seen. induction l as [| x l IH]; intros seen; simpl.
  - tauto.
  - destruct (existsb (String.eqb x) seen) eqn:Hx.
    + apply existsb_eqb_in in Hx. rewrite IH.
      split; [tauto |]. intros [[-> | Hin] Hseen]; tauto.
    + assert (Hnx : ~ In x seen).
      { intros Hin. apply existsb_eqb_in in Hin. congruence. }
      simpl. rewrite IH. simpl.
      destruct (string_dec x k) as [-> | Hne]; [tauto |].
      split.
      * intros [Heq | [Hin Hseen]]; [contradiction | tauto].
      * intros [[Heq | Hin] Hseen]; [contradiction |].
        right. split; [exact Hin |]. intros [Heq | Hs]; tauto.
Qed.

Lemma first_occurrences_id (seen l : list string) :
  NoDup l -> (forall x, In x l -> ~ In x seen) ->
  first_occurrences seen l = l.
Proof.
  intros Hnd. revert seen.
  induction Hnd as [| x l Hx _ IH]; intros seen Hseen; simpl.
  - reflexivity.
  - destruct (existsb (String.eqb x) seen) eqn:Hex.
    + apply existsb_eqb_in in Hex.
      contradiction (Hseen x (or_introl eq_refl)).
    + f_equal. apply IH. intros y Hy [Heq | Hin].
      * subst y. contradiction.
      * exact (Hseen y (or_intror Hy) Hin).
Qed.

Lemma filter_all {A : Type} (p : A -> bool) (l : list A) :
  (forall x, In x l -> p x = true) -> filter p l = l.
Proof.
  induction l as [| x l IH]; simpl; intros H; [reflexivity |].
  rewrite (H x (or_introl eq_refl)). f_equal.
  apply IH. intros y Hy. apply H. right. exact Hy.
Qed.

Lemma first_occurrences_NoDup (seen l : list string) :
  NoDup (first_occurrences seen l).
Proof.
  revert seen. induction l as [| x l IH]; intros seen; simpl.
  - constructor.
  - destruct (existsb (String.eqb x) seen); [apply IH |].
    constructor; [| apply IH].
    rewrite first_occurrences_in. simpl. tauto.
Qed.

Lemma in_enumerate_r {A : Type} (l : list A) (i : nat) (x : A) :
  In (i, x) (enumerate l) -> In x l.
Proof. unfold enumerate. apply in_combine_r. Qed.

Lemma in_enumerate {A : Type} (l : list A) (x : A) :
  In x l -> exists i, In (i, x) (enumerate l).
Proof.
  unfold enumerate. generalize 0%nat.
  induction l as [| y l IH]; intros start Hin; [contradiction |].
  destruct Hin as [-> | Hin]; simpl.
  - exists start. left. reflexivity.
  - destruct (IH (S start) Hin) as [i Hi]. exists i. right. exact Hi.
Qed.

Lemma in_enumerate_index {A : Type} (l : list A) (i : nat) (x : A) :
  In (i, x) (enumerate l) -> index l i = Ok x.
Proof.
  unfold enumerate, index.
  assert (H : forall start,
             In (i, x) (combine (seq start (length l)) l) ->
             (start <= i)%nat /\ nth_error l (i - start) = Some x).
  { induction l as [| y l IH]; intros start Hin; [contradiction |].
    simpl in Hin. destruct Hin as [Heq | Hin].
    - injection Heq as -> ->. rewrite Nat.sub_diag. split; [lia | reflexivity].
    - destruct (IH (S start) Hin) as [Hle Hnth]. split; [lia |].
      replace (i - start)%nat with (S (i - S start)) by lia. exact Hnth. }
  intros Hin. destruct (H 0%nat Hin) as [_ Hnth].
  rewrite Nat.sub_0_r in Hnth. rewrite Hnth. reflexivity.
Qed.

Lemma mapM_ok_in {A B : Type} (f : A -> result B) (l : list A) (l' : list B) :
  mapM f l = Ok l' -> forall b, In b l' -> exists a, In a l /\ f a = Ok b.
Proof.
  revert l'. induction l as [| a l IH]; simpl; intros l' H b Hb.
  - injection H as <-. contradiction.
  - bind_split H as b0 Hb0. bind_split H as bs Hbs. injection H as <-.
    destruct Hb as [<- | Hb].
    + exists a. split; [left; reflexivity | assumption].
    + destruct (IH _ Hbs b Hb) as (a' & Hin & Hf).
      exists a'. split; [right; exact Hin | exact Hf].
Qed.

Lemma head_inv (s c : string) :
  Py.head s = Ok c -> exists a rest, s = String a rest /\ c = String a "".
Proof.
  destruct s as [| a rest]; cbv [Py.head]; intros H; [discriminate |].
  injection H as <-. exists a, rest. split; reflexivity.
Qed.

Lemma system_code_inv (k : string) :
  system_code k = true -> exists b, k = String b "" /\ Py.isupper b = true.
Proof.
  destruct k as [| b [| ? ?]]; simpl; try discriminate.
  intros H. exists b. split; [reflexivity | exact H].
Qed.

Lemma contains_single (a b : ascii) :
  Py.contains (String a "") (String b "") = true -> a = b.
Proof.
  cbv [Py.contains Py.startswith]. rewrite andb_true_r, !orb_false_r.
  apply Ascii.eqb_eq.
Qed.

Lemma startswith_marker (ln : string) :
  Py.startswith ln "> " = true -> Py.startswith ln ">" = true.
Proof.
  destruct ln as [| c ln]; cbv [Py.startswith]; [discriminate |].
  destruct (Ascii.eqb ">" c); [reflexivity | discriminate].
Qed.

Lemma startswith_gt (ln : string) :
  Py.startswith ln ">" = true -> exists rest, ln = String ">" rest.
Proof.
  destruct ln as [| c ln]; cbv [Py.startswith]; [discriminate |].
  rewrite andb_true_r. intros H. apply Ascii.eqb_eq in H. subst c.
  exists ln. reflexivity.
Qed.

Lemma isupper_not_blank (c : ascii) :
  Py.isupper c = true -> Ascii.eqb c " " = false.
Proof.
  destruct (Ascii.eqb_spec c " ") as [-> | _]; [| reflexivity].
  intros H. vm_compute in H. discriminate H.
Qed.

Lemma digit_after_patch (d : ascii) :
  Py.isdigit d || Ascii.eqb d " " = true ->
  Py.isdigit (if Ascii.eqb d " " then "0"%char else d) = true.
Proof.
  destruct (Ascii.eqb d " "); [reflexivity |].
  rewrite orb_false_r. trivial.
Qed.

(** Line 126 turns an identifier of the file into its final form *)
Lemma patch_sv_pattern (s : string) :
  sv_in_file s = true -> sv_pattern (patch_sv s) = true.
Proof.
  destruct s as [| c [| d1 [| d2 [| ? ?]]]]; simpl; try discriminate.
  rewrite !andb_true_iff. intros [[Hc H1] H2].
  rewrite (isupper_not_blank c Hc), Hc.
  rewrite (digit_after_patch d1 H1), (digit_after_patch d2 H2).
  auto.
Qed.

(** Line 126 leaves no blank *)
Lemma patch_sv_no_blank (s : string) : has_blank (patch_sv s) = false.
Proof.
  unfold patch_sv. induction s as [| c s IH]; simpl; [reflexivity |].
  rewrite IH, orb_false_r.
  destruct (Ascii.eqb c " ") eqn:Hc; [reflexivity | exact Hc].
Qed.

(** ** The loops never run out of iterations *)

Section Fuel.
Context {E : Externals}.

Lemma obs_types_continuation_shorter n codes f codes' f' :
  obs_types_continuation n codes f = Ok (codes', f') ->
  (length f' <= length f)%nat.
Proof.
  revert n codes. induction f as [| ln f IH]; intros n codes; simpl.
  - destruct (n >? 0); [discriminate |].
    intros H. injection H as _ <-. simpl. lia.
  - destruct (n >? 0).
    + intros H. bind_inv H. apply IH in H. lia.
    + intros H. injection H as _ <-. simpl. lia.
Qed.

Lemma obs_types_record_shorter c f k codes N f' :
  obs_types_record c f = Ok (k, codes, N, f') ->
  (length f' <= length f)%nat.
Proof.
  unfold obs_types_record. intros H.
  bind_inv H. bind_inv H. bind_inv H. destruct a1 as [codes1 f1].
  simpl in H. bind_inv H. injection H as _ _ _ <-.
  eapply obs_types_continuation_shorter; eassumption.
Qed.

(** More iterations than lines change nothing *)
Lemma header_loop_fuel n fuel f st :
  (length f <= n)%nat -> (n <= fuel)%nat ->
  header_loop fuel f st = header_loop n f st.
Proof.
  revert fuel f st.
  induction n as [| n IH]; intros fuel f st Hle Hfuel.
  - destruct f; [| simpl in Hle; lia]. destruct fuel; reflexivity.
  - destruct f as [| ln f]; [destruct fuel; reflexivity |].
    destruct fuel as [| fuel]; [lia |].
    simpl in Hle. simpl.
    destruct (Py.contains "END OF HEADER" ln); [reflexivity |].
    destruct (Py.contains OBS_TYPES (Py.slice 60 80 ln)).
    + destruct (obs_types_record (Py.take 60 ln) f)
        as [[[[k codes] N] f'] | e] eqn:Hrec; simpl; [| reflexivity].
      apply obs_types_record_shorter in Hrec.
      apply IH; lia.
    + destruct (add_label (hs_hdr st) (Py.slice 60 80 ln) (Py.take 60 ln));
        simpl; [| reflexivity].
      apply IH; lia.
Qed.

Lemma read_satellites_shorter n f sv raw sv' raw' f' :
  read_satellites n f sv raw = (sv', raw', f') ->
  (length f' <= length f)%nat.
Proof.
  revert f sv raw. induction n as [| n IH]; intros f sv raw; simpl.
  - intros H. injection H as _ _ <-. lia.
  - destruct f as [| ln f]; intros H; apply IH in H; simpl in *; lia.
Qed.

Lemma epoch_loop_fuel (D : Type)
    (handle : D -> string -> Z -> list string -> result D)
    tlim interval n fuel f st :
  (length f <= n)%nat -> (n <= fuel)%nat ->
  epoch_loop handle tlim interval fuel f st
  = epoch_loop handle tlim interval n f st.
Proof.
  revert fuel f st.
  induction n as [| n IH]; intros fuel f st Hle Hfuel.
  - destruct f; [| simpl in Hle; lia]. destruct fuel; reflexivity.
  - destruct f as [| ln f]; [destruct fuel; reflexivity |].
    destruct fuel as [| fuel]; [lia |].
    simpl in Hle. simpl.
    destruct (Py.startswith ln ">"); simpl; [| reflexivity].
    destruct (_timeobs ln) as [time | []]; try reflexivity.
    + destruct (read_time_offset ln (ls_time_offset st)) as [offs |];
        simpl; [| reflexivity].
      destruct (Py.int (Py.slice 33 35 ln)) as [k |]; simpl; [| reflexivity].
      destruct (read_satellites (Z.to_nat k) f [] "")
        as [[sv raw] f2] eqn:Hsat.
      apply read_satellites_shorter in Hsat.
      destruct (time_window tlim time).
      * destruct (decimate interval (ls_last_epoch st) time)
          as [[fl last] |]; simpl; [| reflexivity].
        destruct fl; try reflexivity.
        -- destruct (handle (ls_data st) raw time sv); simpl;
             [| reflexivity].
           apply IH; lia.
        -- apply IH; lia.
      * apply IH; lia.
      * reflexivity.
    + apply IH; lia.
Qed.

End Fuel.

(** ** The measurement filter is switched off by a blank first element *)

Section MeasArgument.
Context {E : Externals}.

Lemma normalize_meas_none meas :
  normalize_meas meas = MeasNone <-> filter_disabled meas = true.
Proof.
  unfold normalize_meas.
  destruct meas as [| s | [| m l]]; simpl;
    try (split; intros; reflexivity).
  - destruct (Py.strip s); simpl; split; intros H;
      (reflexivity || discriminate H).
  - destruct (Py.strip m); simpl; split; intros H;
      (reflexivity || discriminate H).
Qed.

(** C10.  When [meas] is [None], empty, or has a blank (empty or
    whitespace-only) first element, [rinexobs3] replaces it by [None]
    and returns what it returns without a measurement filter; only
    the first element is looked at, whatever follows it.  In all
    other cases the filter is kept. *)
Theorem blank_first_measurement_disables_filter (meas : meas_arg) :
  filter_disabled meas = true ->
  normalize_meas meas = MeasNone
  /\ (forall f use tlim useindicators interval,
         rinexobs3 f use tlim useindicators meas interval
         = rinexobs3 f use tlim useindicators MeasNone interval)
  /\ (forall m rest, meas = MeasSeq (m :: rest) ->
         forall rest', normalize_meas (MeasSeq (m :: rest')) = MeasNone).
Proof.
  intros Hoff.
  assert (Hnone : normalize_meas meas = MeasNone)
    by (apply normalize_meas_none; exact Hoff).
  split; [exact Hnone | split].
  - intros f use tlim useindicators interval.
    unfold rinexobs3. rewrite Hnone. reflexivity.
  - intros m rest -> rest'.
    apply normalize_meas_none. exact Hoff.
Qed.

Lemma filter_kept meas :
  filter_disabled meas = false -> normalize_meas meas <> MeasNone.
Proof.
  intros Hon Hnone. apply normalize_meas_none in Hnone. congruence.
Qed.

End MeasArgument.

(** A list whose first element is blank and whose second is a prefix *)
Lemma blank_first_measurement_example :
  filter_disabled (MeasSeq [" "; "C1"]) = true
  /\ @rinexobs3 Sample.zeroed (Sample.header_GR ++ Sample.body_one)
       UseNone None false (MeasSeq [" "; "C1"]) None
     = @rinexobs3 Sample.zeroed (Sample.header_GR ++ Sample.body_one)
         UseNone None false MeasNone None.
Proof.
  split; [reflexivity |].
  apply (@blank_first_measurement_disables_filter Sample.zeroed
           (MeasSeq [" "; "C1"])).
  reflexivity.
Defined.

(** ** Records of observation types *)

Section ObsTypes.
Context {E : Externals}.

Lemma obs_types_continuation_done n codes f :
  n <= 0 -> obs_types_continuation n codes f = Ok (codes, f).
Proof.
  intros Hn. assert (Hgt : (n >? 0) = false) by lia.
  destruct f; simpl; rewrite Hgt; reflexivity.
Qed.

Lemma obs_types_continuation_step n codes ln f :
  0 < n -> has_label ln = true ->
  obs_types_continuation n codes (ln :: f)
  = obs_types_continuation (n - 13) (codes ++ codes_of ln) f.
Proof.
  intros Hn Hlabel. assert (Hgt : (n >? 0) = true) by lia.
  unfold has_label in Hlabel.
  simpl. rewrite Hgt, Hlabel. reflexivity.
Qed.

Lemma obs_types_continuation_unlabelled n codes ln f :
  0 < n -> has_label ln = false ->
  obs_types_continuation n codes (ln :: f) = Raise AssertionError.
Proof.
  intros Hn Hlabel. assert (Hgt : (n >? 0) = true) by lia.
  unfold has_label in Hlabel.
  simpl. rewrite Hgt, Hlabel. reflexivity.
Qed.

Lemma obs_types_continuation_eof n codes :
  0 < n -> obs_types_continuation n codes [] = Raise AssertionError.
Proof.
  intros Hn. assert (Hgt : (n >? 0) = true) by lia.
  simpl. rewrite Hgt. reflexivity.
Qed.

Lemma obs_types_record_count c f k codes N f' :
  obs_types_record c f = Ok (k, codes, N, f') ->
  Z.of_nat (length codes) = N.
Proof.
  unfold obs_types_record. intros H.
  bind_split H as k0 Hk. bind_split H as N0 HN.
  bind_split H as cf Hcont. destruct cf as [codes0 f0]. simpl in H.
  bind_split H as u Hassert. injection H as _ <- <- _.
  unfold py_assert in Hassert.
  destruct (Z.of_nat (length codes0) =? N0) eqn:Heq; [lia | discriminate].
Qed.

(** The loop over the header lines builds a mapping in which a system
    stands once, and [Fmax] bounds the number of its codes *)
Lemma header_loop_wf fuel :
  forall f st st' f',
    fields_wf (hs_fields st) (hs_Fmax st) ->
    header_loop fuel f st = Ok (st', f') ->
    fields_wf (hs_fields st') (hs_Fmax st').
Proof.
  induction fuel as [| fuel IH]; intros f st st' f' Hwf Hrun.
  - destruct f; injection Hrun as <- _; exact Hwf.
  - destruct f as [| ln f]; [injection Hrun as <- _; exact Hwf |].
    simpl in Hrun.
    destruct (Py.contains "END OF HEADER" ln);
      [injection Hrun as <- _; exact Hwf |].
    destruct (Py.contains OBS_TYPES (Py.slice 60 80 ln)).
    + bind_split Hrun as rec Hrec. destruct rec as [[[k codes] N] f2].
      simpl in Hrun. apply obs_types_record_count in Hrec.
      apply IH in Hrun; [exact Hrun |]. simpl.
      destruct Hwf as [Hnd Hlen]. split.
      * apply dict_keys_set_NoDup. exact Hnd.
      * intros k' codes' Hget. rewrite dict_get_set in Hget.
        destruct (String.eqb k' k).
        -- injection Hget as <-. lia.
        -- apply Hlen in Hget. lia.
    + bind_split Hrun as hdr Hhdr.
      apply IH in Hrun; [exact Hrun | exact Hwf].
Qed.

Lemma read_header_wf f st f1 :
  read_header f = Ok (st, f1) -> fields_wf (hs_fields st) (hs_Fmax st).
Proof.
  unfold read_header. intros H.
  bind_split H as if0 Hinfo. destruct if0 as [info0 f0]. simpl in H.
  bind_split H as sf Hloop. destruct sf as [st0 f2]. simpl in H.
  bind_split H as hdr1 H1. bind_split H as hdr2 H2.
  bind_split H as hdr3 H3. injection H as <- _. simpl.
  apply header_loop_wf in Hloop; [exact Hloop |].
  split; [constructor | intros k codes Hget; discriminate Hget].
Qed.

(** The labelled continuation lines are all read, and no more *)
Lemma obs_types_continuation_complete conts n codes rest :
  Forall (fun ln => has_label ln = true) conts ->
  length conts = Z.to_nat ((n + 12) / 13) ->
  obs_types_continuation n codes (conts ++ rest)
  = Ok ((codes ++ concat (map codes_of conts))%list, rest).
Proof.
  intros Hlab. revert n codes.
  induction Hlab as [| ln conts Hln _ IH]; intros n codes Hlen.
  - simpl in *. rewrite app_nil_r.
    apply obs_types_continuation_done.
    assert ((n + 12) / 13 <= 0) by lia.
    Z.div_mod_to_equations. lia.
  - simpl in Hlen.
    assert (Hn : 0 < n) by (Z.div_mod_to_equations; lia).
    simpl app. rewrite obs_types_continuation_step by assumption.
    rewrite IH.
    + simpl. rewrite <- app_assoc. reflexivity.
    + replace (n - 13 + 12) with (n + 12 + (-1) * 13) by lia.
      rewrite Z.div_add by lia. lia.
Qed.

(** A missing label is met after any number of good lines *)
Lemma obs_types_continuation_broken good n codes ln rest :
  Forall (fun l => has_label l = true) good ->
  0 < n - 13 * Z.of_nat (length good) ->
  has_label ln = false ->
  obs_types_continuation n codes (good ++ ln :: rest)
  = Raise AssertionError.
Proof.
  intros Hlab. revert n codes.
  induction Hlab as [| l good Hl _ IH]; intros n codes Hn Hln.
  - simpl in *. apply obs_types_continuation_unlabelled; [lia | exact Hln].
  - simpl app. rewrite obs_types_continuation_step; [| simpl in Hn; lia | exact Hl].
    apply IH; [| exact Hln]. simpl length in Hn. lia.
Qed.

(** C5.  For a record of observation types whose first line has
    content [c], system [k] and declared count [N]:
    - when the parser accepts the record, it has accumulated exactly
      [N] codes for [k];
    - a record whose continuation lines, 13 codes to a line, all carry
      the label and hold [N] codes with the first line is accepted,
      with these codes;
    - a continuation line without the label, or the end of the file
      in its place, raises [AssertionError];
    - so does an accumulated count that differs from [N];
    - the error ends the loop over the header lines, and an accepted
      record enters the mapping of codes under [k], with [Fmax] raised
      to [N] if it was less. *)
Theorem obs_types_record_length (c : string) (k : string) (N : Z) :
  Py.head c = Ok k ->
  Py.int (Py.slice 3 6 c) = Ok N ->
  (forall f k' codes N' f',
      obs_types_record c f = Ok (k', codes, N', f') ->
      k' = k /\ N' = N /\ Z.of_nat (length codes) = N)
  /\ (forall conts rest,
         Forall (fun ln => has_label ln = true) conts ->
         length conts = continuation_lines N ->
         Z.of_nat (length (codes_of c ++ concat (map codes_of conts))) = N ->
         obs_types_record c (conts ++ rest)
         = Ok (k, (codes_of c ++ concat (map codes_of conts))%list, N, rest))
  /\ (forall good ln rest,
         Forall (fun l => has_label l = true) good ->
         13 * Z.of_nat (S (length good)) < N ->
         has_label ln = false ->
         obs_types_record c (good ++ ln :: rest) = Raise AssertionError)
  /\ (forall good,
         Forall (fun l => has_label l = true) good ->
         13 * Z.of_nat (S (length good)) < N ->
         obs_types_record c good = Raise AssertionError)
  /\ (forall f codes f',
         obs_types_continuation (N - 13) (codes_of c) f = Ok (codes, f') ->
         Z.of_nat (length codes) <> N ->
         obs_types_record c f = Raise AssertionError)
  /\ (forall f e fuel ln st,
         obs_types_record c f = Raise e ->
         Py.take 60 ln = c ->
         Py.contains "END OF HEADER" ln = false ->
         Py.contains OBS_TYPES (Py.slice 60 80 ln) = true ->
         header_loop (S fuel) (ln :: f) st = Raise e)
  /\ (forall f codes f' fuel ln st,
         obs_types_record c f = Ok (k, codes, N, f') ->
         Py.take 60 ln = c ->
         Py.contains "END OF HEADER" ln = false ->
         Py.contains OBS_TYPES (Py.slice 60 80 ln) = true ->
         header_loop (S fuel) (ln :: f) st
         = header_loop fuel f'
             (mkHeaderState (hs_hdr st) (dict_set (hs_fields st) k codes)
                (Z.max N (hs_Fmax st)))).
Proof.
  intros Hk HN.
  assert (Hrec : forall f,
             obs_types_record c f
             = ('(codes, f') <- obs_types_continuation (N - 13) (codes_of c) f ;;
                _ <- py_assert (Z.of_nat (length codes) =? N) ;;
                Ok (k, codes, N, f'))).
  { intros f. unfold obs_types_record. rewrite Hk, HN. reflexivity. }
  repeat split.
  - rewrite Hrec in H. bind_inv H. destruct a as [codes1 f1]. simpl in H.
    bind_inv H. injection H as <- _ _ _. reflexivity.
  - rewrite Hrec in H. bind_inv H. destruct a as [codes1 f1]. simpl in H.
    bind_inv H. injection H as _ _ <- _. reflexivity.
  - rewrite Hrec in H. bind_inv H. destruct a as [codes1 f1]. simpl in H.
    bind_inv H. injection H as _ <- _ _.
    unfold py_assert in Ha0.
    destruct (Z.of_nat (length codes1) =? N) eqn:Heq; [lia | discriminate].
  - intros conts rest Hlab Hlen Hcount.
    rewrite Hrec, obs_types_continuation_complete; trivial.
    + simpl. apply Z.eqb_eq in Hcount. rewrite Hcount. reflexivity.
    + rewrite Hlen. unfold continuation_lines. do 2 f_equal. lia.
  - intros good ln rest Hlab Hn Hln.
    rewrite Hrec, obs_types_continuation_broken; trivial. lia.
  - intros good Hlab Hn.
    rewrite Hrec. rewrite <- (app_nil_r good).
    assert (Hend : forall n codes,
               0 < n - 13 * Z.of_nat (length good) ->
               obs_types_continuation n codes (good ++ [])
               = Raise AssertionError).
    { clear Hn. induction Hlab as [| l good Hl _ IH]; intros n codes Hn.
      - apply obs_types_continuation_eof. simpl in Hn. lia.
      - simpl app. rewrite obs_types_continuation_step;
          [| simpl in Hn; lia | exact Hl].
        apply IH. simpl length in Hn. lia. }
    rewrite Hend by lia. reflexivity.
  - intros f codes f' Hcont Hcount.
    rewrite Hrec, Hcont. simpl.
    apply Z.eqb_neq in Hcount. rewrite Hcount. reflexivity.
  - intros f e fuel ln st Hraise Hc Hend Hlabel.
    simpl. rewrite Hend, Hlabel, Hc, Hraise. reflexivity.
  - intros f codes f' fuel ln st Hok Hc Hend Hlabel.
    simpl. rewrite Hend, Hlabel, Hc, Hok. reflexivity.
Qed.

(** What ends the loop over the header lines ends [obsheader3] *)
Lemma header_error_is_fatal f info0 f0 e use meas :
  rinexinfo f = Ok (info0, f0) ->
  header_loop (length f0) f0
    (mkHeaderState (map (fun kv => (fst kv, HInfo (snd kv))) info0) [] 0)
  = Raise e ->
  obsheader3 f use meas = Raise e.
Proof.
  intros Hinfo Hloop. unfold obsheader3, read_header.
  rewrite Hinfo. simpl. rewrite Hloop. reflexivity.
Qed.

End ObsTypes.

(** A record of 15 codes on two lines; the same with the label of the
    second line missing, and with a code missing *)
Lemma obs_types_record_example :
  (Py.head (Py.take 60 Sample.line_13) = Ok "G"
   /\ Py.int (Py.slice 3 6 (Py.take 60 Sample.line_13)) = Ok 15)
  /\ (forall f k' codes N' f',
         obs_types_record (Py.take 60 Sample.line_13) f = Ok (k', codes, N', f') ->
         k' = "G" /\ N' = 15 /\ Z.of_nat (length codes) = 15)
  /\ @obsheader3 Sample.zeroed Sample.header_15 UseNone MeasNone
     = Ok (mkHeader [("version", HInfo ("3.03" : @info Sample.zeroed))]
             [("G", ["C1C"; "L1C"; "D1C"; "S1C"; "C2W"; "L2W"; "D2W"; "S2W";
                     "C2L"; "L2L"; "D2L"; "S2L"; "C5Q"; "L5Q"; "D5Q"])]
             [("G", SelAll)] 15, [])
  /\ @obsheader3 Sample.zeroed Sample.header_15_broken UseNone MeasNone
     = Raise AssertionError
  /\ @obsheader3 Sample.zeroed Sample.header_15_short UseNone MeasNone
     = Raise AssertionError.
Proof.
  assert (Hk : Py.head (Py.take 60 Sample.line_13) = Ok "G") by reflexivity.
  assert (HN : Py.int (Py.slice 3 6 (Py.take 60 Sample.line_13)) = Ok 15)
    by reflexivity.
  split; [split; assumption |].
  split; [exact (proj1 (@obs_types_record_length Sample.zeroed _ _ _ Hk HN)) |].
  repeat split; vm_compute; reflexivity.
Defined.

(** ** The system filter *)

Section SystemFilter.
Context {E : Externals}.

Lemma restrict_fields_from fields ks :
  forall d0 seen,
    (forall k, existsb (String.eqb k) seen = dict_mem d0 k) ->
    (forall k, dict_mem d0 k = true ->
               dict_get d0 k = Ok (codes_in fields k)) ->
    foldM (restrict_step fields) ks d0
    = Ok (d0 ++ map (fun k => (k, codes_in fields k))
                  (first_occurrences seen (filter (dict_mem fields) ks)))%list.
Proof.
  induction ks as [| k ks IH]; intros d0 seen Hseen Hval; simpl.
  - rewrite app_nil_r. reflexivity.
  - unfold restrict_step at 1.
    destruct (dict_mem fields k) eqn:Hin; simpl.
    + destruct (dict_get_mem fields k Hin) as [v Hv].
      assert (Hcodes : codes_in fields k = v)
        by (unfold codes_in; rewrite Hv; reflexivity).
      rewrite Hv. simpl. rewrite Hseen.
      destruct (dict_mem d0 k) eqn:Hd0.
      * rewrite dict_set_same
          by (rewrite (Hval k Hd0), Hcodes; reflexivity).
        apply IH; assumption.
      * rewrite dict_set_new by exact Hd0.
        rewrite (IH (d0 ++ [(k, v)])%list (k :: seen)).
        -- rewrite <- app_assoc. simpl. rewrite Hcodes. reflexivity.
        -- intros x. simpl. rewrite dict_mem_app, Hseen. simpl.
           rewrite orb_false_r. apply orb_comm.
        -- intros x. rewrite <- dict_set_new by exact Hd0.
           rewrite dict_mem_set, dict_get_set.
           destruct (String.eqb_spec x k) as [-> | Hne]; simpl.
           ++ intros _. rewrite Hcodes. reflexivity.
           ++ apply Hval.
    + apply IH; assumption.
Qed.

(** Line 350 builds the requested systems that are present, each with
    its codes, in the order of the request *)
Lemma restrict_fields_spec fields ks :
  restrict_fields fields ks
  = Ok (map (fun k => (k, codes_in fields k))
          (first_occurrences [] (filter (dict_mem fields) ks))).
Proof.
  unfold restrict_fields.
  rewrite (restrict_fields_from fields ks [] []); [reflexivity | |].
  - reflexivity.
  - intros k Hk. discriminate Hk.
Qed.

Lemma select_systems_spec fields use :
  use_truthy use = true ->
  select_systems fields use
  = if intersects fields use
    then Ok (map (fun k => (k, codes_in fields k))
               (requested_present fields use))
    else Raise KeyError.
Proof.
  intros Huse. unfold select_systems. rewrite Huse.
  destruct (intersects fields use); simpl; [| reflexivity].
  apply restrict_fields_spec.
Qed.

(** The measurement filter keeps the systems, and their order *)
Lemma select_meas_loop_keys meas Fmax keys :
  forall fields sysind,
    (forall k, In k keys -> dict_mem fields k = true) ->
    exists fields' sysind',
      foldM (select_meas_system meas Fmax) keys (fields, sysind)
      = Ok (fields', sysind')
      /\ dict_keys fields' = dict_keys fields.
Proof.
  induction keys as [| sk keys IH]; intros fields sysind Hin; simpl.
  - exists fields, sysind. split; reflexivity.
  - assert (Hsk : dict_mem fields sk = true) by (apply Hin; left; reflexivity).
    destruct (dict_get_mem fields sk Hsk) as [codes Hcodes].
    rewrite Hcodes. simpl.
    destruct (IH (dict_set fields sk
                    (mask_select (meas_ind meas codes) codes))
                (dict_set sysind sk
                   (SelMask (meas_mask sk Fmax (meas_ind meas codes)))))
      as (fields' & sysind' & Hrun & Hkeys).
    + intros k Hk. rewrite dict_mem_set, (Hin k) by (right; exact Hk).
      apply orb_true_r.
    + exists fields', sysind'. split; [exact Hrun |].
      rewrite Hkeys. apply dict_keys_set. exact Hsk.
Qed.

Lemma select_meas_keys meas Fmax fields :
  exists fields' sysind,
    select_meas meas Fmax fields = Ok (fields', sysind)
    /\ dict_keys fields' = dict_keys fields
    /\ ((forall l, meas <> MeasSeq l) -> fields' = fields).
Proof.
  destruct meas as [| s | l]; simpl.
  - eexists _, _. repeat split.
  - eexists _, _. repeat split.
  - destruct (select_meas_loop_keys l Fmax (dict_keys fields) fields [])
      as (fields' & sysind & Hrun & Hkeys).
    + intros k Hk. apply dict_mem_keys. exact Hk.
    + exists fields', sysind. repeat split; try assumption.
      intros Hl'. contradiction (Hl' l eq_refl).
Qed.

Lemma dict_keys_map_pair (g : string -> list string) (ks : list string) :
  dict_keys (map (fun k => (k, g k)) ks) = ks.
Proof.
  unfold dict_keys. rewrite map_map. simpl. apply map_id.
Qed.

(** What [obsheader3] returns for a request that meets the file *)
Lemma obsheader3_requested f st f1 use meas :
  read_header f = Ok (st, f1) ->
  use_truthy use = true ->
  intersects (hs_fields st) use = true ->
  exists hdr,
    obsheader3 f use meas = Ok (hdr, f1)
    /\ dict_keys (hdr_fields hdr) = requested_present (hs_fields st) use
    /\ ((forall l, meas <> MeasSeq l) ->
           hdr_fields hdr
           = map (fun k => (k, codes_in (hs_fields st) k))
               (requested_present (hs_fields st) use)).
Proof.
  intros Hread Huse Hmeet. unfold obsheader3. rewrite Hread. simpl.
  rewrite (select_systems_spec _ _ Huse), Hmeet. simpl.
  destruct (select_meas_keys meas (hs_Fmax st)
              (map (fun k => (k, codes_in (hs_fields st) k))
                 (requested_present (hs_fields st) use)))
    as (fields' & sysind & Hrun & Hkeys & Hsame).
  rewrite Hrun. simpl.
  eexists. split; [reflexivity |]. simpl. split.
  - rewrite Hkeys. apply dict_keys_map_pair.
  - exact Hsame.
Qed.

(** C7, as the code has it.  Once the header is read:
    - for a request that is not empty, when none of the requested
      systems is declared in the header, [obsheader3] raises
      [KeyError];
    - for a request that is not empty, when one of them is declared,
      [obsheader3] returns, and its mapping of codes holds the requested
      systems that the file declares, with the codes the file gives
      them when no measurement filter is at work;
    - for [None] and for an empty request, [obsheader3] returns and
      keeps every system of the file. *)
Theorem system_filter f st f1 use meas :
  read_header f = Ok (st, f1) ->
  (use_truthy use = true ->
   intersects (hs_fields st) use = false ->
   obsheader3 f use meas = Raise KeyError)
  /\ (use_truthy use = true ->
      intersects (hs_fields st) use = true ->
      exists hdr,
        obsheader3 f use meas = Ok (hdr, f1)
        /\ (forall k, In k (dict_keys (hdr_fields hdr)) <->
                      In k (use_iter use)
                      /\ dict_mem (hs_fields st) k = true)
        /\ ((forall l, meas <> MeasSeq l) ->
               forall k, In k (dict_keys (hdr_fields hdr)) ->
                 dict_get (hdr_fields hdr) k = dict_get (hs_fields st) k))
  /\ (use_truthy use = false ->
      exists hdr,
        obsheader3 f use meas = Ok (hdr, f1)
        /\ dict_keys (hdr_fields hdr) = dict_keys (hs_fields st)
        /\ ((forall l, meas <> MeasSeq l) ->
            hdr_fields hdr = hs_fields st)).
Proof.
  intros Hread. split; [| split].
  - intros Huse Hmeet. unfold obsheader3. rewrite Hread. simpl.
    rewrite (select_systems_spec _ _ Huse), Hmeet. reflexivity.
  - intros Huse Hmeet.
    destruct (@obsheader3_requested f st f1 use meas Hread Huse Hmeet)
      as (hdr & Hrun & Hkeys & Hval).
    exists hdr. split; [exact Hrun | split].
    + intros k. rewrite Hkeys. unfold requested_present.
      rewrite first_occurrences_in, filter_In. simpl. tauto.
    + intros Hl k Hk. rewrite (Hval Hl).
      rewrite Hkeys in Hk.
      rewrite dict_get_map_pair by exact Hk.
      unfold requested_present in Hk.
      apply first_occurrences_in in Hk. destruct Hk as [Hk _].
      apply filter_In in Hk. destruct Hk as [_ Hk].
      destruct (dict_get_mem _ _ Hk) as [v Hv].
      unfold codes_in. rewrite Hv. reflexivity.
  - intros Huse. unfold obsheader3, select_systems.
    rewrite Hread. simpl. rewrite Huse. simpl.
    destruct (select_meas_keys meas (hs_Fmax st) (hs_fields st))
      as (fields' & sysind & Hrun & Hkeys & Hsame).
    rewrite Hrun. simpl.
    eexists. split; [reflexivity |]. simpl. split; assumption.
Qed.

(** C8.  For a request that meets the systems of the file, the
    mapping of codes lists the retained systems in the order in which
    the request is iterated (a system that comes twice stands at its
    first place), and not in the order of the header: two headers that
    declare the same systems give the same list.  For a list or a tuple
    this is the order in which the caller wrote the systems, and for a
    string the order of its characters; the string that [rinexobs3]
    wraps at lines 60-61 names one system.  For a set it is the order
    of the set, [set_order], whatever the order in which the caller
    wrote its elements. *)
Theorem systems_in_requested_order f st f1 meas :
  read_header f = Ok (st, f1) ->
  (forall use,
      use_truthy use = true ->
      intersects (hs_fields st) use = true ->
      exists hdr,
        obsheader3 f use meas = Ok (hdr, f1)
        /\ dict_keys (hdr_fields hdr)
           = first_occurrences []
               (filter (dict_mem (hs_fields st)) (use_iter use))
        /\ (forall fields' : dict (list string),
               (forall k, dict_mem fields' k = dict_mem (hs_fields st) k) ->
               dict_keys (hdr_fields hdr) = requested_present fields' use)
        /\ (NoDup (use_iter use) ->
            (forall k, In k (use_iter use) ->
                       dict_mem (hs_fields st) k = true) ->
            dict_keys (hdr_fields hdr) = use_iter use))
  /\ (forall l,
         intersects (hs_fields st) (UseSeq l) = true ->
         exists hdr,
           obsheader3 f (UseSeq l) meas = Ok (hdr, f1)
           /\ dict_keys (hdr_fields hdr)
              = first_occurrences [] (filter (dict_mem (hs_fields st)) l))
  /\ (forall s,
         intersects (hs_fields st) (UseStr s) = true ->
         exists hdr,
           obsheader3 f (UseStr s) meas = Ok (hdr, f1)
           /\ dict_keys (hdr_fields hdr)
              = first_occurrences []
                  (filter (dict_mem (hs_fields st)) (chars s)))
  /\ (forall s,
         dict_mem (hs_fields st) s = true ->
         exists hdr,
           obsheader3 f (normalize_use (UseStr s)) meas = Ok (hdr, f1)
           /\ dict_keys (hdr_fields hdr) = [s])
  /\ (forall l,
         intersects (hs_fields st) (py_set l) = true ->
         exists hdr,
           obsheader3 f (py_set l) meas = Ok (hdr, f1)
           /\ dict_keys (hdr_fields hdr)
              = first_occurrences []
                  (filter (dict_mem (hs_fields st)) (set_order l))).
Proof.
  intros Hread.
  assert (Htruthy : forall use,
             intersects (hs_fields st) use = true -> use_truthy use = true).
  { intros use Hmeet. unfold intersects, use_truthy in *.
    destruct (use_iter use); [discriminate Hmeet | reflexivity]. }
  assert (Hgen : forall use,
             intersects (hs_fields st) use = true ->
             exists hdr,
               obsheader3 f use meas = Ok (hdr, f1)
               /\ dict_keys (hdr_fields hdr)
                  = first_occurrences []
                      (filter (dict_mem (hs_fields st)) (use_iter use))).
  { intros use Hmeet.
    destruct (@obsheader3_requested f st f1 use meas Hread
                (Htruthy use Hmeet) Hmeet) as (hdr & Hrun & Hkeys & _).
    exists hdr. split; [exact Hrun | exact Hkeys]. }
  split; [| split; [| split; [| split]]].
  - intros use Huse Hmeet.
    destruct (@obsheader3_requested f st f1 use meas Hread Huse Hmeet)
      as (hdr & Hrun & Hkeys & _).
    exists hdr. split; [exact Hrun |]. split; [exact Hkeys |]. split.
    + intros fields' Hsame. rewrite Hkeys. unfold requested_present.
      f_equal. apply filter_ext. intros k. symmetry. apply Hsame.
    + intros Hnd Hall. rewrite Hkeys. unfold requested_present.
      rewrite filter_all by exact Hall.
      apply first_occurrences_id; [exact Hnd | intros x _ []].
  - intros l Hmeet. exact (Hgen (UseSeq l) Hmeet).
  - intros s Hmeet. exact (Hgen (UseStr s) Hmeet).
  - intros s Hmem.
    destruct (Hgen (UseSet [s])) as (hdr & Hrun & Hkeys).
    { unfold intersects. simpl. rewrite Hmem. reflexivity. }
    exists hdr. split; [exact Hrun |]. rewrite Hkeys. simpl.
    rewrite Hmem. reflexivity.
  - intros l Hmeet. exact (Hgen (py_set l) Hmeet).
Qed.

End SystemFilter.

(** The header of the sample declares G, then R *)
Lemma read_header_GR :
  @read_header Sample.zeroed Sample.header_GR
  = Ok (mkHeaderState [("version", HInfo ("3.03" : @info Sample.zeroed))]
          [("G", ["C1C"; "L1C"]); ("R", ["C1C"])] 2, []).
Proof. reflexivity. Qed.

(** A request for X, which the file does not declare *)
Lemma system_filter_example :
  @obsheader3 Sample.zeroed Sample.header_GR (UseSeq ["X"]) MeasNone
  = Raise KeyError.
Proof.
  apply (proj1 (@system_filter Sample.zeroed Sample.header_GR _ _
                  (UseSeq ["X"]) MeasNone read_header_GR));
    reflexivity.
Defined.

(** C7 as the specification words it fails on the empty request: it
    meets no system of the file, and [obsheader3] raises nothing and
    keeps all the systems. *)
Lemma empty_request_is_no_request :
  intersects [("G", ["C1C"; "L1C"]); ("R", ["C1C"])] (UseSeq []) = false
  /\ @obsheader3 Sample.zeroed Sample.header_GR (UseSeq []) MeasNone
     = Ok (mkHeader [("version", HInfo ("3.03" : @info Sample.zeroed))]
             [("G", ["C1C"; "L1C"]); ("R", ["C1C"])]
             [("G", SelAll); ("R", SelAll)] 2, []).
Proof. split; reflexivity. Qed.

(** A list and a set of R and G, R first, for a file that declares G,
    then R: the list gives R, then G, and the set gives its own order *)
Lemma systems_in_requested_order_example :
  (exists hdr,
      @obsheader3 Sample.zeroed Sample.header_GR (UseSeq ["R"; "G"]) MeasNone
      = Ok (hdr, [])
      /\ dict_keys (hdr_fields hdr) = ["R"; "G"])
  /\ (exists hdr,
         @obsheader3 Sample.zeroed Sample.header_GR
           (@py_set Sample.zeroed ["R"; "G"]) MeasNone
         = Ok (hdr, [])
         /\ dict_keys (hdr_fields hdr) = ["G"; "R"]).
Proof.
  destruct (@systems_in_requested_order Sample.zeroed Sample.header_GR _ _
              MeasNone read_header_GR)
    as (_ & Hseq & _ & _ & Hset).
  split.
  - exact (Hseq ["R"; "G"] eq_refl).
  - exact (Hset ["R"; "G"] eq_refl).
Defined.

(** C8 as the specification words it fails on a set.  The caller
    writes the set of R and G, R first, for a file that declares R, then
    G; the set is iterated G first, and the mapping of codes lists G,
    then R, which is not the order of the caller. *)
Lemma set_request_in_set_order :
  @py_set Sample.zeroed ["R"; "G"] = UseSet ["G"; "R"]
  /\ exists hdr,
       @obsheader3 Sample.zeroed Sample.header_RG
         (@py_set Sample.zeroed ["R"; "G"]) MeasNone
       = Ok (hdr, [])
       /\ dict_keys (hdr_fields hdr) = ["G"; "R"]
       /\ dict_keys (hdr_fields hdr) <> ["R"; "G"].
Proof.
  split; [reflexivity |].
  eexists. split; [reflexivity |]. split; [reflexivity | discriminate].
Qed.

(** ** The measurement filter *)

Section MeasFilter.
Context {E : Externals}.
Local Open Scope list_scope.

Lemma list_set_app {A : Type} (pre : list A) (x v : A) (rest : list A) :
  list_set (pre ++ x :: rest) (length pre) v = (pre ++ v :: rest)%list.
Proof.
  induction pre as [| y pre IH]; simpl; [reflexivity | now rewrite IH].
Qed.

Lemma mark_prefix_from m codes :
  forall start pre rest,
    length pre = start -> length rest = length codes ->
    fold_left (mark_step m) (combine (seq start (length codes)) codes)
      (pre ++ rest)
    = (pre ++ zip_with (fun c b => Py.startswith c m || b) codes rest)%list.
Proof.
  induction codes as [| c codes IH]; intros start pre rest Hpre Hrest.
  - destruct rest; [reflexivity | discriminate Hrest].
  - destruct rest as [| b rest]; [discriminate Hrest |].
    injection Hrest as Hrest. simpl.
    assert (Hstep : (if Py.startswith c m
                     then list_set (pre ++ b :: rest) start true
                     else (pre ++ b :: rest)%list)
                    = ((pre ++ [Py.startswith c m || b]) ++ rest)%list).
    { rewrite <- app_assoc. simpl. subst start.
      destruct (Py.startswith c m); simpl;
        [apply list_set_app | reflexivity]. }
    rewrite Hstep, (@IH (S start)).
    + rewrite <- app_assoc. reflexivity.
    + rewrite length_app. simpl. lia.
    + exact Hrest.
Qed.

Lemma mark_prefix_spec m codes ind :
  length ind = length codes ->
  mark_prefix m codes ind
  = zip_with (fun c b => Py.startswith c m || b) codes ind.
Proof.
  intros Hlen. unfold mark_prefix, enumerate.
  apply (@mark_prefix_from m codes 0%nat [] ind eq_refl Hlen).
Qed.

Lemma zip_with_length {A B C : Type} (f : A -> B -> C) l l' :
  length l' = length l -> length (zip_with f l l') = length l.
Proof.
  revert l'. induction l as [| x l IH]; intros [| y l'] H; simpl in *;
    try discriminate; [reflexivity |].
  injection H as H. now rewrite IH.
Qed.

Lemma zip_with_zip_with {A : Type} (f g : A -> bool -> bool) l l' :
  zip_with f l (zip_with g l l')
  = zip_with (fun c b => f c (g c b)) l l'.
Proof.
  revert l'. induction l as [| x l IH]; intros [| y l']; simpl;
    try reflexivity.
  now rewrite IH.
Qed.

Lemma zip_with_ext {A B C : Type} (f g : A -> B -> C) l l' :
  (forall x y, f x y = g x y) -> zip_with f l l' = zip_with g l l'.
Proof.
  intros Hfg. revert l'.
  induction l as [| x l IH]; intros [| y l']; simpl; try reflexivity.
  now rewrite Hfg, IH.
Qed.

Lemma zip_with_repeat_false {A : Type} (p : A -> bool) l :
  zip_with (fun c b => p c || b) l (repeat false (length l)) = map p l.
Proof.
  induction l as [| x l IH]; simpl; [reflexivity |].
  now rewrite IH, orb_false_r.
Qed.

Lemma meas_ind_from meas codes :
  forall ind,
    length ind = length codes ->
    fold_left (fun ind m => mark_prefix m codes ind) meas ind
    = zip_with (fun c b => existsb (Py.startswith c) meas || b) codes ind.
Proof.
  induction meas as [| m meas IH]; intros ind Hlen; simpl.
  - revert ind Hlen. induction codes as [| c codes IHc];
      intros [| b ind] Hlen; simpl in *; try discriminate; [reflexivity |].
    injection Hlen as Hlen. now rewrite <- IHc.
  - rewrite mark_prefix_spec by exact Hlen.
    rewrite IH by (apply zip_with_length; exact Hlen).
    rewrite zip_with_zip_with. apply zip_with_ext.
    intros c b. destruct (Py.startswith c m); simpl;
      [now rewrite orb_true_r | reflexivity].
Qed.

(** Lines 358-362 mark the codes that start with one of the prefixes *)
Lemma meas_ind_spec meas codes :
  meas_ind meas codes = map (fun c => existsb (Py.startswith c) meas) codes.
Proof.
  unfold meas_ind. rewrite meas_ind_from by apply repeat_length.
  apply zip_with_repeat_false.
Qed.

Lemma mask_select_map {A : Type} (p : A -> bool) (l : list A) :
  mask_select (map p l) l = filter p l.
Proof.
  induction l as [| x l IH]; simpl; [reflexivity |].
  destruct (p x); now rewrite IH.
Qed.

(** Line 364 keeps the codes that start with one of the prefixes, in
    their order *)
Lemma retained_codes meas codes :
  mask_select (meas_ind meas codes) codes = with_prefix meas codes.
Proof. rewrite meas_ind_spec. apply mask_select_map. Qed.

Lemma slice_assign_skip {A : Type} (pre l : list A) (lo hi : nat) (v : A) :
  slice_assign (pre ++ l) (length pre + lo) (length pre + hi) v
  = (pre ++ slice_assign l lo hi v)%list.
Proof.
  induction pre as [| x pre IH]; simpl; [reflexivity |].
  now rewrite IH.
Qed.

Lemma slice_assign_none {A : Type} (l : list A) (v : A) :
  slice_assign l 0 0 v = l.
Proof. induction l as [| x l IH]; simpl; [reflexivity | now rewrite IH]. Qed.

Lemma slice_assign_length {A : Type} (l : list A) (lo hi : nat) (v : A) :
  length (slice_assign l lo hi v) = length l.
Proof.
  revert lo hi. induction l as [| x l IH]; intros lo hi; simpl;
    [reflexivity | now rewrite IH].
Qed.

Lemma meas_mask_from ind :
  forall start pre rest,
    length pre = (start * 3)%nat ->
    (3 * length ind <= length rest)%nat ->
    fold_left mask_step (combine (seq start (length ind)) ind) (pre ++ rest)
    = (pre ++ thrice ind ++ skipn (3 * length ind) rest)%list.
Proof.
  induction ind as [| b ind IH]; intros start pre rest Hpre Hrest.
  - reflexivity.
  - simpl length in Hrest.
    destruct rest as [| x [| y [| z rest]]]; simpl in Hrest; try lia.
    simpl combine. simpl fold_left.
    replace (start * 3 + 3)%nat with (length pre + 3)%nat by lia.
    replace (start * 3)%nat with (length pre + 0)%nat at 1 by lia.
    rewrite slice_assign_skip. simpl slice_assign.
    rewrite slice_assign_none.
    change (pre ++ b :: b :: b :: rest)%list
      with (pre ++ [b; b; b] ++ rest)%list.
    rewrite app_assoc, (@IH (S start)).
    + rewrite <- app_assoc. f_equal.
      replace (3 * length (b :: ind))%nat
        with (S (S (S (3 * length ind)))) by (simpl; lia).
      reflexivity.
    + rewrite length_app. simpl. lia.
    + lia.
Qed.

Lemma np_empty_length sk n : length (np_empty sk n) = Z.to_nat n.
Proof. unfold np_empty. now rewrite length_map, length_seq. Qed.

Lemma meas_mask_length sk Fmax ind :
  length (meas_mask sk Fmax ind) = Z.to_nat (Fmax * 3).
Proof.
  unfold meas_mask. rewrite <- (np_empty_length sk (Fmax * 3)).
  generalize (np_empty sk (Fmax * 3)). generalize (enumerate ind).
  induction l as [| [j i] l IH]; intros mask; simpl; [reflexivity |].
  rewrite IH. apply slice_assign_length.
Qed.

(** Lines 365-367: three slots for each code, in the order of the
    codes, and after them what the array held before *)
Lemma meas_mask_spec sk Fmax ind :
  (3 * length ind <= Z.to_nat (Fmax * 3))%nat ->
  meas_mask sk Fmax ind
  = (thrice ind ++ skipn (3 * length ind) (np_empty sk (Fmax * 3)))%list.
Proof.
  intros Hlen. unfold meas_mask, enumerate.
  apply (@meas_mask_from ind 0%nat [] (np_empty sk (Fmax * 3)) eq_refl).
  now rewrite np_empty_length.
Qed.

Lemma true_count_app a b :
  true_count (a ++ b) = (true_count a + true_count b)%nat.
Proof. apply count_occ_app. Qed.

Lemma true_count_thrice ind :
  true_count (thrice ind) = (3 * true_count ind)%nat.
Proof.
  unfold true_count, thrice.
  induction ind as [| b ind IH]; [reflexivity |].
  simpl flat_map. simpl count_occ at 1.
  destruct (bool_dec b true) as [-> | Hb].
  - simpl. simpl in IH. rewrite IH. lia.
  - simpl. destruct (bool_dec b true); [contradiction |].
    simpl in IH. rewrite IH. reflexivity.
Qed.

Lemma true_count_map {A : Type} (p : A -> bool) (l : list A) :
  true_count (map p l) = length (filter p l).
Proof.
  unfold true_count. induction l as [| x l IH]; simpl; [reflexivity |].
  destruct (p x); simpl; now rewrite IH.
Qed.

(** The count of a mask: three for each retained code, and what the
    slots that are never written happen to hold *)
Lemma meas_mask_count sk Fmax meas codes :
  (3 * length codes <= Z.to_nat (Fmax * 3))%nat ->
  true_count (meas_mask sk Fmax (meas_ind meas codes))
  = (3 * length (with_prefix meas codes)
     + true_count (skipn (3 * length codes) (np_empty sk (Fmax * 3))))%nat.
Proof.
  intros Hlen.
  rewrite meas_mask_spec
    by (rewrite meas_ind_spec, length_map; exact Hlen).
  rewrite true_count_app, true_count_thrice.
  rewrite meas_ind_spec, true_count_map, length_map. reflexivity.
Qed.

Lemma select_meas_loop_spec meas Fmax keys :
  NoDup keys ->
  forall fields sysind fields' sysind',
    foldM (select_meas_system meas Fmax) keys (fields, sysind)
    = Ok (fields', sysind') ->
    forall sk,
      (In sk keys ->
       exists codes,
         dict_get fields sk = Ok codes
         /\ dict_get fields' sk = Ok (with_prefix meas codes)
         /\ dict_get sysind' sk
            = Ok (SelMask (meas_mask sk Fmax (meas_ind meas codes))))
      /\ (~ In sk keys ->
          dict_get fields' sk = dict_get fields sk
          /\ dict_get sysind' sk = dict_get sysind sk).
Proof.
  induction 1 as [| k keys Hk _ IH];
    intros fields sysind fields' sysind' Hrun sk; simpl in Hrun.
  - injection Hrun as <- <-. split; [contradiction | auto].
  - bind_inv Hrun. destruct a as [fields1 sysind1].
    unfold select_meas_system in Ha. bind_inv Ha.
    injection Ha as <- <-. rename a into codes.
    rewrite retained_codes in Hrun.
    specialize (IH _ _ _ _ Hrun).
    destruct (string_dec sk k) as [-> | Hne].
    + split; [| intros Hn; contradiction Hn; left; reflexivity].
      intros _. exists codes.
      destruct (proj2 (IH k) Hk) as [Hf Hs].
      rewrite Hf, Hs, !dict_get_set, String.eqb_refl. auto.
    + assert (Hneb : String.eqb sk k = false) by (apply String.eqb_neq; exact Hne).
      split.
      * intros [Heq | Hin]; [congruence |].
        destruct (proj1 (IH sk) Hin) as (codes' & Hget & Hf & Hs).
        rewrite dict_get_set, Hneb in Hget.
        exists codes'. auto.
      * intros Hn.
        destruct (proj2 (IH sk)) as [Hf Hs];
          [intros Hin; apply Hn; right; exact Hin |].
        rewrite Hf, Hs, !dict_get_set, Hneb. auto.
Qed.

(** What the measurement filter leaves of a system: the codes that
    start with one of the prefixes, in their order, and a mask of
    [Fmax * 3] slots whose count is three for each of these codes
    plus the count of the slots after the codes of the system, which
    [obsheader3] never writes *)
Lemma measurement_filter fields meas Fmax fields' sysind :
  NoDup (dict_keys fields) ->
  select_meas (MeasSeq meas) Fmax fields = Ok (fields', sysind) ->
  forall sk codes,
    dict_get fields sk = Ok codes ->
    dict_get fields' sk = Ok (with_prefix meas codes)
    /\ exists mask,
        dict_get sysind sk = Ok (SelMask mask)
        /\ length mask = Z.to_nat (Fmax * 3)
        /\ ((3 * length codes <= Z.to_nat (Fmax * 3))%nat ->
            true_count mask
            = (3 * length (with_prefix meas codes)
               + true_count (skipn (3 * length codes)
                               (np_empty sk (Fmax * 3))))%nat).
Proof.
  intros Hnd Hrun sk codes Hget. simpl in Hrun.
  unfold select_meas_loop in Hrun.
  destruct (proj1 (@select_meas_loop_spec meas Fmax (dict_keys fields) Hnd
                     fields [] fields' sysind Hrun sk))
    as (codes' & Hget' & Hf & Hs).
  - apply dict_mem_keys. eapply dict_get_ok_mem. exact Hget.
  - rewrite Hget in Hget'. injection Hget' as <-.
    split; [exact Hf |].
    eexists. split; [exact Hs |]. split.
    + apply meas_mask_length.
    + apply meas_mask_count.
Qed.

End MeasFilter.

Section MeasFilterHeader.
Context {E : Externals}.

Lemma select_systems_from fields0 use fields :
  NoDup (dict_keys fields0) ->
  select_systems fields0 use = Ok fields ->
  NoDup (dict_keys fields)
  /\ forall sk codes, dict_get fields sk = Ok codes ->
                      dict_get fields0 sk = Ok codes.
Proof.
  intros Hnd Hsel. destruct (use_truthy use) eqn:Huse.
  - rewrite (select_systems_spec _ _ Huse) in Hsel.
    destruct (intersects fields0 use); [| discriminate Hsel].
    injection Hsel as <-. split.
    + rewrite dict_keys_map_pair. apply first_occurrences_NoDup.
    + intros sk codes Hget.
      assert (Hin : In sk (requested_present fields0 use)).
      { apply dict_get_ok_mem, dict_mem_keys in Hget.
        rewrite dict_keys_map_pair in Hget. exact Hget. }
      rewrite dict_get_map_pair in Hget by exact Hin.
      injection Hget as <-.
      apply first_occurrences_in in Hin. destruct Hin as [Hin _].
      apply filter_In in Hin. destruct Hin as [_ Hmem].
      destruct (dict_get_mem _ _ Hmem) as [v Hv].
      unfold codes_in. rewrite Hv. reflexivity.
  - unfold select_systems in Hsel. rewrite Huse in Hsel.
    injection Hsel as <-. auto.
Qed.

(** What [obsheader3] leaves of a system under a measurement filter:
    of the codes that the file declares for it, those that start with
    one of the prefixes, in their order; and a mask of [Fmax * 3] slots
    that counts three for each of these codes, plus what the slots
    after the codes of the system, which are never written, happen to
    hold *)
Lemma obsheader3_measurement_filter f st f1 use meas hdr f1' :
  read_header f = Ok (st, f1) ->
  obsheader3 f use (MeasSeq meas) = Ok (hdr, f1') ->
  forall sk, In sk (dict_keys (hdr_fields hdr)) ->
    exists codes mask,
      dict_get (hs_fields st) sk = Ok codes
      /\ dict_get (hdr_fields hdr) sk = Ok (with_prefix meas codes)
      /\ dict_get (hdr_fields_ind hdr) sk = Ok (SelMask mask)
      /\ length mask = Z.to_nat (hs_Fmax st * 3)
      /\ true_count mask
         = (3 * length (with_prefix meas codes)
            + true_count (skipn (3 * length codes)
                            (np_empty sk (hs_Fmax st * 3))))%nat.
Proof.
  intros Hread Hrun sk Hsk.
  destruct (@read_header_wf E f st f1 Hread) as [Hnd Hlen].
  unfold obsheader3 in Hrun. rewrite Hread in Hrun. simpl in Hrun.
  bind_split Hrun as fields Hsel.
  bind_split Hrun as fs Hmeas. destruct fs as [fields' sysind].
  simpl in Hrun. injection Hrun as <- _. simpl in *.
  destruct (@select_systems_from (hs_fields st) use fields Hnd Hsel)
    as [Hnd' Hfrom].
  assert (Hkeys : dict_keys fields' = dict_keys fields).
  { destruct (select_meas_keys (MeasSeq meas) (hs_Fmax st) fields)
      as (fields'' & sysind'' & Hrun' & Hkeys & _).
    simpl in Hrun'. rewrite Hmeas in Hrun'.
    injection Hrun' as <- _. exact Hkeys. }
  rewrite Hkeys in Hsk. apply dict_mem_keys in Hsk.
  destruct (dict_get_mem _ _ Hsk) as [codes Hcodes].
  destruct (@measurement_filter E fields meas (hs_Fmax st) fields' sysind
              Hnd' Hmeas sk codes Hcodes)
    as (Hretained & mask & Hmask & Hsize & Hcount).
  exists codes, mask.
  pose proof (Hlen _ _ (Hfrom _ _ Hcodes)) as Hbound.
  repeat split; auto.
  apply Hcount. lia.
Qed.

End MeasFilterHeader.

(** With memory that happens to be zero, the mask of R counts three
    slots for its one retained code *)
Lemma mask_count_in_zeroed_memory :
  exists hdr,
    @obsheader3 Sample.zeroed Sample.header_GR UseNone (MeasSeq ["C1"])
    = Ok (hdr, [])
    /\ dict_get (hdr_fields hdr) "R" = Ok ["C1C"]
    /\ dict_get (hdr_fields_ind hdr) "R"
       = Ok (SelMask [true; true; true; false; false; false]).
Proof. eexists. repeat split. Qed.

(** C2 at a header that declares two codes for G and one for R, read
    with the prefix "C1", when the memory that [np.empty] hands out for
    the mask of R is not zero: the code C1C of R is retained, and the
    mask of R, of [Fmax * 3 = 6] slots, counts 6 and not 3, because
    slots 3 to 5 are never written. *)
Theorem mask_counts_unwritten_slots :
  exists hdr mask,
    @obsheader3 Sample.dirty Sample.header_GR UseNone (MeasSeq ["C1"])
    = Ok (hdr, [])
    /\ hdr_Fmax hdr = 2
    /\ dict_get (hdr_fields hdr) "R" = Ok (with_prefix ["C1"] ["C1C"])
    /\ dict_get (hdr_fields_ind hdr) "R" = Ok (SelMask mask)
    /\ length mask = 6%nat
    /\ true_count mask = 6%nat
    /\ (3 * length (with_prefix ["C1"] ["C1C"]) = 3)%nat.
Proof. eexists. eexists. repeat split. Qed.

(** ** The indicator columns *)

Section Indicators.
Context {E : Externals}.

Lemma _indicators_mem d k arr d' :
  _indicators d k arr = Ok d' ->
  forall name,
    dict_mem d' name
    = (String.eqb name (k ++ "ssi")
       || (is_phase k && String.eqb name (k ++ "lli"))
       || dict_mem d name).
Proof.
  unfold _indicators. intros H name.
  bind_inv H. bind_inv H. injection H as <-.
  rewrite dict_mem_set.
  destruct (is_phase k); simpl.
  - bind_inv Ha. injection Ha as <-. rewrite dict_mem_set.
    destruct (String.eqb name (k ++ "ssi")); reflexivity.
  - injection Ha as <-. rewrite orb_false_r. reflexivity.
Qed.

Lemma epoch_variables_mem garr l d0 dsf :
  foldM (epoch_variable true garr) l d0 = Ok dsf ->
  forall name,
    dict_mem dsf name = true <->
    dict_mem d0 name = true \/ exists i k, In (i, k) l /\ names_of name k.
Proof.
  revert d0. induction l as [| [i k] l IH]; simpl; intros d0 H name.
  - injection H as <-. split; [auto | intros [H | (i & k & [] & _)]; exact H].
  - bind_inv H. rewrite (IH _ H name). clear IH H.
    bind_inv Ha. rewrite (_indicators_mem _ _ _ Ha name), dict_mem_set.
    rewrite !orb_true_iff, andb_true_iff, !String.eqb_eq.
    unfold names_of. split.
    + intros [[[Hs | [Hp Hl]] | [Hk | Hd]] | (i' & k' & Hin & Hn)].
      * right. exists i, k. auto.
      * right. exists i, k. auto.
      * right. exists i, k. auto.
      * left. exact Hd.
      * right. exists i', k'. auto.
    + intros [Hd | (i' & k' & [Heq | Hin] & Hn)].
      * left. right. right. exact Hd.
      * injection Heq as <- <-. left.
        destruct Hn as [Hk | [Hs | [Hp Hl]]]; auto.
      * right. exists i', k'. auto.
Qed.

(** C9.  With indicator extraction enabled, [_indicators] writes the
    SSI column of a code whatever the code is, and its LLI column
    exactly when the name of the code starts with "L1" or "L2"; so
    the variables of a system at an epoch hold, for every code of
    three characters, its SSI column, and its LLI column if and only
    if the code starts with "L1" or "L2".  "C1C" has no LLI column. *)
Theorem indicator_columns :
  (forall d k arr d',
      _indicators d k arr = Ok d' ->
      forall name,
        dict_mem d' name = true <->
        name = k ++ "ssi" \/ (is_phase k = true /\ name = k ++ "lli")
        \/ dict_mem d name = true)
  /\ (forall garr codes dsf,
         Forall (fun k => String.length k = 3%nat) codes ->
         epoch_variables true garr codes = Ok dsf ->
         forall k, In k codes ->
           dict_mem dsf (k ++ "ssi") = true
           /\ (dict_mem dsf (k ++ "lli") = true <-> is_phase k = true))
  /\ is_phase "C1C" = false.
Proof.
  split; [| split; [| reflexivity]].
  - intros d k arr d' H name.
    rewrite (_indicators_mem _ _ _ H name).
    rewrite !orb_true_iff, andb_true_iff, !String.eqb_eq. tauto.
  - intros garr codes dsf Hlen H k Hin.
    unfold epoch_variables in H.
    pose proof (epoch_variables_mem _ _ _ H) as Hmem. clear H.
    rewrite Forall_forall in Hlen.
    destruct (in_enumerate codes k Hin) as [i Hi].
    split.
    + apply Hmem. right. exists i, k. unfold names_of. auto.
    + rewrite Hmem. split.
      * intros [Hd | (i' & k' & Hin' & Hn)]; [discriminate Hd |].
        apply in_enumerate_r in Hin'.
        pose proof (Hlen k Hin) as Lk. pose proof (Hlen k' Hin') as Lk'.
        destruct Hn as [Hk | [Hs | [Hp Hl]]].
        -- apply (f_equal String.length) in Hk.
           rewrite length_append, Lk, Lk' in Hk. discriminate Hk.
        -- apply append_inj in Hs; [| congruence].
           destruct Hs as [_ Hs]. discriminate Hs.
        -- apply append_inj in Hl; [| congruence].
           destruct Hl as [-> _]. exact Hp.
      * intros Hp. right. exists i, k. unfold names_of. auto.
Qed.

End Indicators.

(** The codes C1C and L1C of a satellite whose L1C has LLI 5 and SSI 7 *)
Lemma indicator_columns_example :
  Forall (fun k => String.length k = 3%nat) ["C1C"; "L1C"]
  /\ @epoch_variables Sample.zeroed true
       [["20000000.000"; ""; "7"; "105000000.000"; "5"; "7"]] ["C1C"; "L1C"]
     = Ok [("C1C", ["20000000.000"]); ("C1Cssi", ["7"]);
           ("L1C", ["105000000.000"]); ("L1Clli", ["5"]); ("L1Cssi", ["7"])]
  /\ (dict_mem [("C1C", ["20000000.000"]); ("C1Cssi", ["7"]);
                ("L1C", ["105000000.000"]); ("L1Clli", ["5"]);
                ("L1Cssi", ["7"])] "C1Clli" = true
      <-> @is_phase "C1C" = true).
Proof.
  assert (Hlen : Forall (fun k => String.length k = 3%nat) ["C1C"; "L1C"])
    by (repeat constructor).
  assert (Hrun : @epoch_variables Sample.zeroed true
            [["20000000.000"; ""; "7"; "105000000.000"; "5"; "7"]]
            ["C1C"; "L1C"]
          = Ok [("C1C", ["20000000.000"]); ("C1Cssi", ["7"]);
                ("L1C", ["105000000.000"]); ("L1Clli", ["5"]);
                ("L1Cssi", ["7"])])
    by reflexivity.
  split; [exact Hlen | split; [exact Hrun |]].
  apply (proj1 (proj2 (@indicator_columns Sample.zeroed)) _ _ _ Hlen Hrun "C1C").
  simpl. auto.
Defined.

(** ** An invariant of the scan *)

Section LoopInvariant.
Context {E : Externals}.
Variable D : Type.
Variable handle : D -> string -> Z -> list string -> result D.
Variable tlim : option (Z * Z).
Variable interval : option Z.
Variable P : string -> Prop.
Variable Inv : loop_state D -> Prop.

Hypothesis Inv_offset : forall st offs,
    Inv st -> Inv (mkLoopState (ls_data st) (ls_last_epoch st) offs).

Hypothesis Inv_epoch : forall st raw time sv last data offs,
    Inv st ->
    Forall (from_line P) sv ->
    time_window tlim time = Next ->
    decimate interval (ls_last_epoch st) time = Ok (Next, last) ->
    handle (ls_data st) raw time sv = Ok data ->
    Inv (mkLoopState data last offs).

Lemma read_satellites_from_lines n :
  forall f sv raw sv' raw' f',
    Forall P f -> Forall (from_line P) sv ->
    read_satellites n f sv raw = (sv', raw', f') ->
    Forall (from_line P) sv' /\ Forall P f'.
Proof.
  induction n as [| n IH]; intros f sv raw sv' raw' f' Hf Hsv Hread;
    simpl in Hread.
  - injection Hread as <- _ <-. split; assumption.
  - destruct f as [| ln f].
    + apply (IH _ _ _ _ _ _ Hf) in Hread; [exact Hread |].
      apply Forall_app. split; [exact Hsv |].
      constructor; [left; reflexivity | constructor].
    + inversion Hf as [| ? ? Hln Hf']; subst.
      apply (IH _ _ _ _ _ _ Hf') in Hread; [exact Hread |].
      apply Forall_app. split; [exact Hsv |].
      constructor; [right; exists ln; auto | constructor].
Qed.

(** What holds before the scan, and is kept by every accepted epoch,
    holds after the scan *)
Lemma epoch_loop_invariant fuel :
  forall f st st',
    Forall P f -> Inv st ->
    epoch_loop handle tlim interval fuel f st = Ok st' -> Inv st'.
Proof.
  induction fuel as [| fuel IH]; intros f st st' Hf Hst Hrun.
  - destruct f; injection Hrun as <-; exact Hst.
  - destruct f as [| ln f]; [injection Hrun as <-; exact Hst |].
    inversion Hf as [| ? ? Hln Hf']; subst.
    simpl in Hrun.
    destruct (Py.startswith ln ">"); simpl in Hrun;
      [| injection Hrun as <-; exact Hst].
    destruct (_timeobs ln) as [time | e].
    + bind_inv Hrun. rename a into offs.
      bind_inv Hrun. rename a into n.
      destruct (read_satellites (Z.to_nat n) f [] "")
        as [[sv raw] f2] eqn:Hsat.
      destruct (@read_satellites_from_lines (Z.to_nat n) f [] "" sv raw f2
                  Hf' (Forall_nil _) Hsat)
        as [Hsv Hf2].
      destruct (time_window tlim time) eqn:Hwin.
      * bind_inv Hrun. destruct a as [fl last]. simpl in Hrun.
        destruct fl.
        -- bind_inv Hrun. rename a into data.
           apply (IH _ _ _ Hf2) in Hrun; [exact Hrun |].
           eapply Inv_epoch; eassumption.
        -- apply (IH _ _ _ Hf2) in Hrun; [exact Hrun |].
           apply Inv_offset. exact Hst.
        -- injection Hrun as <-. apply Inv_offset. exact Hst.
      * apply (IH _ _ _ Hf2) in Hrun; [exact Hrun |].
        apply Inv_offset. exact Hst.
      * injection Hrun as <-. apply Inv_offset. exact Hst.
    + destruct e; try discriminate Hrun.
      exact (IH _ _ _ Hf' Hst Hrun).
Qed.

End LoopInvariant.

(** ** The accepted epochs of a scan *)

Section Trace.
Context {E : Externals}.
Variable D : Type.
Variable handle : D -> string -> Z -> list string -> result D.
Variable tlim : option (Z * Z).
Variable interval : option Z.

(** A scan that returns has accepted the epochs that the recording
    handler accepts, and ends with the same reference and the same
    clock offsets *)
Lemma epoch_loop_accepted fuel :
  forall f st st' log,
    epoch_loop handle tlim interval fuel f st = Ok st' ->
    exists log',
      epoch_loop (fun log _ time _ => Ok (log ++ [time])%list)
        tlim interval fuel f
        (mkLoopState log (ls_last_epoch st) (ls_time_offset st))
      = Ok (mkLoopState log' (ls_last_epoch st') (ls_time_offset st')).
Proof.
  induction fuel as [| fuel IH]; intros f st st' log Hrun.
  - destruct f; injection Hrun as <-; exists log; reflexivity.
  - destruct f as [| ln f]; [injection Hrun as <-; exists log; reflexivity |].
    simpl in Hrun. simpl.
    destruct (Py.startswith ln ">"); simpl in *;
      [| injection Hrun as <-; exists log; reflexivity].
    destruct (_timeobs ln) as [time | e].
    + bind_split Hrun as offs Hoffs. rewrite Hoffs. simpl.
      bind_split Hrun as n Hn. rewrite Hn. simpl.
      destruct (read_satellites (Z.to_nat n) f [] "") as [[sv raw] f2].
      destruct (time_window tlim time).
      * bind_split Hrun as fl_last Hdec. rewrite Hdec. simpl.
        destruct fl_last as [fl last]. simpl in Hrun.
        destruct fl.
        -- bind_split Hrun as data Hdata.
           exact (IH _ _ _ (log ++ [time])%list Hrun).
        -- exact (IH _ _ _ log Hrun).
        -- injection Hrun as <-. exists log. reflexivity.
      * exact (IH _ _ _ log Hrun).
      * injection Hrun as <-. exists log. reflexivity.
    + destruct e; try discriminate Hrun.
      exact (IH _ _ _ log Hrun).
Qed.

End Trace.

(** ** The decimation *)

Section Decimation.
Context {E : Externals}.

Lemma decimate_next i last time last' :
  decimate (Some i) last time = Ok (Next, last') ->
  match last with
  | None => last' = Some time
  | Some t => i <= time - t /\ last' = Some (t + i)
  end.
Proof.
  unfold decimate. destruct last as [t |].
  - destruct (time - t <? i) eqn:Hlt; [discriminate |].
    intros H. bind_inv H. injection H as <-.
    unfold datetime_add in Ha.
    destruct ((0 <=? t + i) && (t + i <? datetime_end)); [| discriminate].
    injection Ha as <-. split; [lia | reflexivity].
  - intros H. injection H as <-. reflexivity.
Qed.

Lemma reference_on_grid_next i log last time last' :
  reference_on_grid i log last ->
  decimate (Some i) last time = Ok (Next, last') ->
  reference_on_grid i (log ++ [time])%list last'.
Proof.
  intros Hgrid Hnext. apply decimate_next in Hnext.
  destruct log as [| t0 rest]; simpl in *.
  - subst last. split; [rewrite Hnext; f_equal; lia |].
    intros [| k] t Hk; discriminate Hk.
  - destruct Hgrid as [-> Hrest]. destruct Hnext as [Hle ->].
    split.
    + rewrite length_app. simpl. f_equal. lia.
    + intros k t Hk.
      destruct (Nat.lt_ge_cases k (length rest)) as [Hlt | Hge].
      * rewrite nth_error_app1 in Hk by exact Hlt. exact (Hrest k t Hk).
      * rewrite nth_error_app2 in Hk by exact Hge.
        destruct (k - length rest)%nat as [| j] eqn:Hj;
          [| destruct j; discriminate Hk].
        injection Hk as <-.
        replace k with (length rest) by lia. lia.
Qed.

(** C1, as the code has it.  With a decimation interval [i]:
    - the first epoch that reaches the decimation is accepted and
      becomes the reference;
    - a later epoch is accepted exactly when it comes at least [i]
      after the reference, and then the reference advances by [i],
      whatever the time of the epoch; the elapsed time is counted
      from the reference, not from the epoch accepted before;
    - so, over any file, the reference is the first accepted epoch
      plus [i] times the number of epochs accepted after it, and every
      epoch accepted after the first came at least [i] after the
      reference of its time;
    - and an acceptance does not fail when [i] is not negative and the
      times are [datetime] values. *)
Theorem decimation_reference_on_grid (i : Z) :
  (forall time, decimate (Some i) None time = Ok (Next, Some time))
  /\ (forall t time,
         time - t < i ->
         decimate (Some i) (Some t) time = Ok (Continue, Some t))
  /\ (forall t time fl last,
         decimate (Some i) (Some t) time = Ok (fl, last) ->
         fl = Next -> i <= time - t /\ last = Some (t + i))
  /\ (forall t time,
         0 <= i -> 0 <= t -> time < datetime_end -> i <= time - t ->
         decimate (Some i) (Some t) time = Ok (Next, Some (t + i)))
  /\ (forall tlim f log last,
         accepted_epochs tlim (Some i) f = Ok (log, last) ->
         reference_on_grid i log last).
Proof.
  split; [reflexivity |].
  split.
  { intros t time Hlt. unfold decimate.
    apply Z.ltb_lt in Hlt. rewrite Hlt. reflexivity. }
  split.
  { intros t time fl last Hrun ->.
    exact (@decimate_next i _ _ _ Hrun). }
  split.
  { intros t time Hi Ht Htime Hle. unfold decimate, datetime_add.
    assert (Hlt : (time - t <? i) = false) by lia. rewrite Hlt.
    assert (Hrange : (0 <=? t + i) && (t + i <? datetime_end) = true)
      by (apply andb_true_iff; split; lia).
    rewrite Hrange. reflexivity. }
  intros tlim f log last Hrun. unfold accepted_epochs in Hrun.
  bind_inv Hrun. injection Hrun as <- <-. rename a into st.
  refine (@epoch_loop_invariant E (list Z)
            (fun log _ time _ => Ok (log ++ [time])%list) tlim (Some i)
            (fun _ => True)
            (fun st => reference_on_grid i (ls_data st) (ls_last_epoch st))
            _ _ (length f) f _ st _ _ Ha).
  - intros st0 offs H. exact H.
  - intros st0 raw time sv last data offs Hgrid _ _ Hdec Hlog.
    injection Hlog as <-. simpl.
    exact (@reference_on_grid_next i _ _ _ _ Hgrid Hdec).
  - apply Forall_forall. intros; exact I.
  - simpl. reflexivity.
Qed.

End Decimation.

(** Three epochs 10 seconds apart, read every 10 seconds *)
Lemma decimation_example :
  @accepted_epochs Sample.zeroed None (Some (10 * us_per_second))
    Sample.body_three
  = Ok ([Sample.at_second 10; Sample.at_second 20; Sample.at_second 30],
        Some (Sample.at_second 30))
  /\ reference_on_grid (10 * us_per_second)
       [Sample.at_second 10; Sample.at_second 20; Sample.at_second 30]
       (Some (Sample.at_second 30)).
Proof.
  assert (Hrun : @accepted_epochs Sample.zeroed None (Some (10 * us_per_second))
                   Sample.body_three
                 = Ok ([Sample.at_second 10; Sample.at_second 20;
                        Sample.at_second 30], Some (Sample.at_second 30)))
    by (vm_compute; reflexivity).
  split; [exact Hrun |].
  exact (proj2 (proj2 (proj2 (proj2
           (@decimation_reference_on_grid Sample.zeroed (10 * us_per_second)))))
           None Sample.body_three _ _ Hrun).
Defined.

(** C1 as the specification words it fails on epochs at 0, 25 and 26
    seconds read with an interval of 10 seconds: all three are accepted,
    the reference going from 0 to 10 and to 20, and the third comes one
    second after the second. *)
Lemma irregular_epochs_closer_than_interval :
  @accepted_epochs Sample.zeroed None (Some (10 * us_per_second))
    Sample.body_irregular
  = Ok ([Sample.at_second 0; Sample.at_second 25; Sample.at_second 26],
        Some (Sample.at_second 20))
  /\ result_map ds_time
       (@rinexobs3 Sample.zeroed (Sample.header_GR ++ Sample.body_irregular)
          UseNone None false MeasNone (Some 10))
     = Ok [Sample.at_second 0; Sample.at_second 25; Sample.at_second 26]
  /\ ~ spaced (10 * us_per_second)
        [Sample.at_second 0; Sample.at_second 25; Sample.at_second 26].
Proof.
  split; [vm_compute; reflexivity |].
  split; [vm_compute; reflexivity |].
  intros Hspaced.
  specialize (Hspaced 1%nat (Sample.at_second 25) (Sample.at_second 26)
                eq_refl eq_refl).
  vm_compute in Hspaced. apply Hspaced. reflexivity.
Qed.

(** ** The coordinates of the dataset *)

Section Coordinates.
Context {E : Externals}.
Hypothesis L : XArrayLaws E.

Lemma system_rows_spec sk svs :
  forall si,
    system_rows sk svs = Ok si ->
    forall i, In i si ->
      exists s c, In (i, s) svs /\ Py.head s = Ok c
                  /\ Py.contains c sk = true.
Proof.
  induction svs as [| [j s] svs IH]; simpl; intros si H i Hi.
  - injection H as <-. contradiction.
  - bind_split H as c Hhead. bind_split H as si' Hsi'.
    injection H as <-.
    destruct (Py.contains c sk) eqn:Hc.
    + destruct Hi as [<- | Hi].
      * exists s, c. auto.
      * destruct (IH _ Hsi' i Hi) as (s' & c' & Hin & Hh & Hcon).
        exists s', c'. auto.
    + destruct (IH _ Hsi' i Hi) as (s' & c' & Hin & Hh & Hcon).
      exists s', c'. auto.
Qed.

(** The coordinates after a system was handled: those before, the time
    of the epoch, and satellites of the epoch that belong to the system *)
Lemma epoch_system_coords hdr darr time sv useindicators data sk data' :
  epoch_system hdr darr time sv useindicators data sk = Ok data' ->
  (forall t, In t (ds_time data') -> In t (ds_time data) \/ t = time)
  /\ (forall s, In s (ds_sv data') ->
         In s (ds_sv data)
         \/ (In s sv /\ exists c, Py.head s = Ok c
                                   /\ Py.contains c sk = true)).
Proof.
  unfold epoch_system. intros H.
  bind_split H as si Hsi.
  destruct (length si =? 0)%nat; [injection H as <-; auto |].
  bind_split H as di Hdi. bind_split H as garr0 Hgarr0.
  bind_split H as garr Hgarr. bind_split H as gsv Hgsv.
  bind_split H as codes Hcodes. bind_split H as dsf Hdsf.
  bind_split H as epoch_data Hmake.
  assert (Htime : ds_time epoch_data = [time])
    by (eapply time_make; eassumption).
  assert (Hsv : forall s, In s (ds_sv epoch_data) ->
                  In s sv /\ exists c, Py.head s = Ok c
                                       /\ Py.contains c sk = true).
  { intros s Hs. erewrite sv_make in Hs by eassumption.
    destruct (mapM_ok_in _ _ Hgsv s Hs) as (i & Hi & Hidx).
    destruct (system_rows_spec _ _ Hsi i Hi) as (s' & c & Hin & Hh & Hc).
    apply in_enumerate_index in Hin. rewrite Hin in Hidx.
    injection Hidx as ->.
    split; [| exists c; auto].
    unfold index in Hin. destruct (nth_error sv i) eqn:Hn; [| discriminate].
    injection Hin as ->. eapply nth_error_In. exact Hn. }
  destruct (ds_len data =? 0)%nat.
  - injection H as <-. split.
    + intros t Ht. rewrite Htime in Ht. destruct Ht as [<- | []]. auto.
    + intros s Hs. right. auto.
  - destruct (length (hdr_fields hdr) =? 1)%nat.
    + split.
      * intros t Ht. apply (time_concat L _ _ H) in Ht.
        apply in_app_or in Ht. rewrite Htime in Ht.
        destruct Ht as [Ht | [<- | []]]; auto.
      * intros s Hs. apply (sv_concat L _ _ H) in Hs.
        apply in_app_or in Hs. destruct Hs as [Hs | Hs]; auto.
    + split.
      * intros t Ht. apply (time_merge L _ _ H) in Ht.
        apply in_app_or in Ht. rewrite Htime in Ht.
        destruct Ht as [Ht | [<- | []]]; auto.
      * intros s Hs. apply (sv_merge L _ _ H) in Hs.
        apply in_app_or in Hs. destruct Hs as [Hs | Hs]; auto.
Qed.

Lemma _epoch_coords data raw hdr time sv useindicators data' :
  _epoch data raw hdr time sv useindicators = Ok data' ->
  (forall t, In t (ds_time data') -> In t (ds_time data) \/ t = time)
  /\ (forall s, In s (ds_sv data') ->
         In s (ds_sv data)
         \/ (In s sv /\ exists sk c, In sk (dict_keys (hdr_fields hdr))
                                      /\ Py.head s = Ok c
                                      /\ Py.contains c sk = true)).
Proof.
  unfold _epoch. intros H. bind_split H as darr Hdarr.
  revert data H. generalize (dict_keys (hdr_fields hdr)) as keys.
  induction keys as [| sk keys IH]; simpl; intros data H.
  - injection H as <-. auto.
  - bind_split H as data1 Hdata1.
    destruct (epoch_system_coords _ _ _ _ _ _ _ Hdata1) as [Ht1 Hs1].
    destruct (IH _ H) as [Ht2 Hs2]. split.
    + intros t Ht. destruct (Ht2 t Ht) as [Hin | ->]; auto.
    + intros s Hs. destruct (Hs2 s Hs) as [Hin | (Hin & sk' & c & Hk & Hh & Hc)].
      * destruct (Hs1 s Hin) as [Hd | (Hsv & c & Hh & Hc)]; [auto |].
        right. split; [exact Hsv |]. exists sk, c. simpl. auto.
      * right. split; [exact Hin |]. exists sk', c. simpl. auto.
Qed.

(** The steps of [rinexobs3] when it returns *)
Lemma rinexobs3_steps f use tlim useindicators meas interval data :
  rinexobs3 f use tlim useindicators meas interval = Ok data ->
  exists interval' hdr f1 st,
    check_time_interval interval = Ok interval'
    /\ obsheader3 f (normalize_use use) (normalize_meas meas) = Ok (hdr, f1)
    /\ epoch_loop
         (fun data raw time sv => _epoch data raw hdr time sv useindicators)
         tlim interval' (length f1) f1 (mkLoopState ds_empty None [])
       = Ok st
    /\ ds_assign_sv (ls_data st) (map patch_sv (ds_sv (ls_data st)))
       = Ok data.
Proof.
  unfold rinexobs3. intros H.
  bind_split H as interval' Hinterval.
  bind_split H as hf Hhdr. destruct hf as [hdr f1]. simpl in H.
  bind_split H as st Hloop.
  exists interval', hdr, f1, st. auto.
Qed.

Lemma time_window_next t0 t1 time :
  time_window (Some (t0, t1)) time = Next -> t0 <= time <= t1.
Proof.
  unfold time_window.
  destruct (time <? t0) eqn:H0; [discriminate |].
  destruct (time >? t1) eqn:H1; [discriminate |]. lia.
Qed.

(** C4, as the code has it.  With the time bounds [(t0, t1)]:
    - no time after [t1] is in the dataset that [rinexobs3] returns;
    - at an epoch whose time is after [t1] and not before [t0], the scan
      ends: it reads the clock offset, the number of satellites and the
      lines of the satellites of this epoch, and nothing of what follows
      in the file, whatever it is;
    - an epoch before [t0] is skipped by the test of line 105, which
      comes first, also when its time is after [t1]. *)
Theorem upper_time_bound (t0 t1 : Z) :
  (forall f use useindicators meas interval data,
      rinexobs3 f use (Some (t0, t1)) useindicators meas interval = Ok data ->
      Forall (fun t => t <= t1) (ds_time data))
  /\ (forall (D : Type) (handle : D -> string -> Z -> list string -> result D)
             interval fuel ln f st time,
         _timeobs ln = Ok time -> t1 < time -> t0 <= time ->
         epoch_loop handle (Some (t0, t1)) interval (S fuel) (ln :: f) st
         = (offs <- read_time_offset ln (ls_time_offset st) ;;
            _ <- Py.int (Py.slice 33 35 ln) ;;
            Ok (mkLoopState (ls_data st) (ls_last_epoch st) offs)))
  /\ (forall (D : Type) (handle : D -> string -> Z -> list string -> result D)
             interval fuel ln f st time,
         _timeobs ln = Ok time -> time < t0 ->
         epoch_loop handle (Some (t0, t1)) interval (S fuel) (ln :: f) st
         = (offs <- read_time_offset ln (ls_time_offset st) ;;
            n <- Py.int (Py.slice 33 35 ln) ;;
            epoch_loop handle (Some (t0, t1)) interval fuel
              (snd (read_satellites (Z.to_nat n) f [] ""))
              (mkLoopState (ls_data st) (ls_last_epoch st) offs))).
Proof.
  assert (Hmark : forall ln time,
             _timeobs ln = Ok time -> Py.startswith ln ">" = true).
  { intros ln time H. unfold _timeobs in H.
    destruct (Py.startswith ln "> ") eqn:Hstart; [| discriminate H].
    apply startswith_marker. exact Hstart. }
  split; [| split].
  - intros f use useindicators meas interval data Hrun.
    destruct (rinexobs3_steps _ _ _ _ _ _ Hrun)
      as (interval' & hdr & f1 & st & _ & _ & Hloop & Hassign).
    rewrite (time_assign L _ _ Hassign).
    refine (@epoch_loop_invariant E Dataset _ (Some (t0, t1)) interval'
              (fun _ => True)
              (fun st => Forall (fun t => t <= t1) (ds_time (ls_data st)))
              _ _ (length f1) f1 _ st _ _ Hloop).
    + intros st0 offs H. exact H.
    + intros st0 raw time sv last data0 offs Hinv _ Hwin _ Hepoch. simpl.
      apply time_window_next in Hwin.
      destruct (_epoch_coords _ _ _ _ _ _ Hepoch) as [Ht _].
      rewrite Forall_forall in *. intros t Hin.
      destruct (Ht t Hin) as [Hold | ->]; [apply Hinv; exact Hold | lia].
    + apply Forall_forall. intros; exact I.
    + simpl. rewrite (time_empty L). constructor.
  - intros D handle interval fuel ln f st time Htime Hlate Hlow.
    simpl. rewrite (Hmark _ _ Htime), Htime. simpl.
    destruct (read_time_offset ln (ls_time_offset st)) as [offs |];
      simpl; [| reflexivity].
    destruct (Py.int (Py.slice 33 35 ln)) as [n |]; simpl; [| reflexivity].
    destruct (read_satellites (Z.to_nat n) f [] "") as [[sv raw] f2].
    assert (H0 : (time <? t0) = false) by lia.
    assert (H1 : (time >? t1) = true) by lia.
    unfold time_window. rewrite H0, H1. reflexivity.
  - intros D handle interval fuel ln f st time Htime Hearly.
    simpl. rewrite (Hmark _ _ Htime), Htime. simpl.
    destruct (read_time_offset ln (ls_time_offset st)) as [offs |];
      simpl; [| reflexivity].
    destruct (Py.int (Py.slice 33 35 ln)) as [n |]; simpl; [| reflexivity].
    destruct (read_satellites (Z.to_nat n) f [] "") as [[sv raw] f2].
    assert (H0 : (time <? t0) = true) by lia.
    unfold time_window. rewrite H0. reflexivity.
Qed.

Lemma patch_sv_chars (s : string) :
  list_ascii_of_string (patch_sv s)
  = map zero_for_blank (list_ascii_of_string s).
Proof.
  unfold patch_sv. induction s as [| c s IH]; simpl; [reflexivity |].
  rewrite IH. reflexivity.
Qed.

(** The identifiers of the dataset before line 126: each was read from
    a line after the header *)
Lemma scan_identifiers hdr useindicators tlim interval f1 st :
  epoch_loop
    (fun data raw time sv => _epoch data raw hdr time sv useindicators)
    tlim interval (length f1) f1 (mkLoopState ds_empty None []) = Ok st ->
  Forall (read_as_satellite f1 (dict_keys (hdr_fields hdr)))
    (ds_sv (ls_data st)).
Proof.
  intros Hloop.
  refine (@epoch_loop_invariant E Dataset _ tlim interval
            (fun ln => In ln f1)
            (fun st => Forall (read_as_satellite f1
                                 (dict_keys (hdr_fields hdr)))
                         (ds_sv (ls_data st)))
            _ _ (length f1) f1 _ st _ _ Hloop).
  - intros st0 offs H. exact H.
  - intros st0 raw time sv last data0 offs Hinv Hsv _ _ Hepoch. simpl.
    destruct (_epoch_coords _ _ _ _ _ _ Hepoch) as [_ Hs].
    rewrite Forall_forall in *. intros s Hin.
    destruct (Hs s Hin) as [Hold | (Hnew & sk & c & Hk & Hh & Hc)];
      [apply Hinv; exact Hold |].
    destruct (Hsv _ Hnew) as [Heof | (ln & Hln & Htake)].
    + rewrite Heof in Hh. discriminate Hh.
    + exists ln, sk, c. auto.
  - apply Forall_forall. intros ln H. exact H.
  - simpl. rewrite (sv_empty L). constructor.
Qed.

(** C6, as the code has it.  When [rinexobs3] returns, every satellite
    identifier of the dataset is [patch_sv s0] for an identifier [s0]
    that the scan read: the three first characters of a line after the
    header, the first of them in the code of a retained system.
    [patch_sv s0] is [s0] with "0" in the place of each blank, so no
    identifier of the dataset holds a blank, and it is an upper-case
    letter followed by two digits when [s0] is an upper-case letter
    followed by two places that each hold a digit or a blank.  All the
    identifiers of the dataset are therefore of this form when the
    retained systems are upper-case letters and every line after the
    header is an epoch line or the line of an observation; the lines of
    an event record are not. *)
Theorem satellite_identifiers f use tlim useindicators meas interval data :
  rinexobs3 f use tlim useindicators meas interval = Ok data ->
  exists hdr f1,
    obsheader3 f (normalize_use use) (normalize_meas meas) = Ok (hdr, f1)
    /\ Forall (fun s =>
                 exists s0,
                   read_as_satellite f1 (dict_keys (hdr_fields hdr)) s0
                   /\ s = patch_sv s0
                   /\ list_ascii_of_string s
                      = map zero_for_blank (list_ascii_of_string s0)
                   /\ (sv_in_file s0 = true -> sv_pattern s = true))
         (ds_sv data)
    /\ Forall (fun s => has_blank s = false) (ds_sv data)
    /\ (Forall (fun k => system_code k = true) (dict_keys (hdr_fields hdr)) ->
        Forall (fun ln => epoch_or_observation ln = true) f1 ->
        Forall (fun s => sv_pattern s = true) (ds_sv data)).
Proof.
  intros Hrun.
  destruct (rinexobs3_steps _ _ _ _ _ _ Hrun)
    as (interval' & hdr & f1 & st & _ & Hhdr & Hloop & Hassign).
  exists hdr, f1. split; [exact Hhdr |].
  rewrite (sv_assign L _ _ Hassign).
  pose proof (scan_identifiers _ _ _ _ _ Hloop) as Hinv.
  rewrite Forall_forall in Hinv.
  split; [| split].
  - apply Forall_forall. intros s Hs. apply in_map_iff in Hs.
    destruct Hs as (s0 & <- & Hs0). exists s0.
    split; [exact (Hinv _ Hs0) |]. split; [reflexivity |].
    split; [apply patch_sv_chars | apply patch_sv_pattern].
  - apply Forall_forall. intros s Hs. apply in_map_iff in Hs.
    destruct Hs as (s0 & <- & _). apply patch_sv_no_blank.
  - intros Hsys Hbody. rewrite Forall_forall in Hsys, Hbody.
    apply Forall_forall. intros s Hs. apply in_map_iff in Hs.
    destruct Hs as (s0 & <- & Hs0). apply patch_sv_pattern.
    destruct (Hinv _ Hs0) as (ln & sk & c & Hln & Htake & Hk & Hh & Hc).
    destruct (system_code_inv _ (Hsys sk Hk)) as (b & -> & Hb).
    destruct (head_inv _ Hh) as (a & rest & Hs0' & ->).
    apply contains_single in Hc. subst a.
    specialize (Hbody ln Hln). unfold epoch_or_observation in Hbody.
    apply orb_true_iff in Hbody.
    destruct Hbody as [Hgt | Hfile]; [| rewrite Htake; exact Hfile].
    apply startswith_gt in Hgt. destruct Hgt as [rest' ->].
    rewrite Hs0' in Htake. injection Htake as -> _.
    vm_compute in Hb. discriminate Hb.
Qed.

End Coordinates.

(** The datasets of the samples keep the laws *)

Lemma sample_union_incl (b a : list string) :
  incl (Sample.union a b) (a ++ b).
Proof.
  revert a. induction b as [| x b IH]; intros a; simpl.
  - rewrite app_nil_r. apply incl_refl.
  - destruct (existsb (String.eqb x) a).
    + intros y Hy. apply IH in Hy. apply in_app_or in Hy.
      apply in_or_app. simpl. tauto.
    + intros y Hy. apply IH in Hy. rewrite <- app_assoc in Hy. exact Hy.
Qed.

Lemma sample_unionZ_incl (b a : list Z) :
  incl (Sample.unionZ a b) (a ++ b).
Proof.
  revert a. induction b as [| x b IH]; intros a; simpl.
  - rewrite app_nil_r. apply incl_refl.
  - destruct (existsb (Z.eqb x) a).
    + intros y Hy. apply IH in Hy. apply in_app_or in Hy.
      apply in_or_app. simpl. tauto.
    + intros y Hy. apply IH in Hy. rewrite <- app_assoc in Hy. exact Hy.
Qed.

Lemma sample_laws (garbage : string -> nat -> bool) :
  XArrayLaws (Sample.externals garbage).
Proof.
  constructor; simpl.
  - reflexivity.
  - reflexivity.
  - intros dsf t svs d H. injection H as <-. reflexivity.
  - intros dsf t svs d H. injection H as <-. reflexivity.
  - intros a b c H. injection H as <-. apply incl_refl.
  - intros a b c H. injection H as <-. apply sample_union_incl.
  - intros a b c H. injection H as <-. apply sample_unionZ_incl.
  - intros a b c H. injection H as <-. apply sample_union_incl.
  - intros d l d' H. unfold Sample.assign_sv in H.
    destruct (length l =? length (Sample.d_sv d))%nat; [| discriminate].
    injection H as <-. reflexivity.
  - intros d l d' H. unfold Sample.assign_sv in H.
    destruct (length l =? length (Sample.d_sv d))%nat; [| discriminate].
    injection H as <-. reflexivity.
Qed.

(** Epochs at 10 and 20 seconds and a damaged epoch line, read up to 15
    seconds: the dataset holds the epoch at 10 seconds, the scan ends at
    the epoch at 20 seconds and the damaged line is not read *)
Lemma upper_time_bound_example :
  (exists data,
      @rinexobs3 Sample.zeroed (Sample.header_GR ++ Sample.body_fault)
        UseNone (Some (Sample.at_second 0, Sample.at_second 15)) false
        MeasNone None = Ok data
      /\ ds_time data = [Sample.at_second 10]
      /\ Forall (fun t => t <= Sample.at_second 15) (ds_time data))
  /\ (@_timeobs Sample.zeroed (Sample.epoch_line "20" " 1")
      = Ok (Sample.at_second 20)
      /\ Sample.at_second 15 < Sample.at_second 20
      /\ Sample.at_second 0 <= Sample.at_second 20)
  /\ @accepted_epochs Sample.zeroed
       (Some (Sample.at_second 0, Sample.at_second 15)) None
       (Sample.epoch_line "20" " 1" :: Sample.body_fault)
     = Ok ([], None).
Proof.
  destruct (@upper_time_bound Sample.zeroed (sample_laws _)
              (Sample.at_second 0) (Sample.at_second 15))
    as (Hbound & Hstop & _).
  assert (Htime : @_timeobs Sample.zeroed (Sample.epoch_line "20" " 1")
                  = Ok (Sample.at_second 20)) by (vm_compute; reflexivity).
  assert (Hlate : Sample.at_second 15 < Sample.at_second 20)
    by (vm_compute; reflexivity).
  assert (Hlow : Sample.at_second 0 <= Sample.at_second 20)
    by (vm_compute; discriminate).
  split; [| split; [auto |]].
  - eexists. split; [vm_compute; reflexivity |].
    split; [reflexivity |].
    apply (Hbound (Sample.header_GR ++ Sample.body_fault)%list UseNone false
             MeasNone None).
    vm_compute. reflexivity.
  - unfold accepted_epochs.
    change (length (Sample.epoch_line "20" " 1" :: Sample.body_fault))
      with (S (length Sample.body_fault)).
    rewrite (Hstop _ _ None _ _ Sample.body_fault _ _ Htime Hlate Hlow).
    vm_compute. reflexivity.
Defined.

(** C4 as the specification words it fails on bounds given in the wrong
    order.  With the lower bound at 25 seconds and the upper bound [T]
    at 15 seconds, the epoch at 20 seconds is the first after [T]; it is
    before the lower bound, so it is skipped and the scan goes on: the
    damaged epoch line that follows is read, and [rinexobs3] raises
    [ValueError].  With the lower bound at 0 seconds the scan ends at the
    epoch at 20 seconds and [rinexobs3] returns. *)
Lemma inverted_bounds_read_on :
  @_timeobs Sample.zeroed (Sample.epoch_line "20" " 1")
  = Ok (Sample.at_second 20)
  /\ Sample.at_second 15 < Sample.at_second 20
  /\ @rinexobs3 Sample.zeroed (Sample.header_GR ++ Sample.body_fault)
       UseNone (Some (Sample.at_second 25, Sample.at_second 15)) false
       MeasNone None
     = Raise ValueError
  /\ result_map ds_time
       (@rinexobs3 Sample.zeroed (Sample.header_GR ++ Sample.body_fault)
          UseNone (Some (Sample.at_second 0, Sample.at_second 15)) false
          MeasNone None)
     = Ok [Sample.at_second 10].
Proof. repeat split; vm_compute; reflexivity. Qed.

Lemma Forall_forallb {A : Type} (p : A -> bool) (l : list A) :
  forallb p l = true -> Forall (fun x => p x = true) l.
Proof. intros H. apply Forall_forall. apply forallb_forall. exact H. Qed.

(** The header of the sample, read before the epoch of [body_one] *)
Lemma obsheader3_GR_one :
  @obsheader3 Sample.zeroed (Sample.header_GR ++ Sample.body_one)
    UseNone MeasNone
  = Ok (mkHeader [("version", HInfo ("3.03" : @info Sample.zeroed))]
          [("G", ["C1C"; "L1C"]); ("R", ["C1C"])]
          [("G", SelAll); ("R", SelAll)] 2, Sample.body_one).
Proof. reflexivity. Qed.

(** The satellite G 7 of the sample is G07 in the dataset *)
Lemma satellite_identifiers_example :
  exists data,
    @rinexobs3 Sample.zeroed (Sample.header_GR ++ Sample.body_one)
      UseNone None false MeasNone None = Ok data
    /\ ds_sv data = ["G07"; "G12"; "R03"]
    /\ Forall (fun s =>
                 exists s0,
                   read_as_satellite Sample.body_one ["G"; "R"] s0
                   /\ s = patch_sv s0)
         (ds_sv data)
    /\ Forall (fun s => has_blank s = false) (ds_sv data)
    /\ Forall (fun s => sv_pattern s = true) (ds_sv data).
Proof.
  eexists. split; [vm_compute; reflexivity |]. split; [reflexivity |].
  destruct (@satellite_identifiers Sample.zeroed (sample_laws _)
              (Sample.header_GR ++ Sample.body_one) UseNone None false
              MeasNone None _ eq_refl)
    as (hdr & f1 & Hhdr & Hread & Hblank & Hpattern).
  change (@obsheader3 Sample.zeroed (Sample.header_GR ++ Sample.body_one)
            UseNone MeasNone = Ok (hdr, f1)) in Hhdr.
  rewrite obsheader3_GR_one in Hhdr. injection Hhdr as <- <-.
  split; [| split; [exact Hblank |]].
  - eapply Forall_impl; [| exact Hread].
    intros s (s0 & Hs0 & Hs & _). exists s0. split; [exact Hs0 | exact Hs].
  - apply Hpattern.
    + apply Forall_forallb. vm_compute. reflexivity.
    + apply Forall_forallb. vm_compute. reflexivity.
Defined.

(** C6 as the specification words it fails on an event record.  The
    epoch line of flag 3 announces one line, the header line that names
    the marker GRAZ; the scan reads it as the line of a satellite of the
    system G, and the dataset has the identifier GRA. *)
Lemma event_record_identifier :
  exists data,
    @rinexobs3 Sample.zeroed (Sample.header_GR ++ Sample.body_event)
      UseNone None false MeasNone None = Ok data
    /\ ds_sv data = ["GRA"; "G07"]
    /\ ~ Forall (fun s => sv_pattern s = true) (ds_sv data).
Proof.
  eexists. split; [vm_compute; reflexivity |]. split; [reflexivity |].
  intros H. inversion H as [| ? ? Hgra _]. discriminate Hgra.
Qed.

(** ** Lines that hold no time *)

Section Garbage.
Context {E : Externals}.
Variable D : Type.
Variable handle : D -> string -> Z -> list string -> result D.
Variable tlim : option (Z * Z).
Variable interval : option Z.

(** C3, as the code has it.  A line that begins with [">"] and from
    which no time can be read is skipped: the scan goes on with the
    next line, its state unchanged.  A line that does not begin with
    [">"] ends the scan, whatever follows it. *)
Theorem unreadable_epoch_line_is_skipped
    (fuel : nat) (ln : string) (f : list string) (st : loop_state D) :
  (Py.startswith ln ">" = true ->
   _timeobs ln = Raise ValueError ->
   epoch_loop handle tlim interval (S fuel) (ln :: f) st
   = epoch_loop handle tlim interval fuel f st)
  /\ (Py.startswith ln ">" = false ->
      epoch_loop handle tlim interval (S fuel) (ln :: f) st = Ok st).
Proof.
  split.
  - intros Hmark Htime. simpl. rewrite Hmark, Htime. reflexivity.
  - intros Hmark. simpl. rewrite Hmark. reflexivity.
Qed.

End Garbage.

(** A damaged epoch line before three epochs: the three epochs are read *)
Lemma unreadable_epoch_line_example :
  (Py.startswith Sample.damaged_line ">" = true
   /\ @_timeobs Sample.zeroed Sample.damaged_line = Raise ValueError)
  /\ @accepted_epochs Sample.zeroed None None Sample.body_damaged
     = @accepted_epochs Sample.zeroed None None Sample.body_three.
Proof.
  split; [split; reflexivity |].
  unfold accepted_epochs, Sample.body_damaged.
  change (length (Sample.damaged_line :: Sample.body_three))
    with (S (length Sample.body_three)).
  rewrite (proj1 (@unreadable_epoch_line_is_skipped Sample.zeroed _ _ None None
                    (length Sample.body_three) Sample.damaged_line
                    Sample.body_three _)); reflexivity.
Defined.

(** C3 as the specification words it fails on a stray line that does not
    begin with [">"]: no time can be read from it, and the scan ends
    there, so that the three epochs that follow are lost. *)
Lemma stray_line_ends_scan :
  @_timeobs Sample.zeroed Sample.stray_line = Raise ValueError
  /\ @accepted_epochs Sample.zeroed None None Sample.body_three
     = Ok ([Sample.at_second 10; Sample.at_second 20; Sample.at_second 30],
           None)
  /\ @accepted_epochs Sample.zeroed None None Sample.body_stray
     = Ok ([], None)
  /\ (result_map ds_time
        (@rinexobs3 Sample.zeroed (Sample.header_GR ++ Sample.body_three)
           UseNone None false MeasNone None)
      = Ok [Sample.at_second 10; Sample.at_second 20; Sample.at_second 30])
  /\ (result_map ds_time
        (@rinexobs3 Sample.zeroed (Sample.header_GR ++ Sample.body_stray)
           UseNone None false MeasNone None)
      = Ok []).
Proof. repeat split; vm_compute; reflexivity. Qed.

(** ** The lower time bound *)

Section TimeWindow.
Context {E : Externals}.
Hypothesis L : XArrayLaws E.

(** X1.  With the time bounds [(t0, t1)], no time before [t0] is in the
    dataset that [rinexobs3] returns; and with bounds given in the wrong
    order, [t1 < t0], the dataset holds no time at all. *)
Theorem lower_time_bound (t0 t1 : Z) f use useindicators meas interval data :
  rinexobs3 f use (Some (t0, t1)) useindicators meas interval = Ok data ->
  Forall (fun t => t0 <= t) (ds_time data)
  /\ (t1 < t0 -> ds_time data = []).
Proof.
  intros Hrun.
  destruct (@rinexobs3_steps E _ _ _ _ _ _ _ Hrun)
    as (interval' & hdr & f1 & st & _ & _ & Hloop & Hassign).
  rewrite (time_assign L _ _ Hassign).
  assert (Hin : Forall (fun t => t0 <= t <= t1) (ds_time (ls_data st))).
  { refine (@epoch_loop_invariant E Dataset _ (Some (t0, t1)) interval'
              (fun _ => True)
              (fun st => Forall (fun t => t0 <= t <= t1) (ds_time (ls_data st)))
              _ _ (length f1) f1 _ st _ _ Hloop).
    - intros st0 offs H. exact H.
    - intros st0 raw time sv last data0 offs Hinv _ Hwin _ Hepoch. simpl.
      apply time_window_next in Hwin.
      destruct (@_epoch_coords E L _ _ _ _ _ _ _ Hepoch) as [Ht _].
      rewrite Forall_forall in *. intros t Hin.
      destruct (Ht t Hin) as [Hold | ->]; [apply Hinv; exact Hold | lia].
    - apply Forall_forall. intros; exact I.
    - simpl. rewrite (time_empty L). constructor. }
  split.
  - rewrite Forall_forall in *. intros t Ht. apply Hin in Ht. lia.
  - intros Hinv. destruct (ds_time (ls_data st)) as [| t l]; [reflexivity |].
    inversion Hin; subst. lia.
Qed.

End TimeWindow.

(** Epochs at 10, 20 and 30 seconds read from 15 seconds on *)
Lemma lower_time_bound_example :
  exists data,
    @rinexobs3 Sample.zeroed (Sample.header_GR ++ Sample.body_three)
      UseNone (Some (Sample.at_second 15, Sample.at_second 40)) false
      MeasNone None = Ok data
    /\ ds_time data = [Sample.at_second 20; Sample.at_second 30]
    /\ Forall (fun t => Sample.at_second 15 <= t) (ds_time data).
Proof.
  eexists. split; [vm_compute; reflexivity |]. split; [reflexivity |].
  apply (proj1 (@lower_time_bound Sample.zeroed (sample_laws _)
                  (Sample.at_second 15) (Sample.at_second 40)
                  (Sample.header_GR ++ Sample.body_three)%list UseNone false
                  MeasNone None _ eq_refl)).
Defined.

(** ** What the filters of the scan leave alone *)

Lemma decimate_no_break {E : Externals} interval last time fl last' :
  decimate interval last time = Ok (fl, last') -> fl <> Break.
Proof.
  unfold decimate. destruct interval as [i |].
  - destruct last as [t |].
    + destruct (time - t <? i).
      * intros H. injection H as <- _. discriminate.
      * intros H. bind_split H as t' Ht'. injection H as <- _. discriminate.
    + intros H. injection H as <- _. discriminate.
  - intros H. injection H as <- _. discriminate.
Qed.

Section Offsets.
Context {E : Externals}.
Variables D1 D2 : Type.
Variable h1 : D1 -> string -> Z -> list string -> result D1.
Variable h2 : D2 -> string -> Z -> list string -> result D2.
Variable tlim : option (Z * Z).
Variables i1 i2 : option Z.

(** X2.  The clock offsets that a scan collects do not depend on the
    decimation, nor on what is done with an accepted epoch: two scans of
    the same lines with the same time bounds end with the same clock
    offsets, whatever their intervals.  The offset of an epoch line is
    recorded before the epoch is kept or dropped. *)
Theorem clock_offsets_ignore_decimation (fuel : nat) :
  forall f (st1 : loop_state D1) (st2 : loop_state D2) r1 r2,
    ls_time_offset st1 = ls_time_offset st2 ->
    epoch_loop h1 tlim i1 fuel f st1 = Ok r1 ->
    epoch_loop h2 tlim i2 fuel f st2 = Ok r2 ->
    ls_time_offset r1 = ls_time_offset r2.
Proof.
  induction fuel as [| fuel IH]; intros f st1 st2 r1 r2 Hoffs H1 H2.
  - destruct f; injection H1 as <-; injection H2 as <-; exact Hoffs.
  - destruct f as [| ln f];
      [injection H1 as <-; injection H2 as <-; exact Hoffs |].
    simpl in H1, H2.
    destruct (Py.startswith ln ">"); simpl in H1, H2;
      [| injection H1 as <-; injection H2 as <-; exact Hoffs].
    destruct (_timeobs ln) as [time | e].
    + rewrite <- Hoffs in H2.
      bind_split H1 as offs Ho. rewrite Ho in H2. simpl in H2.
      bind_split H1 as n Hn. rewrite Hn in H2. simpl in H2.
      destruct (read_satellites (Z.to_nat n) f [] "") as [[sv raw] f2].
      destruct (time_window tlim time).
      * bind_split H1 as fl1 Hd1. bind_split H2 as fl2 Hd2.
        destruct fl1 as [fl1 last1], fl2 as [fl2 last2]. simpl in H1, H2.
        pose proof (decimate_no_break _ _ _ Hd1) as Hb1.
        pose proof (decimate_no_break _ _ _ Hd2) as Hb2.
        destruct fl1; [| | contradiction Hb1; reflexivity];
          destruct fl2; try (contradiction Hb2; reflexivity).
        -- bind_split H1 as d1 Hh1. bind_split H2 as d2 Hh2.
           refine (IH _ _ _ _ _ _ H1 H2); reflexivity.
        -- bind_split H1 as d1 Hh1.
           refine (IH _ _ _ _ _ _ H1 H2); reflexivity.
        -- bind_split H2 as d2 Hh2.
           refine (IH _ _ _ _ _ _ H1 H2); reflexivity.
        -- refine (IH _ _ _ _ _ _ H1 H2); reflexivity.
      * refine (IH _ _ _ _ _ _ H1 H2); reflexivity.
      * injection H1 as <-. injection H2 as <-. reflexivity.
    + destruct e; try discriminate H1.
      exact (IH _ _ _ _ _ Hoffs H1 H2).
Qed.

End Offsets.

Section Removal.
Context {E : Externals}.

(** The recording handler only appends to its log *)
Lemma recorded_epochs_extend tlim interval fuel :
  forall f log last offs st,
    epoch_loop (fun log _ time _ => Ok (log ++ [time])%list)
      tlim interval fuel f (mkLoopState log last offs) = Ok st ->
    exists new, ls_data st = (log ++ new)%list.
Proof.
  induction fuel as [| fuel IH]; intros f log last offs st H.
  - destruct f; injection H as <-; exists []; simpl; now rewrite app_nil_r.
  - destruct f as [| ln f];
      [injection H as <-; exists []; simpl; now rewrite app_nil_r |].
    simpl in H.
    destruct (Py.startswith ln ">"); simpl in H;
      [| injection H as <-; exists []; simpl; now rewrite app_nil_r].
    destruct (_timeobs ln) as [time | e].
    + bind_split H as o Ho. bind_split H as n Hn.
      destruct (read_satellites (Z.to_nat n) f [] "") as [[sv raw] f2].
      destruct (time_window tlim time).
      * bind_split H as fl Hd. destruct fl as [fl last']. simpl in H.
        destruct fl.
        -- destruct (IH _ _ _ _ _ H) as [new Hnew].
           exists (time :: new). rewrite <- app_assoc in Hnew. exact Hnew.
        -- exact (IH _ _ _ _ _ H).
        -- injection H as <-. exists []. simpl. now rewrite app_nil_r.
      * exact (IH _ _ _ _ _ H).
      * injection H as <-. exists []. simpl. now rewrite app_nil_r.
    + destruct e; try discriminate H.
      exact (IH _ _ _ _ _ H).
Qed.

Lemma scan_subsequence tlim interval fuel :
  forall f log1 last1 offs1 log2 offs2 st1 st2,
    epoch_loop (fun log _ time _ => Ok (log ++ [time])%list)
      tlim interval fuel f (mkLoopState log1 last1 offs1) = Ok st1 ->
    epoch_loop (fun log _ time _ => Ok (log ++ [time])%list)
      None None fuel f (mkLoopState log2 None offs2) = Ok st2 ->
    exists new1 new2,
      ls_data st1 = (log1 ++ new1)%list /\ ls_data st2 = (log2 ++ new2)%list
      /\ subsequence new1 new2.
Proof.
  assert (Hend : forall (log1 log2 : list Z),
             exists new1 new2 : list Z,
               log1 = (log1 ++ new1)%list /\ log2 = (log2 ++ new2)%list
               /\ subsequence new1 new2).
  { intros. exists [], []. rewrite !app_nil_r. repeat split. constructor. }
  induction fuel as [| fuel IH];
    intros f log1 last1 offs1 log2 offs2 st1 st2 H1 H2.
  - destruct f; injection H1 as <-; injection H2 as <-; apply Hend.
  - destruct f as [| ln f];
      [injection H1 as <-; injection H2 as <-; apply Hend |].
    simpl in H1, H2.
    destruct (Py.startswith ln ">"); simpl in H1, H2;
      [| injection H1 as <-; injection H2 as <-; apply Hend].
    destruct (_timeobs ln) as [time | e].
    + bind_split H1 as o1 Ho1. bind_split H2 as o2 Ho2.
      bind_split H1 as n Hn. rewrite Hn in H2. simpl in H2.
      destruct (read_satellites (Z.to_nat n) f [] "") as [[sv raw] f2].
      assert (Hskip : forall st1',
                 epoch_loop (fun log _ time _ => Ok (log ++ [time])%list)
                   tlim interval fuel f2 (mkLoopState log1 last1 o1) = Ok st1' ->
                 exists new1 new2,
                   ls_data st1' = (log1 ++ new1)%list
                   /\ ls_data st2 = (log2 ++ new2)%list
                   /\ subsequence new1 new2).
      { intros st1' H1'.
        destruct (IH _ _ _ _ _ _ _ _ H1' H2) as (new1 & new2 & E1 & E2 & Hs).
        exists new1, (time :: new2). rewrite <- app_assoc in E2.
        repeat split; [exact E1 | exact E2 | constructor; exact Hs]. }
      assert (Hstop : exists new1 new2,
                 log1 = (log1 ++ new1)%list
                 /\ ls_data st2 = (log2 ++ new2)%list
                 /\ subsequence new1 new2).
      { destruct (recorded_epochs_extend _ _ _ _ _ _ _ H2) as [new Hnew].
        exists [], (time :: new). rewrite <- app_assoc in Hnew.
        rewrite app_nil_r.
        repeat split; [exact Hnew | constructor]. }
      destruct (time_window tlim time).
      * bind_split H1 as fl Hd. destruct fl as [fl last]. simpl in H1.
        destruct fl.
        -- destruct (IH _ _ _ _ _ _ _ _ H1 H2) as (new1 & new2 & E1 & E2 & Hs).
           exists (time :: new1), (time :: new2).
           rewrite <- app_assoc in E1, E2.
           repeat split; [exact E1 | exact E2 | constructor; exact Hs].
        -- apply Hskip. exact H1.
        -- injection H1 as <-. exact Hstop.
      * apply Hskip. exact H1.
      * injection H1 as <-. exact Hstop.
    + destruct e; try discriminate H1.
      exact (IH _ _ _ _ _ _ _ _ H1 H2).
Qed.

(** X3.  The time bounds and the decimation only remove epochs: the
    epochs accepted by a scan are, in their order, among the epochs
    accepted by the scan of the same lines without bounds and without
    decimation. *)
Theorem filters_only_remove_epochs tlim interval f log last log0 last0 :
  accepted_epochs tlim interval f = Ok (log, last) ->
  accepted_epochs None None f = Ok (log0, last0) ->
  subsequence log log0.
Proof.
  unfold accepted_epochs. intros H1 H2.
  bind_split H1 as st1 Hst1. injection H1 as <- _.
  bind_split H2 as st2 Hst2. injection H2 as <- _.
  destruct (scan_subsequence _ _ _ _ _ _ _ _ _ Hst1 Hst2)
    as (new1 & new2 & -> & -> & Hs).
  exact Hs.
Qed.

End Removal.

(** Three epochs with clock offsets read every 20 seconds: two epochs
    are accepted, and three clock offsets recorded *)
Lemma clock_offsets_example :
  exists r1 r2,
    @epoch_loop Sample.zeroed (list Z)
      (fun log _ time _ => Ok (log ++ [time])%list)
      None (Some (20 * us_per_second)) 6 Sample.body_offsets
      (mkLoopState [] None []) = Ok r1
    /\ @epoch_loop Sample.zeroed (list Z)
         (fun log _ time _ => Ok (log ++ [time])%list)
         None None 6 Sample.body_offsets (mkLoopState [] None []) = Ok r2
    /\ ls_data r1 = [Sample.at_second 10; Sample.at_second 30]
    /\ ls_data r2
       = [Sample.at_second 10; Sample.at_second 20; Sample.at_second 30]
    /\ length (ls_time_offset r1) = 3%nat
    /\ ls_time_offset r1 = ls_time_offset r2.
Proof.
  eexists. eexists.
  split; [reflexivity |]. split; [reflexivity |].
  split; [reflexivity |]. split; [reflexivity |]. split; [reflexivity |].
  refine (@clock_offsets_ignore_decimation Sample.zeroed (list Z) (list Z)
            (fun log _ time _ => Ok (log ++ [time])%list)
            (fun log _ time _ => Ok (log ++ [time])%list)
            None (Some (20 * us_per_second)) None 6 Sample.body_offsets
            (mkLoopState [] None []) (mkLoopState [] None []) _ _
            eq_refl eq_refl eq_refl).
Defined.

(** Epochs at 0, 25 and 26 seconds: every 30 seconds only the first is
    accepted *)
Lemma filters_only_remove_epochs_example :
  @accepted_epochs Sample.zeroed None (Some (30 * us_per_second))
    Sample.body_irregular
  = Ok ([Sample.at_second 0], Some (Sample.at_second 0))
  /\ subsequence [Sample.at_second 0]
       [Sample.at_second 0; Sample.at_second 25; Sample.at_second 26].
Proof.
  assert (H1 : @accepted_epochs Sample.zeroed None (Some (30 * us_per_second))
                 Sample.body_irregular
               = Ok ([Sample.at_second 0], Some (Sample.at_second 0)))
    by (vm_compute; reflexivity).
  split; [exact H1 |].
  refine (@filters_only_remove_epochs Sample.zeroed None
            (Some (30 * us_per_second)) Sample.body_irregular _ _ _ None
            H1 _).
  vm_compute. reflexivity.
Defined.

(** ** Where the header ends *)

Section HeaderEnd.
Context {E : Externals}.

Lemma obs_types_continuation_suffix n codes f codes' f' :
  obs_types_continuation n codes f = Ok (codes', f') ->
  exists pre, f = (pre ++ f')%list.
Proof.
  revert n codes. induction f as [| ln f IH]; intros n codes; simpl.
  - destruct (n >? 0); [discriminate |].
    intros H. injection H as _ <-. exists []. reflexivity.
  - destruct (n >? 0).
    + intros H. bind_split H as u Hu. apply IH in H.
      destruct H as [pre ->]. exists (ln :: pre). reflexivity.
    + intros H. injection H as _ <-. exists []. reflexivity.
Qed.

Lemma obs_types_record_suffix c f k codes N f' :
  obs_types_record c f = Ok (k, codes, N, f') ->
  exists pre, f = (pre ++ f')%list.
Proof.
  unfold obs_types_record. intros H.
  bind_split H as k0 Hk. bind_split H as N0 HN.
  bind_split H as cf Hcont. destruct cf as [codes0 f0]. simpl in H.
  bind_split H as u Hu. injection H as _ _ _ <-.
  eapply obs_types_continuation_suffix. exact Hcont.
Qed.

(** The loop over the header lines ends at a line that holds the marker,
    or at the end of the lines *)
Lemma header_loop_ends fuel :
  forall f st st' f1,
    (length f <= fuel)%nat ->
    header_loop fuel f st = Ok (st', f1) ->
    (exists pre e, f = (pre ++ e :: f1)%list
                   /\ Py.contains "END OF HEADER" e = true)
    \/ (f1 = [] /\ exists pre, f = (pre ++ f1)%list).
Proof.
  induction fuel as [| fuel IH]; intros f st st' f1 Hlen Hrun.
  - destruct f; [| simpl in Hlen; lia].
    injection Hrun as _ <-. right. split; [reflexivity | exists []; reflexivity].
  - destruct f as [| ln f].
    + injection Hrun as _ <-. right. split; [reflexivity | exists []; reflexivity].
    + simpl in Hrun, Hlen.
      destruct (Py.contains "END OF HEADER" ln) eqn:Hend.
      * injection Hrun as _ <-. left. exists [], ln. auto.
      * assert (Hnext : forall f2 st2,
                   (exists pre2, f = (pre2 ++ f2)%list) ->
                   header_loop fuel f2 st2 = Ok (st', f1) ->
                   (exists pre e, (ln :: f) = (pre ++ e :: f1)%list
                                  /\ Py.contains "END OF HEADER" e = true)
                   \/ (f1 = [] /\ exists pre, (ln :: f) = (pre ++ f1)%list)).
        { intros f2 st2 [pre2 Hpre2] Hrun2.
          apply IH in Hrun2.
          - destruct Hrun2 as [(pre & e & -> & He) | (-> & pre & ->)].
            + left. exists (ln :: pre2 ++ pre)%list, e. subst f.
              split; [| exact He]. simpl. rewrite <- app_assoc. reflexivity.
            + right. split; [reflexivity |].
              exists (ln :: pre2 ++ pre)%list. subst f. simpl.
              rewrite <- app_assoc. reflexivity.
          - subst f. rewrite length_app in Hlen. lia. }
        destruct (Py.contains OBS_TYPES (Py.slice 60 80 ln)).
        -- bind_split Hrun as rec Hrec. destruct rec as [[[k codes] N] f2].
           simpl in Hrun.
           apply (Hnext f2 _ (obs_types_record_suffix _ _ Hrec) Hrun).
        -- bind_split Hrun as hdr Hhdr.
           apply (Hnext f _ (ex_intro _ [] eq_refl) Hrun).
Qed.

(** Where [obsheader3] leaves the stream *)
Lemma obsheader3_stream f info0 f0 use meas hdr f1 :
  rinexinfo f = Ok (info0, f0) ->
  obsheader3 f use meas = Ok (hdr, f1) ->
  (exists pre e, f0 = (pre ++ e :: f1)%list
                 /\ Py.contains "END OF HEADER" e = true)
  \/ (f1 = [] /\ exists pre, f0 = (pre ++ f1)%list).
Proof.
  intros Hinfo Hrun. unfold obsheader3, read_header in Hrun.
  rewrite Hinfo in Hrun. simpl in Hrun.
  bind_split Hrun as sf Hread. destruct sf as [st f2]. simpl in Hread, Hrun.
  bind_split Hread as sf0 Hloop. destruct sf0 as [st0 f3]. simpl in Hread.
  bind_split Hread as hdr1 H1. bind_split Hread as hdr2 H2.
  bind_split Hread as hdr3 H3. injection Hread as _ <-.
  bind_split Hrun as fields Hsel. bind_split Hrun as fs Hmeas.
  destruct fs as [fields' sysind]. simpl in Hrun. injection Hrun as _ <-.
  apply header_loop_ends in Hloop; [exact Hloop | lia].
Qed.

(** X4.  The lines that [obsheader3] leaves in the stream are those
    after a line that holds "END OF HEADER", or none.  A file without
    such a line is not refused: all its lines are read as header lines,
    the scan finds no epoch, and [rinexobs3], when it raises nothing,
    returns the dataset of a file without epochs. *)
Theorem header_ends_at_marker f info0 f0 :
  rinexinfo f = Ok (info0, f0) ->
  (forall use meas hdr f1,
      obsheader3 f use meas = Ok (hdr, f1) ->
      (exists pre e, f0 = (pre ++ e :: f1)%list
                     /\ Py.contains "END OF HEADER" e = true)
      \/ f1 = [])
  /\ (no_end_marker f0 ->
      (forall use meas hdr f1,
          obsheader3 f use meas = Ok (hdr, f1) -> f1 = [])
      /\ forall use tlim useindicators meas interval data,
           rinexobs3 f use tlim useindicators meas interval = Ok data ->
           ds_assign_sv ds_empty (map patch_sv (ds_sv ds_empty)) = Ok data).
Proof.
  intros Hinfo.
  assert (Hends : forall use meas hdr f1,
             obsheader3 f use meas = Ok (hdr, f1) ->
             (exists pre e, f0 = (pre ++ e :: f1)%list
                            /\ Py.contains "END OF HEADER" e = true)
             \/ f1 = []).
  { intros use meas hdr f1 Hrun.
    destruct (@obsheader3_stream f info0 f0 use meas hdr f1 Hinfo Hrun)
      as [Hmark | [Hnil _]];
      [left; exact Hmark | right; exact Hnil]. }
  assert (Hnone : no_end_marker f0 ->
                  forall use meas hdr f1,
                    obsheader3 f use meas = Ok (hdr, f1) -> f1 = []).
  { intros Hno use meas hdr f1 Hrun.
    destruct (Hends _ _ _ _ Hrun) as [(pre & e & -> & He) | Hnil];
      [| exact Hnil].
    unfold no_end_marker in Hno. rewrite Forall_forall in Hno.
    rewrite Hno in He by (apply in_or_app; right; left; reflexivity).
    discriminate He. }
  split; [exact Hends |]. intros Hno. split; [exact (Hnone Hno) |].
  intros use tlim useindicators meas interval data Hrun.
  unfold rinexobs3 in Hrun.
  bind_split Hrun as interval' Hint.
  bind_split Hrun as hf Hhdr. destruct hf as [hdr f1]. simpl in Hrun.
  rewrite (Hnone Hno _ _ _ _ Hhdr) in Hrun. simpl in Hrun. exact Hrun.
Qed.

End HeaderEnd.

Lemma no_end_marker_check (f : list string) :
  forallb (fun ln => negb (Py.contains "END OF HEADER" ln)) f = true ->
  no_end_marker f.
Proof.
  intros H. apply Forall_forall. intros ln Hin.
  rewrite forallb_forall in H. apply H in Hin.
  apply negb_true_iff. exact Hin.
Qed.

(** A file whose header is not closed: its three epochs are lost *)
Lemma header_ends_at_marker_example :
  exists data,
    @rinexobs3 Sample.zeroed (Sample.header_unfinished ++ Sample.body_three)
      UseNone None false MeasNone None = Ok data
    /\ ds_time data = []
    /\ @ds_assign_sv Sample.zeroed (@ds_empty Sample.zeroed)
         (map patch_sv (@ds_sv Sample.zeroed (@ds_empty Sample.zeroed)))
       = Ok data.
Proof.
  eexists. split; [vm_compute; reflexivity |]. split; [reflexivity |].
  refine (proj2 (proj2 (@header_ends_at_marker Sample.zeroed
                   (Sample.header_unfinished ++ Sample.body_three)%list
                   _ _ eq_refl) _)
            UseNone None false MeasNone None _ eq_refl).
  apply no_end_marker_check. vm_compute. reflexivity.
Defined.

(** ** The times of a file and the times of its dataset *)

Section FileTimes.
Context {E : Externals}.

Lemma read_satellites_rest n :
  forall f sv raw, snd (read_satellites n f sv raw) = skipn n f.
Proof.
  induction n as [| n IH]; intros f sv raw; simpl.
  - reflexivity.
  - destruct f as [| ln f]; rewrite IH; [destruct n |]; reflexivity.
Qed.

Lemma in_skipn {A : Type} (n : nat) (l : list A) (x : A) :
  In x (skipn n l) -> In x l.
Proof.
  intros H. rewrite <- (firstn_skipn n l). apply in_or_app. right. exact H.
Qed.

Lemma _timeobs_marker ln t :
  _timeobs ln = Ok t -> Py.startswith ln "> " = true.
Proof.
  unfold _timeobs. destruct (Py.startswith ln "> "); [reflexivity | discriminate].
Qed.

(** [obstime3] keeps the times it has, and adds the time of every line
    from which [_timeobs] reads one *)
Lemma obstime3_loop_in f :
  forall times times',
    obstime3_loop f times = Ok times' ->
    (forall t, In t times -> In t times')
    /\ forall ln t, In ln f -> _timeobs ln = Ok t -> In t times'.
Proof.
  induction f as [| l f IH]; intros times times' H; simpl in H.
  - injection H as <-. split; [auto | intros ln t []].
  - assert (Hskip : obstime3_loop f times = Ok times' ->
                    (forall t, _timeobs l <> Ok t) ->
                    (forall t, In t times -> In t times')
                    /\ forall ln t, In ln (l :: f) -> _timeobs ln = Ok t ->
                                    In t times').
    { intros H' Hno. destruct (IH _ _ H') as [Hold Hnew].
      split; [exact Hold |]. intros ln t [<- | Hin] Ht.
      - contradiction (Hno t Ht).
      - exact (Hnew ln t Hin Ht). }
    destruct (Py.startswith l "> ") eqn:Hmark.
    + destruct (_timeobs l) as [t0 | e] eqn:Ht0.
      * destruct (IH _ _ H) as [Hold Hnew]. split.
        -- intros t Ht. apply Hold. apply in_or_app. left. exact Ht.
        -- intros ln t [<- | Hin] Ht.
           ++ rewrite Ht0 in Ht. injection Ht as <-.
              apply Hold. apply in_or_app. right. left. reflexivity.
           ++ exact (Hnew ln t Hin Ht).
      * destruct e; try discriminate H;
          (apply Hskip; [exact H | intros t; discriminate]).
    + apply Hskip; [exact H |].
      intros t Ht. apply _timeobs_marker in Ht. congruence.
Qed.

Hypothesis L : XArrayLaws E.

(** The times of the dataset of a scan are times read from its lines *)
Lemma epoch_loop_times hdr useindicators tlim interval fuel :
  forall f st st',
    epoch_loop
      (fun data raw time sv => _epoch data raw hdr time sv useindicators)
      tlim interval fuel f st = Ok st' ->
    forall t, In t (ds_time (ls_data st')) ->
      In t (ds_time (ls_data st))
      \/ exists ln, In ln f /\ _timeobs ln = Ok t.
Proof.
  induction fuel as [| fuel IH]; intros f st st' Hrun t Ht.
  - destruct f; injection Hrun as <-; left; exact Ht.
  - destruct f as [| ln f]; [injection Hrun as <-; left; exact Ht |].
    simpl in Hrun.
    destruct (Py.startswith ln ">"); simpl in Hrun;
      [| injection Hrun as <-; left; exact Ht].
    destruct (_timeobs ln) as [time | e] eqn:Htime.
    + bind_split Hrun as offs Hoffs. bind_split Hrun as n Hn.
      pose proof (read_satellites_rest (Z.to_nat n) f [] "") as Hrest.
      destruct (read_satellites (Z.to_nat n) f [] "") as [[sv raw] f2].
      simpl in Hrest.
      assert (Hlater : forall st1,
                 ds_time (ls_data st1) = ds_time (ls_data st) ->
                 epoch_loop
                   (fun data raw time sv =>
                      _epoch data raw hdr time sv useindicators)
                   tlim interval fuel f2 st1 = Ok st' ->
                 In t (ds_time (ls_data st))
                 \/ exists ln0, In ln0 (ln :: f) /\ _timeobs ln0 = Ok t).
      { intros st1 Hsame Hrun1.
        destruct (IH _ _ _ Hrun1 t Ht) as [Hold | (ln0 & Hin & Hln0)].
        - left. rewrite <- Hsame. exact Hold.
        - right. exists ln0. split; [| exact Hln0].
          right. rewrite Hrest in Hin. eapply in_skipn. exact Hin. }
      destruct (time_window tlim time).
      * bind_split Hrun as fl Hd. destruct fl as [fl last]. simpl in Hrun.
        destruct fl.
        -- bind_split Hrun as data Hdata.
           destruct (IH _ _ _ Hrun t Ht) as [Hnew | (ln0 & Hin & Hln0)].
           ++ simpl in Hnew.
              destruct (proj1 (@_epoch_coords E L _ _ _ _ _ _ _ Hdata) t Hnew)
                as [Hold | ->].
              ** left. exact Hold.
              ** right. exists ln. split; [left; reflexivity | exact Htime].
           ++ right. exists ln0. split; [| exact Hln0].
              right. rewrite Hrest in Hin. eapply in_skipn. exact Hin.
        -- refine (Hlater _ _ Hrun); reflexivity.
        -- injection Hrun as <-. left. exact Ht.
      * refine (Hlater _ _ Hrun); reflexivity.
      * injection Hrun as <-. left. exact Ht.
    + destruct e; try discriminate Hrun.
      destruct (IH _ _ _ Hrun t Ht) as [Hold | (ln0 & Hin & Hln0)].
      * left. exact Hold.
      * right. exists ln0. split; [right; exact Hin | exact Hln0].
Qed.

(** X5.  Every time of the dataset that [rinexobs3] returns for a file
    is one of the times that [obstime3] returns for the same file,
    whatever the systems, the time bounds and the decimation asked of
    [rinexobs3]; [rinexinfo] is assumed to leave lines of the file in the
    stream.  Proved for any [xarray] that keeps the laws. *)
Theorem dataset_times_among_obstime3
    (check_unique_times : list Z -> result unit)
    f info0 f0 use tlim useindicators meas interval data times :
  rinexinfo f = Ok (info0, f0) ->
  incl f0 f ->
  rinexobs3 f use tlim useindicators meas interval = Ok data ->
  obstime3 check_unique_times f = Ok times ->
  incl (ds_time data) times.
Proof.
  intros Hinfo Hincl Hrun Htimes t Ht.
  destruct (@rinexobs3_steps E _ _ _ _ _ _ _ Hrun)
    as (interval' & hdr & f1 & st & _ & Hhdr & Hloop & Hassign).
  rewrite (time_assign L _ _ Hassign) in Ht.
  destruct (epoch_loop_times _ _ _ _ _ _ _ Hloop t Ht)
    as [Hold | (ln & Hin & Hln)].
  - simpl in Hold. rewrite (time_empty L) in Hold. contradiction.
  - unfold obstime3 in Htimes. bind_split Htimes as times0 Hloop3.
    bind_split Htimes as u Hu. injection Htimes as <-.
    apply (proj2 (obstime3_loop_in _ _ Hloop3) ln t); [| exact Hln].
    apply Hincl.
    destruct (@obsheader3_stream E f info0 f0 _ _ hdr f1 Hinfo Hhdr)
      as [(pre & e & -> & _) | (_ & pre & ->)].
    + apply in_or_app. right. right. exact Hin.
    + apply in_or_app. right. exact Hin.
Qed.

End FileTimes.

Section TimeErrors.
Context {E : Externals}.

Lemma int_only_ValueError : only_ValueError Py.int.
Proof.
  intros s e. unfold Py.int.
  destruct (Py.number_text s) as [| c r]; simpl.
  - intros H. injection H as <-. reflexivity.
  - destruct (match c with
              | "+"%char => (false, r)
              | "-"%char => (true, r)
              | _ => (false, String c r)
              end) as [neg body].
    destruct (Py.digits body 0 false); intros H;
      [discriminate H | injection H as <-; reflexivity].
Qed.

Lemma datetime_only_ValueError y mo d h mi s us e :
  datetime y mo d h mi s us = Raise e -> e = ValueError.
Proof.
  unfold datetime.
  destruct ((1 <=? y) && (y <=? 9999) && (1 <=? mo) && (mo <=? 12)
            && (1 <=? d) && (d <=? days_in_month y mo)
            && (0 <=? h) && (h <=? 23) && (0 <=? mi) && (mi <=? 59)
            && (0 <=? s) && (s <=? 59) && (0 <=? us) && (us <=? 999999));
    intros H; [discriminate H | injection H as <-; reflexivity].
Qed.

(** X6.  When [float] and the conversion of a fraction of a second
    raise nothing but [ValueError], as they do in Python, [_timeobs]
    raises nothing but [ValueError]: whatever the line, it returns a
    time or raises [ValueError].  So the loop of [obstime3] returns for
    every file, and [obstime3] fails only when [check_unique_times]
    does. *)
Theorem timeobs_raises_only_ValueError :
  only_ValueError py_float -> only_ValueError frac_micro ->
  only_ValueError _timeobs
  /\ (forall f times, exists times', obstime3_loop f times = Ok times')
  /\ (forall (check_unique_times : list Z -> result unit) f e,
         obstime3 check_unique_times f = Raise e ->
         exists times,
           obstime3_loop f [] = Ok times
           /\ check_unique_times times = Raise e).
Proof.
  intros Hfloat Hfrac.
  assert (Htime : only_ValueError _timeobs).
  { intros ln e. unfold _timeobs.
    destruct (Py.startswith ln "> "); simpl;
      [| intros H; injection H as <-; reflexivity].
    destruct (Py.int (Py.slice 2 6 ln)) as [year | e0] eqn:H0; simpl;
      [| intros H; injection H as <-; exact (int_only_ValueError _ H0)].
    destruct (Py.int (Py.slice 7 9 ln)) as [month | e1] eqn:H1; simpl;
      [| intros H; injection H as <-; exact (int_only_ValueError _ H1)].
    destruct (Py.int (Py.slice 10 12 ln)) as [day | e2] eqn:H2; simpl;
      [| intros H; injection H as <-; exact (int_only_ValueError _ H2)].
    destruct (Py.int (Py.slice 13 15 ln)) as [hour | e3] eqn:H3; simpl;
      [| intros H; injection H as <-; exact (int_only_ValueError _ H3)].
    destruct (Py.int (Py.slice 16 18 ln)) as [minute | e4] eqn:H4; simpl;
      [| intros H; injection H as <-; exact (int_only_ValueError _ H4)].
    destruct (Py.int (Py.slice 19 21 ln)) as [second | e5] eqn:H5; simpl;
      [| intros H; injection H as <-; exact (int_only_ValueError _ H5)].
    destruct (py_float (Py.slice 19 29 ln)) as [x | e6] eqn:H6; simpl;
      [| intros H; injection H as <-; exact (Hfloat _ _ H6)].
    destruct (frac_micro x) as [us | e7] eqn:H7; simpl;
      [| intros H; injection H as <-; exact (Hfrac _ _ H7)].
    apply datetime_only_ValueError. }
  assert (Hloop : forall f times, exists times',
               obstime3_loop f times = Ok times').
  { induction f as [| ln f IH]; intros times; simpl.
    - exists times. reflexivity.
    - destruct (Py.startswith ln "> "); [| apply IH].
      destruct (_timeobs ln) as [t | e] eqn:Ht; [apply IH |].
      rewrite (Htime _ _ Ht). apply IH. }
  split; [exact Htime |]. split; [exact Hloop |].
  intros check f e Hrun. unfold obstime3 in Hrun.
  destruct (Hloop f []) as [times Htimes]. rewrite Htimes in Hrun.
  simpl in Hrun. exists times. split; [exact Htimes |].
  destruct (check times) as [u | e']; simpl in Hrun;
    [discriminate Hrun | injection Hrun as ->; reflexivity].
Qed.

End TimeErrors.

(** The decimal numbers of the samples keep the law of [float] *)
Lemma sample_float_law (garbage : string -> nat -> bool) :
  only_ValueError (@py_float (Sample.externals garbage))
  /\ only_ValueError (@frac_micro (Sample.externals garbage)).
Proof.
  split; intros a e; simpl.
  - unfold Sample.dec_float.
    destruct (Sample.all_digits (Sample.before_dot (Py.number_text a))
              && Sample.all_digits (Sample.after_dot (Py.number_text a))
              && negb (String.eqb (Sample.before_dot (Py.number_text a)
                                   ++ Sample.after_dot (Py.number_text a)) ""));
      intros H; [discriminate H | injection H as <-; reflexivity].
  - unfold Sample.dec_frac_micro. intros H. discriminate H.
Qed.

(** A damaged epoch line among three epochs: its [ValueError] is caught,
    and the three times are returned *)
Lemma timeobs_raises_only_ValueError_example :
  @_timeobs Sample.zeroed Sample.damaged_line = Raise ValueError
  /\ @obstime3_loop Sample.zeroed
       (Sample.header_GR ++ Sample.body_damaged) []
     = Ok [Sample.at_second 10; Sample.at_second 20; Sample.at_second 30]
  /\ exists times,
       @obstime3_loop Sample.zeroed
         (Sample.header_GR ++ Sample.body_damaged) [] = Ok times.
Proof.
  split; [reflexivity |]. split; [vm_compute; reflexivity |].
  exact (proj1 (proj2 (@timeobs_raises_only_ValueError Sample.zeroed
                         (proj1 (sample_float_law _))
                         (proj2 (sample_float_law _))))
           (Sample.header_GR ++ Sample.body_damaged)%list []).
Defined.

(** Three epochs read every 20 seconds: the times of the dataset, 10 and
    30 seconds, are among the three times of the file *)
Lemma dataset_times_among_obstime3_example :
  exists data times,
    @rinexobs3 Sample.zeroed (Sample.header_GR ++ Sample.body_three)
      UseNone None false MeasNone (Some 20) = Ok data
    /\ @obstime3 Sample.zeroed (fun _ => Ok tt)
         (Sample.header_GR ++ Sample.body_three) = Ok times
    /\ ds_time data = [Sample.at_second 10; Sample.at_second 30]
    /\ times = [Sample.at_second 10; Sample.at_second 20; Sample.at_second 30]
    /\ incl (ds_time data) times.
Proof.
  eexists. eexists.
  split; [vm_compute; reflexivity |]. split; [vm_compute; reflexivity |].
  split; [reflexivity |]. split; [reflexivity |].
  refine (@dataset_times_among_obstime3 Sample.zeroed (sample_laws _)
            (fun _ => Ok tt) (Sample.header_GR ++ Sample.body_three)%list
            _ _ UseNone None false MeasNone (Some 20) _ _
            eq_refl _ eq_refl eq_refl).
  intros ln Hin. right. exact Hin.
Defined.

(** ** The text under a header label *)

Section Labels.
Context {E : Externals}.

Lemma joined_step (a c : string) (cs : list string) :
  joined ((a ++ " " ++ c) :: cs) = joined (a :: c :: cs).
Proof.
  destruct cs as [| c' cs]; [reflexivity |].
  change (joined ((a ++ " " ++ c) :: c' :: cs))
    with ((a ++ " " ++ c) ++ " " ++ joined (c' :: cs)).
  change (joined (a :: c :: c' :: cs))
    with (a ++ " " ++ c ++ " " ++ joined (c' :: cs)).
  generalize (joined (c' :: cs)) as r. intros r.
  induction a as [| x a IH]; simpl; [reflexivity |].
  f_equal. exact IH.
Qed.

Lemma dict_get_absent {V : Type} (d : dict V) (k : string) :
  dict_mem d k = false -> dict_get d k = Raise KeyError.
Proof.
  induction d as [| [k0 v0] d IH]; simpl; [reflexivity |].
  destruct (String.eqb k k0); simpl; [discriminate | exact IH].
Qed.

(** Lines 309-313 on a label that holds a text, or nothing *)
Lemma add_label_text hdr hd c :
  (forall v, dict_get hdr (Py.strip hd) = Ok v -> exists s, v = HStr s) ->
  exists s,
    add_label hdr hd c = Ok (dict_set hdr (Py.strip hd) (HStr s))
    /\ text_under (dict_get hdr (Py.strip hd)) [c] = Ok (HStr s).
Proof.
  intros Hstr. unfold add_label.
  destruct (dict_mem hdr (Py.strip hd)) eqn:Hmem; simpl.
  - destruct (dict_get_mem _ _ Hmem) as [v Hv].
    destruct (Hstr v Hv) as [s0 ->]. rewrite Hv. simpl.
    exists (s0 ++ " " ++ c). split; reflexivity.
  - rewrite (dict_get_absent _ _ Hmem). simpl.
    exists c. split; reflexivity.
Qed.

Lemma text_under_step (old : result hval) (c : string) (cs : list string) :
  (forall v, old = Ok v -> exists s, v = HStr s) ->
  text_under (text_under old [c]) cs = text_under old (c :: cs).
Proof.
  intros Hstr. destruct old as [v | e].
  - destruct (Hstr v eq_refl) as [s0 ->].
    destruct cs as [| c' cs]; [reflexivity |].
    unfold text_under.
    change (joined [s0; c]) with (s0 ++ " " ++ c).
    rewrite joined_step. reflexivity.
  - destruct cs; reflexivity.
Qed.

(** X7.  Header lines that neither end the header nor begin a record
    of observation types are kept under their label.  After a run of
    such lines, a label holds the contents (columns 0 to 59, as they
    are) of the lines that carry it, in the order of the file and joined
    by single blanks, after the text that it held before; the other
    entries of the header, the codes and [Fmax] are as they were. *)
Theorem header_label_text (ls : list string) :
  Forall (fun ln => label_line ln = true) ls ->
  forall f st fuel,
    (length (ls ++ f) <= fuel)%nat ->
    (forall ln v, In ln ls ->
                  dict_get (hs_hdr st) (label_of ln) = Ok v ->
                  exists s, v = HStr s) ->
    exists hdr',
      header_loop fuel (ls ++ f) st
      = header_loop (length f) f
          (mkHeaderState hdr' (hs_fields st) (hs_Fmax st))
      /\ forall l,
           dict_get hdr' l
           = text_under (dict_get (hs_hdr st) l) (contents_under l ls).
Proof.
  induction 1 as [| ln ls Hln _ IH]; intros f st fuel Hfuel Hstr.
  - exists (hs_hdr st). split; [| reflexivity].
    simpl. destruct st as [hdr fields Fmax]. simpl.
    apply header_loop_fuel; [lia | exact Hfuel].
  - destruct fuel as [| fuel]; [simpl in Hfuel; lia |].
    unfold label_line in Hln. apply andb_true_iff in Hln.
    destruct Hln as [Hend Hobs]. apply negb_true_iff in Hend, Hobs.
    simpl. rewrite Hend, Hobs.
    destruct (add_label_text (hs_hdr st) (Py.slice 60 80 ln) (Py.take 60 ln))
      as (s & Hadd & Htext).
    { intros v Hv. apply (Hstr ln v); [left; reflexivity | exact Hv]. }
    rewrite Hadd. simpl.
    destruct (IH f (mkHeaderState
                      (dict_set (hs_hdr st) (Py.strip (Py.slice 60 80 ln))
                         (HStr s))
                      (hs_fields st) (hs_Fmax st)) fuel)
      as (hdr' & Hrun & Hget).
    { simpl in Hfuel. lia. }
    { intros ln' v Hin. simpl. rewrite dict_get_set.
      destruct (String.eqb (label_of ln') (Py.strip (Py.slice 60 80 ln))).
      - intros Hv. injection Hv as <-. exists s. reflexivity.
      - intros Hv. apply (Hstr ln' v); [right; exact Hin | exact Hv]. }
    exists hdr'. split; [exact Hrun |].
    intros l. rewrite Hget. simpl. rewrite dict_get_set.
    unfold contents_under. simpl.
    fold (label_of ln).
    destruct (String.eqb_spec l (label_of ln)) as [-> | Hne].
    + rewrite String.eqb_refl. simpl.
      fold (contents_under (label_of ln) ls). fold (content_of ln).
      rewrite <- Htext. apply text_under_step.
      intros v Hv. apply (Hstr ln v); [left; reflexivity | exact Hv].
    + destruct (String.eqb_spec (label_of ln) l) as [Heq | _];
        [congruence | reflexivity].
Qed.

End Labels.

(** Two comments and two position lines: each label holds the contents
    of its two lines, joined by a blank *)
Lemma header_label_text_example :
  exists hdr' : dict (@hval Sample.zeroed),
    @header_loop Sample.zeroed 6 (Sample.label_lines ++ Sample.header_tail)
      (mkHeaderState [("version", HInfo ("3.03" : @info Sample.zeroed))] [] 0)
    = @header_loop Sample.zeroed 2 Sample.header_tail
        (mkHeaderState hdr' [] 0)
    /\ dict_get hdr' "COMMENT"
       = Ok (HStr (Sample.ljust 60 "first" ++ " " ++ Sample.ljust 60 "second"))
    /\ dict_get hdr' "APPROX POSITION XYZ"
       = Ok (HStr (Sample.ljust 60 "  1.0 2.0 3.0" ++ " "
                   ++ Sample.ljust 60 "  4.0 5.0 6.0"))
    /\ dict_get hdr' "version" = Ok (HInfo ("3.03" : @info Sample.zeroed)).
Proof.
  assert (Hls : Forall (fun ln => label_line ln = true) Sample.label_lines)
    by (apply Forall_forallb; vm_compute; reflexivity).
  destruct (@header_label_text Sample.zeroed Sample.label_lines
              Hls Sample.header_tail
              (mkHeaderState [("version", HInfo ("3.03" : @info Sample.zeroed))]
                 [] 0) 6%nat)
    as (hdr' & Hrun & Hget).
  - simpl. lia.
  - intros ln v [<- | [<- | [<- | [<- | []]]]] Hv; discriminate Hv.
  - exists hdr'. split; [exact Hrun |].
    rewrite !Hget. repeat split.
Defined.

(** ** The receiver position *)

Section Position.
Context {E : Externals}.

Lemma split_aux_blank (a b : string) :
  forall w,
    Py.split_aux (a ++ String " " b) w
    = (Py.split_aux a w ++ Py.split_aux b [])%list.
Proof.
  induction a as [| c a IH]; intros w.
  - reflexivity.
  - simpl. destruct (Py.isspace c).
    + rewrite IH. apply app_assoc.
    + apply IH.
Qed.

(** The words of two texts joined by a blank *)
Lemma split_blank (a b : string) :
  Py.split (a ++ String " " b) = (Py.split a ++ Py.split b)%list.
Proof. unfold Py.split. apply split_aux_blank. Qed.

Lemma mapM_app {A B : Type} (g : A -> result B) (l l' : list A) :
  mapM g (l ++ l')
  = (xs <- mapM g l ;; ys <- mapM g l' ;; Ok (xs ++ ys)%list).
Proof.
  induction l as [| a l IH]; simpl.
  - destruct (mapM g l'); reflexivity.
  - destruct (g a) as [b | e]; simpl; [| reflexivity].
    rewrite IH. destruct (mapM g l) as [xs | e]; simpl; [| reflexivity].
    destruct (mapM g l'); reflexivity.
Qed.

(** X8.  When the header holds the position on two lines, the texts of
    which [obsheader3] has joined by a blank, and the first line holds
    three numbers: if every word of the second line is a number too, the
    position is that of the first line; if a word of the second line is
    not a number, the header gets no position at all, although the
    first line is complete. *)
Theorem header_position_first_wins (hdr : dict hval) (c1 c2 : string)
    (x y z : float) :
  hdr_text hdr "APPROX POSITION XYZ" = Ok (c1 ++ " " ++ c2) ->
  mapM py_float (Py.split c1) = Ok [x; y; z] ->
  (forall xs2,
      mapM py_float (Py.split c2) = Ok xs2 ->
      (forall hdr', header_position hdr = Ok hdr' ->
                    dict_get hdr' "position" = Ok (HPosition [x; y; z]))
      /\ (ecef2geodetic = None ->
          header_position hdr
          = Ok (dict_set hdr "position" (HPosition [x; y; z])))
      /\ (forall conv g,
             ecef2geodetic = Some conv -> conv x y z = Ok g ->
             header_position hdr
             = Ok (dict_set (dict_set hdr "position" (HPosition [x; y; z]))
                     "position_geodetic" (HGeodetic g))))
  /\ (mapM py_float (Py.split c2) = Raise ValueError ->
      header_position hdr = Ok hdr).
Proof.
  intros Htext H1.
  assert (Hrun : header_position hdr
                 = try_except
                     (xs <- (ys <- mapM py_float (Py.split c2) ;;
                             Ok ([x; y; z] ++ ys)%list) ;;
                      let pos := firstn 3 xs in
                      let hdr1 := dict_set hdr "position" (HPosition pos) in
                      match ecef2geodetic, pos with
                      | Some conv, [x; y; z] =>
                          try_except
                            (g <- conv x y z ;;
                             Ok (dict_set hdr1 "position_geodetic"
                                   (HGeodetic g)))
                            [KeyError; ValueError] (Ok hdr1)
                      | _, _ => Ok hdr1
                      end)
                     [KeyError; ValueError] (Ok hdr)).
  { unfold header_position. rewrite Htext. simpl.
    rewrite split_blank, mapM_app, H1. reflexivity. }
  split.
  - intros xs2 H2. rewrite Hrun, H2. simpl. split; [| split].
    + intros hdr'. destruct ecef2geodetic as [conv |]; simpl.
      * destruct (conv x y z) as [g | e]; simpl.
        -- intros H. injection H as <-.
           rewrite !dict_get_set. reflexivity.
        -- destruct e; simpl; intros H; try discriminate H;
             injection H as <-; rewrite dict_get_set; reflexivity.
      * intros H. injection H as <-. rewrite dict_get_set. reflexivity.
    + intros ->. reflexivity.
    + intros conv g -> Hg. rewrite Hg. reflexivity.
  - intros H2. rewrite Hrun, H2. reflexivity.
Qed.

End Position.

(** The position on two lines: that of the first is kept.  With a word
    that is no number on the second line, there is no position. *)
Lemma header_position_first_wins_example :
  @header_position Sample.zeroed
    [("APPROX POSITION XYZ",
      @HStr Sample.zeroed (Sample.ljust 60 "  1.0 2.0 3.0" ++ " "
            ++ Sample.ljust 60 "  4.0 5.0 6.0"))]
  = Ok [("APPROX POSITION XYZ",
         @HStr Sample.zeroed (Sample.ljust 60 "  1.0 2.0 3.0" ++ " "
               ++ Sample.ljust 60 "  4.0 5.0 6.0"));
        ("position", @HPosition Sample.zeroed [(10, 1%nat); (20, 1%nat); (30, 1%nat)])]
  /\ @header_position Sample.zeroed
       [("APPROX POSITION XYZ",
         @HStr Sample.zeroed (Sample.ljust 60 "  1.0 2.0 3.0" ++ " "
               ++ Sample.ljust 60 "  4.0 5.0 unknown"))]
     = Ok [("APPROX POSITION XYZ",
            @HStr Sample.zeroed (Sample.ljust 60 "  1.0 2.0 3.0" ++ " "
                  ++ Sample.ljust 60 "  4.0 5.0 unknown"))]
  /\ (exists hdr,
         @obsheader3 Sample.zeroed Sample.header_two_positions UseNone MeasNone
         = Ok (hdr, [])
         /\ dict_get (hdr_dict hdr) "position"
            = Ok (@HPosition Sample.zeroed [(10, 1%nat); (20, 1%nat); (30, 1%nat)])).
Proof.
  split; [| split].
  - exact (proj1 (proj2 (proj1
             (@header_position_first_wins Sample.zeroed
                [("APPROX POSITION XYZ",
                  @HStr Sample.zeroed (Sample.ljust 60 "  1.0 2.0 3.0" ++ " "
                        ++ Sample.ljust 60 "  4.0 5.0 6.0"))]
                (Sample.ljust 60 "  1.0 2.0 3.0")
                (Sample.ljust 60 "  4.0 5.0 6.0")
                (10, 1%nat) (20, 1%nat) (30, 1%nat) eq_refl eq_refl)
             [(40, 1%nat); (50, 1%nat); (60, 1%nat)] eq_refl)) eq_refl).
  - exact (proj2
             (@header_position_first_wins Sample.zeroed
                [("APPROX POSITION XYZ",
                  @HStr Sample.zeroed (Sample.ljust 60 "  1.0 2.0 3.0" ++ " "
                        ++ Sample.ljust 60 "  4.0 5.0 unknown"))]
                (Sample.ljust 60 "  1.0 2.0 3.0")
                (Sample.ljust 60 "  4.0 5.0 unknown")
                (10, 1%nat) (20, 1%nat) (30, 1%nat) eq_refl eq_refl)
             eq_refl).
  - eexists. split; reflexivity.
Defined.

(** ** The attributes of the position *)

Lemma try_except_ok {A : Type} (r : result A) (caught : list exn)
    (h : result A) (a : A) :
  try_except r caught h = Ok a -> r = Ok a \/ h = Ok a.
Proof.
  destruct r as [a' | e]; simpl.
  - intros H. left. exact H.
  - destruct (existsb (exn_eqb e) caught); intros H;
      [right; exact H | discriminate H].
Qed.

Section Geodetic.
Context {E : Externals}.

(** The time of the first observation is stored under ["t0"], and
    the interval under ["interval"]: the other entries stay *)
Lemma header_t0_keeps hdr hdr' :
  header_t0 hdr = Ok hdr' ->
  forall k, k <> "t0" -> dict_get hdr' k = dict_get hdr k.
Proof.
  unfold header_t0. intros H k Hk.
  apply try_except_ok in H. destruct H as [H | H].
  - bind_split H as t0s H0. bind_split H as year H1.
    bind_split H as month H2. bind_split H as day H3.
    bind_split H as hour H4. bind_split H as minute H5.
    bind_split H as sec H6. bind_split H as second H7.
    bind_split H as frac H8. bind_split H as microsecond H9.
    bind_split H as t0 H10. injection H as <-.
    rewrite dict_get_set.
    destruct (String.eqb_spec k "t0"); [contradiction | reflexivity].
  - injection H as <-. reflexivity.
Qed.

Lemma header_interval_keeps hdr hdr' :
  header_interval hdr = Ok hdr' ->
  forall k, k <> "interval" -> dict_get hdr' k = dict_get hdr k.
Proof.
  unfold header_interval. intros H k Hk.
  apply try_except_ok in H. destruct H as [H | H].
  - bind_split H as s H0. bind_split H as x H1. injection H as <-.
    rewrite dict_get_set.
    destruct (String.eqb_spec k "interval"); [contradiction | reflexivity].
  - injection H as <-. reflexivity.
Qed.

Lemma dict_mem_get {V : Type} (d : dict V) (k : string) :
  dict_mem d k = match dict_get d k with Ok _ => true | Raise _ => false end.
Proof.
  induction d as [| [k0 v0] d IH]; simpl; [reflexivity |].
  destruct (String.eqb k k0); simpl; [reflexivity | exact IH].
Qed.

(** A position of fewer than three numbers gets no geodetic
    companion *)
Lemma header_position_short conv hdr s xs :
  ecef2geodetic = Some conv ->
  hdr_text hdr "APPROX POSITION XYZ" = Ok s ->
  mapM py_float (Py.split s) = Ok xs ->
  (length xs < 3)%nat ->
  header_position hdr = Ok (dict_set hdr "position" (HPosition xs)).
Proof.
  intros Hconv Htext Hxs Hlen. unfold header_position.
  rewrite Htext. simpl. rewrite Hxs. simpl. rewrite Hconv.
  destruct xs as [| a [| b [| c xs]]]; simpl in *; try reflexivity. lia.
Qed.

Variable time_system : Type.
Variable determine_time_system : header -> result time_system.
Variable has_time : Dataset -> bool.
Variable median_step : Dataset -> result float.
Variable int_of_info : info -> result Z.

(** X9.  When [pymap3d] is installed and the position of the header
    holds fewer than three numbers (a blank position line, or one or two
    numbers), [obsheader3] stores the position without its geodetic
    companion, and lines 148-151 of [rinexobs3], which read the
    companion whenever a position is there, raise: [rinexobs3] cannot
    return for this file, and the error is [KeyError] once the
    attributes before the position are set. *)
Theorem short_position_fails_with_pymap3d conv f info0 f0 st f1 s xs :
  ecef2geodetic = Some conv ->
  rinexinfo f = Ok (info0, f0) ->
  header_loop (length f0) f0
    (mkHeaderState (map (fun kv => (fst kv, HInfo (snd kv))) info0) [] 0)
  = Ok (st, f1) ->
  hdr_text (hs_hdr st) "APPROX POSITION XYZ" = Ok s ->
  mapM py_float (Py.split s) = Ok xs ->
  (length xs < 3)%nat ->
  dict_mem (hs_hdr st) "position_geodetic" = false ->
  forall use meas hdr f1',
    obsheader3 f use meas = Ok (hdr, f1') ->
    dict_get (hdr_dict hdr) "position" = Ok (HPosition xs)
    /\ dict_mem (hdr_dict hdr) "position_geodetic" = false
    /\ forall attrs data time_offset filename,
         (exists e,
             attributes determine_time_system has_time median_step
               int_of_info attrs hdr data time_offset filename = Raise e)
         /\ (forall version a2 ts,
                dict_get (hdr_dict hdr) "version" = Ok version ->
                attr_interval has_time median_step
                  (dict_set attrs "version" (AHeader time_system version))
                  hdr data = Ok a2 ->
                determine_time_system hdr = Ok ts ->
                attributes determine_time_system has_time median_step
                  int_of_info attrs hdr data time_offset filename
                = Raise KeyError).
Proof.
  intros Hconv Hinfo Hloop Htext Hxs Hlen Hgeo use meas hdr f1' Hrun.
  unfold obsheader3, read_header in Hrun.
  rewrite Hinfo in Hrun. simpl in Hrun. rewrite Hloop in Hrun. simpl in Hrun.
  rewrite (header_position_short _ Hconv Htext Hxs Hlen) in Hrun.
  simpl in Hrun.
  bind_split Hrun as sf Hread. destruct sf as [st' f2]. simpl in Hrun.
  bind_split Hread as hdr2 H2. bind_split Hread as hdr3 H3.
  injection Hread as <- _.
  bind_split Hrun as fields Hsel. bind_split Hrun as fs Hmeas.
  destruct fs as [fields' sysind]. simpl in Hrun. injection Hrun as <- _.
  simpl.
  assert (Hpos : dict_get hdr3 "position" = Ok (HPosition xs)).
  { rewrite (header_interval_keeps _ H3) by discriminate.
    rewrite (header_t0_keeps _ H2) by discriminate.
    rewrite dict_get_set. reflexivity. }
  assert (Hno : dict_get hdr3 "position_geodetic" = Raise KeyError).
  { rewrite (header_interval_keeps _ H3) by discriminate.
    rewrite (header_t0_keeps _ H2) by discriminate.
    rewrite dict_get_set. simpl. apply dict_get_absent. exact Hgeo. }
  assert (Hfail : forall (a6 : dict (attr time_system)) hdr0,
             hdr_dict hdr0 = hdr3 ->
             attr_position a6 hdr0 = Raise KeyError).
  { intros a6 hdr0 Hd. unfold attr_position. rewrite Hd.
    rewrite dict_mem_get, Hpos. simpl. rewrite Hconv, Hno. reflexivity. }
  split; [exact Hpos |]. split; [rewrite dict_mem_get, Hno; reflexivity |].
  intros attrs data time_offset filename. split.
  - unfold attributes. simpl.
    destruct (dict_get hdr3 "version") as [version | e]; simpl;
      [| exists e; reflexivity].
    destruct (attr_interval _ _ _ _ _) as [a2 | e]; simpl;
      [| exists e; reflexivity].
    destruct (determine_time_system _) as [ts | e]; simpl;
      [| exists e; reflexivity].
    rewrite Hfail by reflexivity. exists KeyError. reflexivity.
  - intros version a2 ts Hversion Hinterval Hts. unfold attributes.
    simpl in Hversion. simpl. rewrite Hversion. simpl.
    rewrite Hinterval. simpl. rewrite Hts. simpl.
    rewrite Hfail by reflexivity. reflexivity.
Qed.

End Geodetic.

(** A position of two numbers: without [pymap3d] the attributes are
    set, with it [KeyError] is raised *)
Lemma short_position_example :
  (exists hdr a,
      @obsheader3 Sample.zeroed Sample.header_short_position UseNone MeasNone
      = Ok (hdr, [])
      /\ @attributes Sample.zeroed unit (fun _ => Ok tt) (fun _ => true)
           (fun _ => Raise TypeError) (fun _ => Raise TypeError)
           [] hdr ds_empty [] None = Ok a)
  /\ exists hdr,
       @obsheader3 Sample.with_pymap3d Sample.header_short_position
         UseNone MeasNone = Ok (hdr, [])
       /\ dict_get (hdr_dict hdr) "position"
          = Ok (@HPosition Sample.with_pymap3d
                  [(40278818478, 4%nat); (3069982610, 4%nat)])
       /\ @attributes Sample.with_pymap3d unit (fun _ => Ok tt)
            (fun _ => true) (fun _ => Raise TypeError)
            (fun _ => Raise TypeError) [] hdr ds_empty [] None
          = Raise KeyError.
Proof.
  split; [eexists; eexists; split; reflexivity |].
  destruct (@short_position_fails_with_pymap3d Sample.with_pymap3d unit
              (fun _ => Ok tt) (fun _ => true) (fun _ => Raise TypeError)
              (fun _ => Raise TypeError) (fun _ _ _ => Ok tt)
              Sample.header_short_position _ _ _ _ _
              [(40278818478, 4%nat); (3069982610, 4%nat)]
              eq_refl eq_refl eq_refl eq_refl eq_refl
              (Nat.lt_succ_diag_r 2) eq_refl
              UseNone MeasNone _ _ eq_refl)
    as (Hpos & _ & Hattr).
  eexists. split; [reflexivity |]. split; [exact Hpos |].
  exact (proj2 (Hattr [] ds_empty [] None) _ _ tt eq_refl eq_refl eq_refl).
Defined.

(** ** A request given as a string *)

Section StringRequest.
Context {E : Externals}.

Lemma dict_keys_set_in {V : Type} (d : dict V) (k : string) (v : V)
    (k' : string) :
  In k' (dict_keys (dict_set d k v)) -> k' = k \/ In k' (dict_keys d).
Proof.
  intros H. apply dict_mem_keys in H. rewrite dict_mem_set in H.
  apply orb_true_iff in H. destruct H as [H | H].
  - left. apply String.eqb_eq. exact H.
  - right. apply dict_mem_keys. exact H.
Qed.

Lemma obs_types_record_key c f k codes N f' :
  obs_types_record c f = Ok (k, codes, N, f') -> String.length k = 1%nat.
Proof.
  unfold obs_types_record. intros H.
  bind_split H as k0 Hk. bind_split H as N0 HN.
  bind_split H as cf Hcont. destruct cf as [codes0 f0]. simpl in H.
  bind_split H as u Hu. injection H as <- _ _ _.
  destruct (head_inv _ Hk) as (a & rest & _ & ->). reflexivity.
Qed.

(** The systems of the mapping of codes are single characters *)
Lemma header_loop_keys fuel :
  forall f st st' f',
    Forall (fun k => String.length k = 1%nat) (dict_keys (hs_fields st)) ->
    header_loop fuel f st = Ok (st', f') ->
    Forall (fun k => String.length k = 1%nat) (dict_keys (hs_fields st')).
Proof.
  induction fuel as [| fuel IH]; intros f st st' f' Hkeys Hrun.
  - destruct f; injection Hrun as <- _; exact Hkeys.
  - destruct f as [| ln f]; [injection Hrun as <- _; exact Hkeys |].
    simpl in Hrun.
    destruct (Py.contains "END OF HEADER" ln);
      [injection Hrun as <- _; exact Hkeys |].
    destruct (Py.contains OBS_TYPES (Py.slice 60 80 ln)).
    + bind_split Hrun as rec Hrec. destruct rec as [[[k codes] N] f2].
      simpl in Hrun. apply obs_types_record_key in Hrec.
      apply IH in Hrun; [exact Hrun |]. simpl.
      rewrite Forall_forall in *. intros k' Hk'.
      apply dict_keys_set_in in Hk'. destruct Hk' as [-> | Hk'];
        [exact Hrec | exact (Hkeys _ Hk')].
    + bind_split Hrun as hdr Hhdr.
      apply IH in Hrun; [exact Hrun | exact Hkeys].
Qed.

Lemma read_header_keys f st f1 :
  read_header f = Ok (st, f1) ->
  Forall (fun k => String.length k = 1%nat) (dict_keys (hs_fields st)).
Proof.
  unfold read_header. intros H.
  bind_split H as if0 Hinfo. destruct if0 as [info0 f0]. simpl in H.
  bind_split H as sf Hloop. destruct sf as [st0 f2]. simpl in H.
  bind_split H as hdr1 H1. bind_split H as hdr2 H2.
  bind_split H as hdr3 H3. injection H as <- _. simpl.
  apply header_loop_keys in Hloop; [exact Hloop | constructor].
Qed.

(** X10.  The systems of the mapping of codes are single characters,
    the first of a record.  [rinexobs3] wraps a request given as a
    string in a set, so a string that is not one character long names
    no system of any file, and [rinexobs3] raises [KeyError] once the
    header is read, also for the empty string and for "GR" on a file
    that declares G and R; [obsheader3] called with the same string
    takes its characters and keeps the systems among them. *)
Theorem string_request_names_one_system f st f1 :
  read_header f = Ok (st, f1) ->
  Forall (fun k => String.length k = 1%nat) (dict_keys (hs_fields st))
  /\ (forall s tlim useindicators meas interval interval',
         String.length s <> 1%nat ->
         check_time_interval interval = Ok interval' ->
         rinexobs3 f (UseStr s) tlim useindicators meas interval
         = Raise KeyError)
  /\ (forall s meas,
         intersects (hs_fields st) (UseStr s) = true ->
         exists hdr,
           obsheader3 f (UseStr s) meas = Ok (hdr, f1)
           /\ dict_keys (hdr_fields hdr)
              = requested_present (hs_fields st) (UseStr s)).
Proof.
  intros Hread. pose proof (read_header_keys _ Hread) as Hkeys.
  split; [exact Hkeys |]. split.
  - intros s tlim useindicators meas interval interval' Hlen Hint.
    unfold rinexobs3. rewrite Hint. simpl.
    unfold obsheader3. rewrite Hread. simpl.
    unfold select_systems, intersects. simpl.
    destruct (dict_mem (hs_fields st) s) eqn:Hmem; [| reflexivity].
    apply dict_mem_keys in Hmem. rewrite Forall_forall in Hkeys.
    contradiction (Hlen (Hkeys _ Hmem)).
  - intros s meas Hmeet.
    assert (Huse : use_truthy (UseStr s) = true).
    { unfold intersects, use_truthy in *.
      destruct (use_iter (UseStr s)); [discriminate Hmeet | reflexivity]. }
    destruct (@obsheader3_requested E f st f1 (UseStr s) meas Hread Huse Hmeet)
      as (hdr & Hrun & Hk & _).
    exists hdr. split; assumption.
Qed.

End StringRequest.

(** The systems G and R asked for as "RG": [obsheader3] takes the
    letters, and [rinexobs3] the whole string, which names no system *)
Lemma string_request_example :
  @rinexobs3 Sample.zeroed (Sample.header_GR ++ Sample.body_one)
    (UseStr "RG") None false MeasNone None = Raise KeyError
  /\ exists hdr,
       @obsheader3 Sample.zeroed (Sample.header_GR ++ Sample.body_one)
         (UseStr "RG") MeasNone = Ok (hdr, Sample.body_one)
       /\ dict_keys (hdr_fields hdr) = ["R"; "G"].
Proof.
  assert (Hread : @read_header Sample.zeroed
                    (Sample.header_GR ++ Sample.body_one)
                  = Ok (mkHeaderState
                          [("version", HInfo ("3.03" : @info Sample.zeroed))]
                          [("G", ["C1C"; "L1C"]); ("R", ["C1C"])] 2,
                        Sample.body_one)) by reflexivity.
  destruct (@string_request_names_one_system Sample.zeroed _ _ _ Hread)
    as (_ & Hstr & Hchars).
  split.
  - apply (Hstr "RG" None false MeasNone None None); [discriminate | reflexivity].
  - apply (Hchars "RG" MeasNone). reflexivity.
Defined.

(** ** The header that [obsheader3] returns *)

Section Coherent.
Context {E : Externals}.

Lemma select_meas_loop_ind_keys meas Fmax keys :
  NoDup keys ->
  forall fields sysind fields' sysind',
    (forall k, In k keys -> dict_mem sysind k = false) ->
    foldM (select_meas_system meas Fmax) keys (fields, sysind)
    = Ok (fields', sysind') ->
    dict_keys sysind' = (dict_keys sysind ++ keys)%list.
Proof.
  induction 1 as [| k keys Hk _ IH];
    intros fields sysind fields' sysind' Hnew Hrun; simpl in Hrun.
  - injection Hrun as _ <-. rewrite app_nil_r. reflexivity.
  - bind_split Hrun as acc Hacc. destruct acc as [fields1 sysind1].
    unfold select_meas_system in Hacc. bind_split Hacc as codes Hcodes.
    injection Hacc as <- <-.
    apply IH in Hrun.
    + rewrite Hrun. rewrite dict_set_new by (apply Hnew; left; reflexivity).
      unfold dict_keys. rewrite map_app. simpl. rewrite <- app_assoc.
      reflexivity.
    + intros k' Hk'. rewrite dict_mem_set.
      rewrite (Hnew k') by (right; exact Hk').
      rewrite orb_false_r. apply String.eqb_neq. intros ->. contradiction.
Qed.

Lemma dict_get_all_columns (fields : dict (list string)) sk v :
  dict_get (map (fun kv => (fst kv, SelAll)) fields) sk = Ok v -> v = SelAll.
Proof.
  induction fields as [| [k codes] fields IH]; simpl; [discriminate |].
  destruct (String.eqb sk k); [| exact IH].
  intros H. injection H as <-. reflexivity.
Qed.

Lemma with_prefix_length meas codes :
  (length (with_prefix meas codes) <= length codes)%nat.
Proof.
  unfold with_prefix. induction codes as [| c codes IH]; simpl; [lia |].
  destruct (existsb (Py.startswith c) meas); simpl; lia.
Qed.

(** The mapping of codes and the column selections of the header that
    [obsheader3] returns *)
Lemma obsheader3_fields_wf f use meas hdr f1 :
  obsheader3 f use meas = Ok (hdr, f1) ->
  NoDup (dict_keys (hdr_fields hdr))
  /\ dict_keys (hdr_fields_ind hdr) = dict_keys (hdr_fields hdr)
  /\ (forall sk codes,
         dict_get (hdr_fields hdr) sk = Ok codes ->
         Z.of_nat (length codes) <= hdr_Fmax hdr)
  /\ (forall sk mask,
         dict_get (hdr_fields_ind hdr) sk = Ok (SelMask mask) ->
         length mask = Z.to_nat (hdr_Fmax hdr * 3)).
Proof.
  intros Hrun.
  unfold obsheader3 in Hrun.
  bind_split Hrun as sf Hread. destruct sf as [st f2]. simpl in Hrun.
  bind_split Hrun as fields Hsel. bind_split Hrun as fs Hmeas.
  destruct fs as [fields' sysind]. simpl in Hrun.
  injection Hrun as <- _. simpl.
  destruct (@read_header_wf E f st f2 Hread) as [Hnd Hlen].
  destruct (@select_systems_from (hs_fields st) use fields Hnd Hsel)
    as [Hnd' Hfrom].
  assert (Hplain : (fields', sysind)
                   = (fields, map (fun kv => (fst kv, SelAll)) fields) ->
                   NoDup (dict_keys fields')
                   /\ dict_keys sysind = dict_keys fields'
                   /\ (forall sk codes,
                          dict_get fields' sk = Ok codes ->
                          Z.of_nat (length codes) <= hs_Fmax st)
                   /\ (forall sk mask,
                          dict_get sysind sk = Ok (SelMask mask) ->
                          length mask = Z.to_nat (hs_Fmax st * 3))).
  { intros Heq. injection Heq as -> ->. repeat split.
    - exact Hnd'.
    - unfold dict_keys. rewrite map_map. reflexivity.
    - intros sk codes Hget. apply (Hlen sk). apply Hfrom. exact Hget.
    - intros sk mask Hget. apply dict_get_all_columns in Hget.
      discriminate Hget. }
  destruct meas as [| s | l]; simpl in Hmeas.
  - apply Hplain. injection Hmeas as <- <-. reflexivity.
  - apply Hplain. injection Hmeas as <- <-. reflexivity.
  - assert (Hkeys : dict_keys fields' = dict_keys fields).
    { destruct (select_meas_keys (MeasSeq l) (hs_Fmax st) fields)
        as (fields'' & sysind'' & Hrun' & Hkeys & _).
      simpl in Hrun'. rewrite Hmeas in Hrun'.
      injection Hrun' as <- _. exact Hkeys. }
    assert (Hind : dict_keys sysind = dict_keys fields).
    { unfold select_meas_loop in Hmeas.
      apply (@select_meas_loop_ind_keys l (hs_Fmax st) (dict_keys fields)
               Hnd' fields [] fields' sysind); [reflexivity | exact Hmeas]. }
    assert (Hfilter : forall sk codes,
               dict_get fields sk = Ok codes ->
               dict_get fields' sk = Ok (with_prefix l codes)
               /\ exists mask,
                    dict_get sysind sk = Ok (SelMask mask)
                    /\ length mask = Z.to_nat (hs_Fmax st * 3)).
    { intros sk codes Hget.
      destruct (@measurement_filter E fields l (hs_Fmax st) fields' sysind
                  Hnd' Hmeas sk codes Hget)
        as (Hkept & mask & Hmask & Hsize & _).
      split; [exact Hkept |]. exists mask. split; assumption. }
    repeat split.
    + rewrite Hkeys. exact Hnd'.
    + rewrite Hind, Hkeys. reflexivity.
    + intros sk codes' Hget.
      assert (Hin : dict_mem fields sk = true).
      { apply dict_mem_keys. rewrite <- Hkeys. apply dict_mem_keys.
        eapply dict_get_ok_mem. exact Hget. }
      destruct (dict_get_mem _ _ Hin) as [codes Hcodes].
      destruct (Hfilter _ _ Hcodes) as [Hkept _].
      rewrite Hkept in Hget. injection Hget as <-.
      pose proof (with_prefix_length l codes) as Hle.
      pose proof (Hlen _ _ (Hfrom _ _ Hcodes)) as Hbound. lia.
    + intros sk mask Hget.
      assert (Hin : dict_mem fields sk = true).
      { apply dict_mem_keys. rewrite <- Hind. apply dict_mem_keys.
        eapply dict_get_ok_mem. exact Hget. }
      destruct (dict_get_mem _ _ Hin) as [codes Hcodes].
      destruct (Hfilter _ _ Hcodes) as (_ & mask' & Hmask & Hsize).
      rewrite Hmask in Hget. injection Hget as <-. exact Hsize.
Qed.

(** X11.  The header that [obsheader3] returns, whatever the systems
    and the measurements asked for, is coherent: no system stands twice
    in the mapping of codes; the mapping of column selections has the
    same systems in the same order, so that [_epoch] finds the codes and
    the columns of every system it loops over; no system has more codes
    than [Fmax], the number of triples of columns read from a line; and
    every mask has [Fmax * 3] slots. *)
Theorem obsheader3_coherent f use meas hdr f1 :
  obsheader3 f use meas = Ok (hdr, f1) ->
  NoDup (dict_keys (hdr_fields hdr))
  /\ dict_keys (hdr_fields_ind hdr) = dict_keys (hdr_fields hdr)
  /\ (forall sk codes,
         dict_get (hdr_fields hdr) sk = Ok codes ->
         Z.of_nat (length codes) <= hdr_Fmax hdr)
  /\ (forall sk mask,
         dict_get (hdr_fields_ind hdr) sk = Ok (SelMask mask) ->
         length mask = Z.to_nat (hdr_Fmax hdr * 3))
  /\ (forall sk,
         In sk (dict_keys (hdr_fields hdr)) ->
         exists codes di,
           dict_get (hdr_fields hdr) sk = Ok codes
           /\ dict_get (hdr_fields_ind hdr) sk = Ok di).
Proof.
  intros Hrun.
  destruct (@obsheader3_fields_wf f use meas hdr f1 Hrun)
    as (Hnd & Hkeys & Hlen & Hmask).
  repeat split; try assumption.
  intros sk Hsk.
  destruct (dict_get_mem (hdr_fields hdr) sk) as [codes Hcodes];
    [apply dict_mem_keys; exact Hsk |].
  destruct (dict_get_mem (hdr_fields_ind hdr) sk) as [di Hdi];
    [apply dict_mem_keys; rewrite Hkeys; exact Hsk |].
  exists codes, di. split; assumption.
Qed.

End Coherent.

(** The header of the sample, asked for R then G and for the codes that
    start with C1 *)
Lemma obsheader3_coherent_example :
  exists hdr,
    @obsheader3 Sample.zeroed Sample.header_GR (UseSeq ["R"; "G"])
      (MeasSeq ["C1"]) = Ok (hdr, [])
    /\ dict_keys (hdr_fields hdr) = ["R"; "G"]
    /\ dict_keys (hdr_fields_ind hdr) = dict_keys (hdr_fields hdr)
    /\ NoDup (dict_keys (hdr_fields hdr)).
Proof.
  eexists. split; [reflexivity |]. split; [reflexivity |].
  destruct (@obsheader3_coherent Sample.zeroed Sample.header_GR
              (UseSeq ["R"; "G"]) (MeasSeq ["C1"]) _ _ eq_refl)
    as (Hnd & Hkeys & _).
  split; [exact Hkeys | exact Hnd].
Defined.

(** ** Epochs that are cut, and epochs without a satellite of the
    systems read *)

Section EpochEdges.
Context {E : Externals}.

Lemma enumerate_snd {A : Type} (l : list A) : map snd (enumerate l) = l.
Proof.
  unfold enumerate. generalize 0%nat.
  induction l as [| x l IH]; intros start; simpl; [reflexivity |].
  rewrite IH. reflexivity.
Qed.

(** An identifier without a first character stops line 225 *)
Lemma system_rows_eof sk svs :
  In "" (map snd svs) -> system_rows sk svs = Raise IndexError.
Proof.
  induction svs as [| [i s] svs IH]; simpl; [contradiction |].
  intros [-> | Hin].
  - reflexivity.
  - rewrite (IH Hin). destruct s; reflexivity.
Qed.

Lemma read_satellites_keeps n :
  forall f sv raw x,
    In x sv -> In x (fst (fst (read_satellites n f sv raw))).
Proof.
  induction n as [| n IH]; intros f sv raw x Hin; simpl; [exact Hin |].
  destruct f as [| ln f]; apply IH; apply in_or_app; left; exact Hin.
Qed.

(** At the end of the file the identifier read is empty *)
Lemma read_satellites_eof n :
  forall f sv raw,
    (length f < n)%nat -> In "" (fst (fst (read_satellites n f sv raw))).
Proof.
  induction n as [| n IH]; intros f sv raw Hlen; [lia |]. simpl.
  destruct f as [| ln f].
  - apply read_satellites_keeps. apply in_or_app. right. left. reflexivity.
  - apply IH. simpl in Hlen. lia.
Qed.

(** X12.  When the file ends before the lines of the satellites that an
    epoch line announces, and the epoch passes the time bounds and the
    decimation, the scan raises [IndexError]: the identifiers read past
    the end of the file are empty, and line 225 takes their first
    character.  The epochs read before are not returned. *)
Theorem truncated_epoch_raises_IndexError hdr useindicators tlim interval
    fuel ln f st time offs n last darr :
  _timeobs ln = Ok time ->
  read_time_offset ln (ls_time_offset st) = Ok offs ->
  Py.int (Py.slice 33 35 ln) = Ok n ->
  (length f < Z.to_nat n)%nat ->
  time_window tlim time = Next ->
  decimate interval (ls_last_epoch st) time = Ok (Next, last) ->
  genfromtxt (snd (fst (read_satellites (Z.to_nat n) f [] "")))
    (hdr_Fmax hdr) = Ok darr ->
  hdr_fields hdr <> [] ->
  epoch_loop
    (fun data raw time sv => _epoch data raw hdr time sv useindicators)
    tlim interval (S fuel) (ln :: f) st
  = Raise IndexError.
Proof.
  intros Htime Hoffs Hn Hlen Hwin Hdec Hgrid Hfields.
  pose proof (@read_satellites_eof (Z.to_nat n) f [] "" Hlen) as Heof.
  simpl.
  rewrite (startswith_marker _ (@_timeobs_marker E _ _ Htime)). simpl.
  rewrite Htime, Hoffs. simpl. rewrite Hn. simpl.
  destruct (read_satellites (Z.to_nat n) f [] "") as [[sv raw] f2].
  simpl in Heof, Hgrid.
  rewrite Hwin, Hdec. simpl.
  unfold _epoch. rewrite Hgrid. simpl.
  destruct (hdr_fields hdr) as [| [sk codes] fields];
    [contradiction Hfields; reflexivity |].
  simpl. unfold epoch_system.
  rewrite system_rows_eof by (rewrite enumerate_snd; exact Heof).
  reflexivity.
Qed.

(** A satellite of another system is on no row of the system *)
Lemma system_rows_foreign sk svs :
  Forall (fun s => exists c r, s = String c r
                               /\ Py.contains (String c "") sk = false)
    (map snd svs) ->
  system_rows sk svs = Ok [].
Proof.
  induction svs as [| [i s] svs IH]; simpl; intros H; [reflexivity |].
  inversion H as [| ? ? (c & r & -> & Hc) Hrest]; subst.
  rewrite (IH Hrest). cbv [Py.head]. simpl. rewrite Hc. reflexivity.
Qed.

(** X13.  An epoch none of whose satellites belongs to a system of the
    header, as when only some systems are asked for, leaves the dataset
    as it was: its time does not enter the time coordinate. *)
Theorem epoch_without_selected_satellites data raw hdr time sv
    useindicators darr :
  genfromtxt raw (hdr_Fmax hdr) = Ok darr ->
  Forall (fun s => foreign (dict_keys (hdr_fields hdr)) s = true) sv ->
  _epoch data raw hdr time sv useindicators = Ok data.
Proof.
  intros Hgrid Hsv. unfold _epoch. rewrite Hgrid. simpl.
  assert (Hkeys : forall sk, In sk (dict_keys (hdr_fields hdr)) ->
                    system_rows sk (enumerate sv) = Ok []).
  { intros sk Hsk. apply system_rows_foreign. rewrite enumerate_snd.
    rewrite Forall_forall in *. intros s Hs. specialize (Hsv s Hs).
    destruct s as [| c r]; [discriminate Hsv |]. simpl in Hsv.
    rewrite forallb_forall in Hsv. specialize (Hsv sk Hsk).
    exists c, r. split; [reflexivity |]. apply negb_true_iff. exact Hsv. }
  revert Hkeys. generalize (dict_keys (hdr_fields hdr)) as keys.
  induction keys as [| sk keys IH]; intros Hkeys; simpl; [reflexivity |].
  unfold epoch_system at 1. rewrite (Hkeys sk) by (left; reflexivity).
  simpl. apply IH. intros sk' Hsk'. apply Hkeys. right. exact Hsk'.
Qed.

End EpochEdges.

(** A file that ends after the first of the two satellites of its
    epoch *)
Lemma truncated_epoch_example :
  @rinexobs3 Sample.zeroed (Sample.header_GR ++ Sample.body_cut)
    UseNone None false MeasNone None = Raise IndexError
  /\ @epoch_loop Sample.zeroed (@Dataset Sample.zeroed)
       (fun data raw time sv =>
          _epoch data raw
            (mkHeader [("version", HInfo ("3.03" : @info Sample.zeroed))]
               [("G", ["C1C"; "L1C"]); ("R", ["C1C"])]
               [("G", SelAll); ("R", SelAll)] 2)
            time sv false)
       None None 2 Sample.body_cut
       (mkLoopState (@ds_empty Sample.zeroed) None [])
     = Raise IndexError.
Proof.
  split; [vm_compute; reflexivity |].
  refine (@truncated_epoch_raises_IndexError Sample.zeroed
           (mkHeader [("version", HInfo ("3.03" : @info Sample.zeroed))]
              [("G", ["C1C"; "L1C"]); ("R", ["C1C"])]
              [("G", SelAll); ("R", SelAll)] 2)
           false None None 1 (hd "" Sample.body_cut) (tl Sample.body_cut)
           (mkLoopState (@ds_empty Sample.zeroed) None [])
           (Sample.at_second 10) [] 2 None _
           eq_refl eq_refl eq_refl (Nat.lt_succ_diag_r 1) eq_refl eq_refl
           eq_refl _).
  discriminate.
Defined.

(** A file whose epochs hold a GPS satellite only, read for GLONASS:
    the dataset has no time *)
Lemma epoch_without_selected_satellites_example :
  (exists data,
      @rinexobs3 Sample.zeroed (Sample.header_GR ++ Sample.body_three)
        (UseSeq ["R"]) None false MeasNone None = Ok data
      /\ ds_time data = [])
  /\ @_epoch Sample.zeroed (@ds_empty Sample.zeroed)
       (Py.drop 3 (nth 1 Sample.body_three ""))
       (mkHeader [("version", HInfo ("3.03" : @info Sample.zeroed))]
          [("R", ["C1C"])] [("R", SelAll)] 2)
       (Sample.at_second 10) ["G07"] false
     = Ok (@ds_empty Sample.zeroed).
Proof.
  split; [eexists; split; [vm_compute; reflexivity | reflexivity] |].
  refine (@epoch_without_selected_satellites Sample.zeroed
            (@ds_empty Sample.zeroed)
            (Py.drop 3 (nth 1 Sample.body_three ""))
            (mkHeader [("version", HInfo ("3.03" : @info Sample.zeroed))]
               [("R", ["C1C"])] [("R", SelAll)] 2)
            (Sample.at_second 10) ["G07"] false _ eq_refl _).
  apply Forall_forallb. reflexivity.
Defined.

(** ** The columns that a mask selects *)

Section MaskColumns.
Context {E : Externals}.
Local Open Scope list_scope.

Lemma mask_select_app {A : Type} (a b : list bool) (row : list A) :
  (length a <= length row)%nat ->
  mask_select (a ++ b) row
  = mask_select a (firstn (length a) row)
    ++ mask_select b (skipn (length a) row).
Proof.
  revert row. induction a as [| x a IH]; intros row Hlen; simpl.
  - destruct b; reflexivity.
  - destruct row as [| r row]; [simpl in Hlen; lia |].
    simpl in Hlen. simpl. rewrite IH by lia.
    destruct x; reflexivity.
Qed.

Lemma mask_select_thrice {A : Type} (ind : list bool) (row : list A) :
  (3 * length ind <= length row)%nat ->
  mask_select (thrice ind) (firstn (3 * length ind) row)
  = keep_triples ind row.
Proof.
  revert row. induction ind as [| b ind IH]; intros row Hlen.
  - reflexivity.
  - destruct row as [| x [| y [| z row]]]; simpl in Hlen; try lia.
    replace (3 * length (b :: ind))%nat with (S (S (S (3 * length ind))))
      by (simpl; lia).
    simpl firstn.
    change (thrice (b :: ind)) with (b :: b :: b :: thrice ind).
    simpl. rewrite IH by lia. destruct b; reflexivity.
Qed.

Lemma thrice_length (ind : list bool) :
  length (thrice ind) = (3 * length ind)%nat.
Proof.
  unfold thrice. induction ind as [| b ind IH]; simpl; [reflexivity |].
  rewrite IH. lia.
Qed.

Lemma keep_triples_length {A : Type} (ind : list bool) (row : list A) :
  (3 * length ind <= length row)%nat ->
  length (keep_triples ind row) = (3 * true_count ind)%nat.
Proof.
  revert row. induction ind as [| b ind IH]; intros row Hlen.
  - reflexivity.
  - destruct row as [| x [| y [| z row]]]; simpl in Hlen; try lia.
    unfold true_count in *. simpl.
    destruct b; simpl; rewrite IH by lia.
    + destruct (bool_dec true true); [lia | contradiction].
    + destruct (bool_dec false true); [discriminate | lia].
Qed.

(** X14.  The slots of a mask that [obsheader3] never writes do not
    move the columns that [_epoch] reads.  On a row of [Fmax * 3] cells,
    the mask of a system selects first the three columns of each code
    that is retained, in the order of the codes, three for each of
    them; what the slots after the codes of the system select comes
    after these columns, where [_epoch] reads nothing. *)
Theorem unwritten_slots_keep_columns {A : Type} sk Fmax meas codes
    (row : list A) :
  Z.of_nat (length codes) <= Fmax ->
  length row = Z.to_nat (Fmax * 3) ->
  select_columns (SelMask (meas_mask sk Fmax (meas_ind meas codes))) row
  = Ok (keep_triples (meas_ind meas codes) row
        ++ mask_select (skipn (3 * length codes) (np_empty sk (Fmax * 3)))
             (skipn (3 * length codes) row))
  /\ length (keep_triples (meas_ind meas codes) row)
     = (3 * length (with_prefix meas codes))%nat.
Proof.
  intros Hcodes Hrow.
  assert (Hind : length (meas_ind meas codes) = length codes)
    by (rewrite meas_ind_spec; apply length_map).
  assert (Hfit : (3 * length codes <= Z.to_nat (Fmax * 3))%nat) by lia.
  split.
  - unfold select_columns. rewrite meas_mask_length, Hrow, Nat.eqb_refl.
    f_equal. rewrite meas_mask_spec by (rewrite Hind; exact Hfit).
    rewrite mask_select_app by (rewrite thrice_length, Hind, Hrow; exact Hfit).
    rewrite thrice_length, mask_select_thrice
      by (rewrite Hind, Hrow; exact Hfit).
    rewrite Hind. reflexivity.
  - rewrite keep_triples_length by (rewrite Hind, Hrow; exact Hfit).
    rewrite meas_ind_spec, true_count_map. reflexivity.
Qed.

End MaskColumns.

(** The mask of R in memory that is not zero selects the three columns
    of C1C, and after them the columns of the slots never written *)
Lemma unwritten_slots_keep_columns_example :
  @select_columns string
    (SelMask (@meas_mask Sample.dirty "R" 2 (meas_ind ["C1"] ["C1C"])))
    ["19000000.000"; ""; "5"; "x"; "y"; "z"]
  = Ok ["19000000.000"; ""; "5"; "x"; "y"; "z"]
  /\ keep_triples (meas_ind ["C1"] ["C1C"])
       ["19000000.000"; ""; "5"; "x"; "y"; "z"]
     = ["19000000.000"; ""; "5"].
Proof.
  destruct (@unwritten_slots_keep_columns Sample.dirty string "R" 2 ["C1"]
              ["C1C"] ["19000000.000"; ""; "5"; "x"; "y"; "z"])
    as [Hsel _].
  - simpl. lia.
  - reflexivity.
  - split; [rewrite Hsel; reflexivity | reflexivity].
Defined.

(** ** What [_epoch] asks of the header and of the grid *)

Section EpochSafe.
Context {E : Externals}.

Lemma enumerate_fst {A : Type} (l : list A) (i : nat) (x : A) :
  In (i, x) (enumerate l) -> (i < length l)%nat.
Proof.
  intros H. apply in_enumerate_index in H. unfold index in H.
  destruct (nth_error l i) eqn:Hn; [| discriminate H].
  apply nth_error_Some. congruence.
Qed.

(** Line 225 returns rows of the satellites when every identifier has
    a first character *)
Lemma system_rows_ok sk svs :
  Forall (fun s => s <> "") (map snd svs) ->
  exists si,
    system_rows sk svs = Ok si
    /\ forall i, In i si -> exists s, In (i, s) svs.
Proof.
  induction svs as [| [i s] svs IH]; simpl; intros H.
  - exists []. split; [reflexivity | intros i []].
  - inversion H as [| ? ? Hs Hrest]; subst.
    destruct (IH Hrest) as (si & Hsi & Hin).
    destruct s as [| c r]; [contradiction Hs; reflexivity |].
    rewrite Hsi. cbv [Py.head]. simpl.
    eexists. split; [reflexivity |].
    intros j Hj. destruct (Py.contains (String c "") sk).
    + destruct Hj as [<- | Hj]; [exists (String c r); left; reflexivity |].
      destruct (Hin j Hj) as [s' Hs']. exists s'. right. exact Hs'.
    + destruct (Hin j Hj) as [s' Hs']. exists s'. right. exact Hs'.
Qed.

Lemma mapM_index_ok {A : Type} (l : list A) (si : list nat) :
  (forall i, In i si -> (i < length l)%nat) ->
  exists l', mapM (index l) si = Ok l' /\ forall x, In x l' -> In x l.
Proof.
  induction si as [| i si IH]; simpl; intros H.
  - exists []. split; [reflexivity | intros x []].
  - destruct IH as (l' & Hl' & Hin); [intros j Hj; apply H; right; exact Hj |].
    unfold index at 1.
    destruct (nth_error l i) as [x |] eqn:Hx.
    + simpl. rewrite Hl'. simpl. exists (x :: l'). split; [reflexivity |].
      intros y [<- | Hy]; [eapply nth_error_In; exact Hx | exact (Hin y Hy)].
    + apply nth_error_None in Hx.
      pose proof (H i (or_introl eq_refl)). lia.
Qed.

Lemma mapM_ok_all {A B : Type} (g : A -> result B) (P : B -> Prop)
    (l : list A) :
  (forall a, In a l -> exists b, g a = Ok b /\ P b) ->
  exists l', mapM g l = Ok l' /\ Forall P l'.
Proof.
  induction l as [| a l IH]; simpl; intros H.
  - exists []. split; [reflexivity | constructor].
  - destruct (H a (or_introl eq_refl)) as (b & Hb & Pb).
    destruct IH as (l' & Hl' & Hall);
      [intros a' Ha'; apply H; right; exact Ha' |].
    rewrite Hb. simpl. rewrite Hl'. simpl.
    exists (b :: l'). split; [reflexivity | constructor; assumption].
Qed.

Lemma mask_select_length {A : Type} (mask : list bool) (row : list A) :
  length mask = length row ->
  length (mask_select mask row) = true_count mask.
Proof.
  revert row. induction mask as [| b mask IH]; intros row Hlen.
  - reflexivity.
  - destruct row as [| x row]; [discriminate Hlen |].
    injection Hlen as Hlen. unfold true_count in *. simpl.
    destruct b; simpl; rewrite IH by exact Hlen.
    + destruct (bool_dec true true); [reflexivity | contradiction].
    + destruct (bool_dec false true); [discriminate | reflexivity].
Qed.

(** A column of a grid whose rows are long enough *)
Lemma column_ok (arr : list (list cell)) (j : nat) :
  Forall (fun row => (j < length row)%nat) arr ->
  exists col, column arr j = Ok col.
Proof.
  intros H. unfold column.
  destruct (@mapM_ok_all _ _ (fun row => index row j) (fun _ => True) arr)
    as (col & Hcol & _); [| exists col; exact Hcol].
  intros row Hrow. rewrite Forall_forall in H. specialize (H row Hrow).
  unfold index. destruct (nth_error row j) eqn:Hn.
  - eexists. split; [reflexivity | exact I].
  - apply nth_error_None in Hn. lia.
Qed.

(** Lines 236-241 on a grid whose rows hold three columns for each
    code *)
Lemma epoch_variables_from useindicators garr codes :
  forall start d0,
    Forall (fun row => (3 * (start + length codes) <= length row)%nat) garr ->
    exists dsf,
      foldM (epoch_variable useindicators garr)
        (combine (seq start (length codes)) codes) d0 = Ok dsf.
Proof.
  induction codes as [| k codes IH]; intros start d0 Hrows; simpl.
  - exists d0. reflexivity.
  - destruct (@column_ok garr (start * 3)) as [value Hvalue].
    { eapply Forall_impl; [| exact Hrows]. simpl. intros row H. lia. }
    rewrite Hvalue. simpl.
    assert (Hnext : forall d1,
               exists dsf,
                 foldM (epoch_variable useindicators garr)
                   (combine (seq (S start) (length codes)) codes) d1
                 = Ok dsf).
    { intros d1. apply IH. eapply Forall_impl; [| exact Hrows].
      simpl. intros row H. lia. }
    destruct useindicators.
    + assert (Hpair : Forall (fun row => (1 < length row)%nat)
                        (columns garr (start * 3 + 1) (start * 3 + 3))).
      { unfold columns. apply Forall_forall. intros row Hrow.
        apply in_map_iff in Hrow. destruct Hrow as (row0 & <- & Hrow0).
        rewrite Forall_forall in Hrows. specialize (Hrows row0 Hrow0).
        simpl in Hrows. rewrite length_firstn, length_skipn. lia. }
      destruct (@column_ok _ 1 Hpair) as [ssi Hssi].
      destruct (@column_ok (columns garr (start * 3 + 1) (start * 3 + 3)) 0)
        as [lli Hlli].
      { eapply Forall_impl; [| exact Hpair]. simpl. intros row H. lia. }
      unfold _indicators. rewrite Hssi.
      destruct (is_phase k); [rewrite Hlli |]; simpl; apply Hnext.
    + apply Hnext.
Qed.

Lemma epoch_variables_ok useindicators garr codes :
  Forall (fun row => (3 * length codes <= length row)%nat) garr ->
  exists dsf, epoch_variables useindicators garr codes = Ok dsf.
Proof.
  intros H. unfold epoch_variables, enumerate.
  apply epoch_variables_from. exact H.
Qed.

(** The column selection of a system, applied to a row of [Fmax * 3]
    cells, leaves three columns or more for each code of the system *)
Lemma obsheader3_columns f use meas hdr f1 sk codes di :
  obsheader3 f use meas = Ok (hdr, f1) ->
  dict_get (hdr_fields hdr) sk = Ok codes ->
  dict_get (hdr_fields_ind hdr) sk = Ok di ->
  forall (A : Type) (row : list A),
    length row = Z.to_nat (hdr_Fmax hdr * 3) ->
    exists sel,
      select_columns di row = Ok sel
      /\ (3 * length codes <= length sel)%nat.
Proof.
  intros Hrun Hcodes Hdi A row Hrow.
  destruct (@obsheader3_fields_wf E f use meas hdr f1 Hrun)
    as (Hnd & Hkeys & Hlen & Hmask).
  pose proof (Hlen _ _ Hcodes) as Hbound.
  destruct di as [| mask].
  - exists row. split; [reflexivity | lia].
  - pose proof (Hmask _ _ Hdi) as Hsize.
    unfold select_columns. rewrite Hsize, Hrow, Nat.eqb_refl.
    eexists. split; [reflexivity |].
    rewrite mask_select_length by (rewrite Hsize, Hrow; reflexivity).
    assert (Hsk : In sk (dict_keys (hdr_fields hdr))).
    { apply dict_mem_keys. eapply dict_get_ok_mem. exact Hcodes. }
    pose proof Hrun as Hrun'. unfold obsheader3 in Hrun'.
    bind_split Hrun' as sf Hread. destruct sf as [st f2]. simpl in Hrun'.
    bind_split Hrun' as fields Hsel. bind_split Hrun' as fs Hmeas.
    destruct fs as [fields' sysind]. simpl in Hrun'.
    destruct meas as [| s | l].
    + simpl in Hmeas. injection Hmeas as <- <-.
      injection Hrun' as <- _. simpl in Hdi.
      apply dict_get_all_columns in Hdi. discriminate Hdi.
    + simpl in Hmeas. injection Hmeas as <- <-.
      injection Hrun' as <- _. simpl in Hdi.
      apply dict_get_all_columns in Hdi. discriminate Hdi.
    + destruct (@obsheader3_measurement_filter E f st f2 use l hdr f1
                  Hread Hrun sk Hsk)
        as (codes0 & mask' & _ & Hkept & Hmask' & _ & Hcount).
      rewrite Hkept in Hcodes. injection Hcodes as <-.
      rewrite Hmask' in Hdi. injection Hdi as <-.
      rewrite Hcount. lia.
Qed.

(** X15.  With the header that [obsheader3] returns, a grid of one row
    of [Fmax * 3] cells for each satellite of the epoch, and identifiers
    that have a first character, the work of [_epoch] on a system of the
    header raises nothing at its own lookups and indexing (lines
    225-241), with or without a filter of measurements and with or
    without the indicators: it leaves the dataset as it is, or it comes
    to the calls of [xarray] of lines 246-252 and returns what they
    return. *)
Theorem epoch_system_reaches_xarray f use meas hdr f1 darr time sv
    useindicators data sk :
  obsheader3 f use meas = Ok (hdr, f1) ->
  length darr = length sv ->
  Forall (fun row => length row = Z.to_nat (hdr_Fmax hdr * 3)) darr ->
  Forall (fun s => s <> "") sv ->
  In sk (dict_keys (hdr_fields hdr)) ->
  epoch_system hdr darr time sv useindicators data sk = Ok data
  \/ exists dsf gsv,
       epoch_system hdr darr time sv useindicators data sk
       = (epoch_data <- ds_make dsf time gsv ;;
          if (ds_len data =? 0)%nat then Ok epoch_data
          else if (length (hdr_fields hdr) =? 1)%nat
               then ds_concat data epoch_data
               else ds_merge data epoch_data).
Proof.
  intros Hrun Hrows Hshape Hsv Hsk.
  destruct (@obsheader3_fields_wf E f use meas hdr f1 Hrun)
    as (_ & Hkeys & _ & _).
  unfold epoch_system.
  destruct (system_rows_ok sk (enumerate sv)) as (si & Hsi & Hin);
    [rewrite enumerate_snd; exact Hsv |].
  rewrite Hsi. simpl.
  destruct (length si =? 0)%nat; [left; reflexivity | right].
  assert (Hlt : forall i, In i si -> (i < length sv)%nat).
  { intros i Hi. destruct (Hin i Hi) as [s Hs].
    eapply enumerate_fst. exact Hs. }
  destruct (dict_get_mem (hdr_fields hdr) sk) as [codes Hcodes];
    [apply dict_mem_keys; exact Hsk |].
  destruct (dict_get_mem (hdr_fields_ind hdr) sk) as [di Hdi];
    [apply dict_mem_keys; rewrite Hkeys; exact Hsk |].
  rewrite Hdi. simpl.
  destruct (mapM_index_ok darr si) as (garr0 & Hgarr0 & Hsub);
    [rewrite Hrows; exact Hlt |].
  rewrite Hgarr0. simpl.
  destruct (@mapM_ok_all _ _ (select_columns di)
              (fun sel : list cell => (3 * length codes <= length sel)%nat)
              garr0) as (garr & Hgarr & Hwide).
  { intros row Hrow. rewrite Forall_forall in Hshape.
    exact (@obsheader3_columns f use meas hdr f1 sk codes di
             Hrun Hcodes Hdi cell row (Hshape row (Hsub row Hrow))). }
  rewrite Hgarr. simpl.
  destruct (mapM_index_ok sv si Hlt) as (gsv & Hgsv & _).
  rewrite Hgsv. simpl. rewrite Hcodes. simpl.
  destruct (@epoch_variables_ok useindicators garr codes Hwide)
    as [dsf Hdsf].
  rewrite Hdsf. simpl.
  exists dsf, gsv. reflexivity.
Qed.

End EpochSafe.

(** The codes "C1C" of the systems G and R behind a filter, and an epoch
    of one GPS satellite *)
Lemma epoch_system_reaches_xarray_example :
  (@epoch_system Sample.zeroed
     (mkHeader [("version", HInfo ("3.03" : @info Sample.zeroed))]
        [("G", ["C1C"]); ("R", ["C1C"])]
        [("G", SelMask [true; true; true; false; false; false]);
         ("R", SelMask [true; true; true; false; false; false])] 2)
     [["20000000.000"; ""; "7"; "100000.000"; ""; "7"]]
     (Sample.at_second 10) ["G07"] true (@ds_empty Sample.zeroed) "G"
   = Ok (@ds_empty Sample.zeroed)
   \/ exists dsf gsv,
        @epoch_system Sample.zeroed
          (mkHeader [("version", HInfo ("3.03" : @info Sample.zeroed))]
             [("G", ["C1C"]); ("R", ["C1C"])]
             [("G", SelMask [true; true; true; false; false; false]);
              ("R", SelMask [true; true; true; false; false; false])] 2)
          [["20000000.000"; ""; "7"; "100000.000"; ""; "7"]]
          (Sample.at_second 10) ["G07"] true (@ds_empty Sample.zeroed) "G"
        = (epoch_data <- @ds_make Sample.zeroed dsf (Sample.at_second 10) gsv ;;
           if (@ds_len Sample.zeroed (@ds_empty Sample.zeroed) =? 0)%nat
           then Ok epoch_data
           else if (2 =? 1)%nat
                then @ds_concat Sample.zeroed (@ds_empty Sample.zeroed)
                       epoch_data
                else @ds_merge Sample.zeroed (@ds_empty Sample.zeroed)
                       epoch_data))
  /\ @epoch_system Sample.zeroed
       (mkHeader [("version", HInfo ("3.03" : @info Sample.zeroed))]
          [("G", ["C1C"]); ("R", ["C1C"])]
          [("G", SelMask [true; true; true; false; false; false]);
           ("R", SelMask [true; true; true; false; false; false])] 2)
       [["20000000.000"; ""; "7"; "100000.000"; ""; "7"]]
       (Sample.at_second 10) ["G07"] true (@ds_empty Sample.zeroed) "G"
     = @ds_make Sample.zeroed
         [("C1C", ["20000000.000"]); ("C1Cssi", ["7"])]
         (Sample.at_second 10) ["G07"].
Proof.
  split; [| reflexivity].
  refine (@epoch_system_reaches_xarray Sample.zeroed
            (Sample.header_GR ++ Sample.body_one) UseNone (MeasSeq ["C1"])
            _ Sample.body_one
            [["20000000.000"; ""; "7"; "100000.000"; ""; "7"]]
            (Sample.at_second 10) ["G07"] true (@ds_empty Sample.zeroed) "G"
            eq_refl eq_refl _ _ _).
  - repeat constructor.
  - repeat constructor. discriminate.
  - left. reflexivity.
Defined.
